(** * LoanLens AI backend: the conversation engine of [main.py]

  A shallow embedding of the request handlers of [main.py] (chat send,
  KYC upload, sanction generation, offer letter) over the session
  documents of [schemas.py], and the properties of the stage machine and
  of the underwriting rules.

  Modelling conventions.
  - Python [int] is [Z]; a [dict] read with [.get] is a record of
    optional fields; [None] is [None].
  - Python [str] is [string]; the text functions ([strip], [lower],
    [split], [title], the regular expression [\d+]) are given for ASCII
    text, which is the alphabet of every literal the handlers test for.
    Characters above 127 are kept as they are and count neither as
    letters, digits nor white space.
  - The MongoDB collection ["session"] is a finite map from the
    hexadecimal form of an [ObjectId] to the session document; a request
    handler is a computation that threads the collection and the clock
    and may raise. What a handler wrote before it raised stays written.
  - [approved * 0.01] is a binary64 product: it is computed with the
    kernel's floating-point numbers.
  - The collection keeps any integer, while the driver refuses to
    store one of 2^63 or more with an [OverflowError] that no handler
    catches. What is stated about a turn that stores a number read in
    the text is therefore stated for the numbers below 2^63 and, the
    text functions being those of ASCII, for ASCII text. *)

From Stdlib Require Import ZArith List String Ascii Bool Lia.
From Stdlib Require Import Floats Uint63 DecimalString DecimalFacts DecimalPos DecimalZ.
From stdpp Require Import base option gmap strings.

Import ListNotations.
Local Open Scope string_scope.
Local Open Scope Z_scope.

(** ** Python text *)

Module PyStr.

Definition code (c : ascii) : nat := nat_of_ascii c.

(** [str.isspace] on ASCII: tab, line feed, vertical tab, form feed,
    carriage return, the four separators 0x1c-0x1f, and space. *)
Definition is_space (c : ascii) : bool :=
  let n := code c in
  ((9 <=? n) && (n <=? 13) || (28 <=? n) && (n <=? 32))%nat.

(** The class [\d] on ASCII. *)
Definition is_digit (c : ascii) : bool :=
  let n := code c in ((48 <=? n) && (n <=? 57))%nat.

Definition is_upper (c : ascii) : bool :=
  let n := code c in ((65 <=? n) && (n <=? 90))%nat.

Definition is_lower (c : ascii) : bool :=
  let n := code c in ((97 <=? n) && (n <=? 122))%nat.

Definition is_cased (c : ascii) : bool := is_upper c || is_lower c.

Definition to_lower (c : ascii) : ascii :=
  if is_upper c then ascii_of_nat (code c + 32) else c.

Definition to_upper (c : ascii) : ascii :=
  if is_lower c then ascii_of_nat (code c - 32) else c.

(** [s.lower()] *)
Fixpoint lower (s : string) : string :=
  match s with
  | EmptyString => EmptyString
  | String c s' => String (to_lower c) (lower s')
  end.

(** [s.lstrip()], [s.rstrip()], [s.strip()] *)
Fixpoint lstrip (s : string) : string :=
  match s with
  | EmptyString => EmptyString
  | String c s' => if is_space c then lstrip s' else s
  end.

Fixpoint rstrip (s : string) : string :=
  match s with
  | EmptyString => EmptyString
  | String c s' =>
      match rstrip s' with
      | EmptyString => if is_space c then EmptyString else String c EmptyString
      | r => String c r
      end
  end.

Definition strip (s : string) : string := rstrip (lstrip s).

(** [s.startswith(p)] *)
Fixpoint starts_with (p s : string) : bool :=
  match p, s with
  | EmptyString, _ => true
  | String a p', String b s' => if Ascii.eqb a b then starts_with p' s' else false
  | String _ _, EmptyString => false
  end.

Fixpoint drop (n : nat) (s : string) : string :=
  match n, s with
  | O, _ => s
  | S n', String _ s' => drop n' s'
  | S _, EmptyString => EmptyString
  end.

(** [sub in s] *)
Fixpoint contains (sub s : string) : bool :=
  if starts_with sub s then true
  else match s with
       | EmptyString => false
       | String _ s' => contains sub s'
       end.

(** The cut of [s] at the first occurrence of [sep]: what is before it
    and what is after it. *)
Fixpoint partition (sep s : string) : option (string * string) :=
  if starts_with sep s then Some (EmptyString, drop (String.length sep) s)
  else match s with
       | EmptyString => None
       | String c s' =>
           match partition sep s' with
           | Some (before, after) => Some (String c before, after)
           | None => None
           end
       end.

(** [s.split(sep, 1)] for a non-empty [sep]: two pieces when [sep]
    occurs in [s], the whole of [s] alone when it does not. *)
Definition split1 (sep s : string) : list string :=
  match partition sep s with
  | Some (before, after) => [before; after]
  | None => [s]
  end.

(** [s.split()]: the maximal runs of characters that are not white
    space. [cur] is the run being read, latest character first. *)
Definition flush (cur : list ascii) : list string :=
  match cur with
  | [] => []
  | _ => [string_of_list_ascii (rev cur)]
  end.

Fixpoint runs (keep : ascii -> bool) (cur : list ascii) (s : string) : list string :=
  match s with
  | EmptyString => flush cur
  | String c s' =>
      if keep c then runs keep (c :: cur) s'
      else (flush cur ++ runs keep [] s')%list
  end.

Definition split (s : string) : list string :=
  runs (fun c => negb (is_space c)) [] s.

(** [re.findall(r"\d+", s)] *)
Definition findall_digits (s : string) : list string := runs is_digit [] s.

(** [sep.join(l)] *)
Fixpoint join (sep : string) (l : list string) : string :=
  match l with
  | [] => EmptyString
  | [x] => x
  | x :: l' => x ++ sep ++ join sep l'
  end.

(** [s.title()]: a cased character is put in upper case when the
    character before it is not cased, in lower case when it is. *)
Fixpoint title_from (previous_is_cased : bool) (s : string) : string :=
  match s with
  | EmptyString => EmptyString
  | String c s' =>
      String (if previous_is_cased then to_lower c else to_upper c)
             (title_from (is_cased c) s')
  end.

Definition title (s : string) : string := title_from false s.

(** [s.replace(",", "")] *)
Fixpoint remove_char (x : ascii) (s : string) : string :=
  match s with
  | EmptyString => EmptyString
  | String c s' => if Ascii.eqb c x then remove_char x s' else String c (remove_char x s')
  end.

(** The value of a string of decimal digits. *)
Definition digit_value (c : ascii) : Z := Z.of_nat (code c - 48).

Fixpoint digits_value (acc : Z) (s : string) : Z :=
  match s with
  | EmptyString => acc
  | String c s' => digits_value (10 * acc + digit_value c) s'
  end.

(** [sys.get_int_max_str_digits()]: [int] refuses a longer numeral with
    a [ValueError]. *)
Definition int_max_str_digits : nat := 4300.

(** [int(s)] for a non-empty string of decimal digits. *)
Definition int_of_digits (s : string) : option Z :=
  if (int_max_str_digits <? String.length s)%nat then None
  else Some (digits_value 0 s).

(** [str(n)] for an integer. *)
Definition str_of_int (n : Z) : string := NilZero.string_of_int (Z.to_int n).

(** [format(n, ",")]: the digits in groups of three from the right. *)
Fixpoint group3 (k : nat) (rev_digits : list ascii) : list ascii :=
  match rev_digits with
  | [] => []
  | c :: l =>
      match k, l with
      | _, [] => [c]
      | O, _ => c :: ","%char :: group3 2 l
      | S k', _ => c :: group3 k' l
      end
  end.

Definition commas (digits : string) : string :=
  string_of_list_ascii (rev (group3 2 (rev (list_ascii_of_string digits)))).

Definition format_comma (n : Z) : string :=
  if n <? 0 then "-" ++ commas (str_of_int (- n)) else commas (str_of_int n).

(** A number written with at least [width] digits, zero filled. *)
Fixpoint zeros (n : nat) : string :=
  match n with O => EmptyString | S n' => String "0"%char (zeros n') end.

Definition zero_fill (width : nat) (n : nat) : string :=
  let d := str_of_int (Z.of_nat n) in
  zeros (width - String.length d) ++ d.

End PyStr.

(** ** Python floating-point numbers (binary64) *)

Module PyFloat.

(** [float(n)] for an integer: the nearest binary64 number, ties to even;
    [None] is the [OverflowError] of an integer too large for a float. *)
Definition of_int (n : Z) : option float :=
  let f := SF2Prim (binary_normalize prec emax n 0 false) in
  if PrimFloat.is_infinity f then None else Some f.

(** The position of the binary point in the exponent that
    [PrimFloat.frshiftexp] returns for a 53-bit integer mantissa. *)
Definition point : int := Uint63.of_Z (FloatOps.shift + FloatOps.prec).

(** [int(f)]: [f] without its fractional part; [None] is the error
    raised for a NaN or an infinity. With [|f| = mant * 2^(e - point)],
    the integer part is [mant] shifted by [e - point] places. *)
Definition to_int (f : float) : option Z :=
  if PrimFloat.is_nan f || PrimFloat.is_infinity f then None
  else
    let (m, e) := PrimFloat.frshiftexp (PrimFloat.abs f) in
    let mant := PrimFloat.normfr_mantissa m in
    let mag :=
      if Uint63.leb point e
      then Uint63.to_Z mant * 2 ^ Uint63.to_Z (Uint63.sub e point)
      else Uint63.to_Z (Uint63.lsr mant (Uint63.sub point e)) in
    Some (if PrimFloat.ltb f 0%float then - mag else mag).

(** The literal [0.01]: the binary64 number nearest to one hundredth. *)
Definition hundredth : float := 0x1.47ae147ae147bp-7%float.

(** [int(n * 0.01)] for an integer [n]. *)
Definition int_of_hundredth (n : Z) : option Z :=
  match of_int n with
  | Some x => to_int (PrimFloat.mul x hundredth)
  | None => None
  end.

(** The same computation on a 63-bit machine integer, with every test
    that [of_int] and [to_int] make, compared with the integer quotient. *)
Definition hundredth_check (i : int) : bool :=
  let x := PrimFloat.of_uint63 i in
  let f := PrimFloat.mul x hundredth in
  negb (PrimFloat.is_infinity x)
  && negb (PrimFloat.is_nan f || PrimFloat.is_infinity f)
  && (let (m, e) := PrimFloat.frshiftexp (PrimFloat.abs f) in
      negb (Uint63.leb point e)
      && negb (PrimFloat.ltb f 0%float)
      && Uint63.eqb (Uint63.lsr (PrimFloat.normfr_mantissa m) (Uint63.sub point e))
                    (Uint63.div i 100%uint63)).

(** [P] on every integer of [base, base + 2^d). *)
Fixpoint all_below (d : nat) (base : Z) (P : Z -> bool) : bool :=
  match d with
  | O => P base
  | S d' => all_below d' base P && all_below d' (base + 2 ^ Z.of_nat d') P
  end.

End PyFloat.


(** ** Documents of the ["session"] collection ([schemas.py]) *)

(** A [datetime] as [datetime.utcnow()] returns it. *)
Record datetime := mkDatetime {
  year : nat; month : nat; day : nat;
  hour : nat; minute : nat; second : nat; microsecond : nat }.

(** [str(d.date())]: the ISO form of the date. *)
Definition date_str (d : datetime) : string :=
  PyStr.zero_fill 4 (year d) ++ "-" ++ PyStr.zero_fill 2 (month d) ++ "-" ++ PyStr.zero_fill 2 (day d).

(** An entry of [messages]: [{"role", "content", "timestamp"}]. *)
Record Message := mkMessage {
  role : string;
  content : string;
  timestamp : datetime }.

(** The [kyc] dictionary once written: the two file names as the upload
    carried them (a part may come without a name) and the flag. *)
Record Kyc := mkKyc {
  pan : option string;
  aadhaar : option string;
  verified : bool }.

(** A float with one fractional digit, counted in tenths: [14.0] is 140
    tenths. The rates are the only floats a session stores. *)
Record Rate := Tenths { tenths : Z }.

Definition rate_14_0 : Rate := Tenths 140.
Definition rate_16_0 : Rate := Tenths 160.

(** [str(r)] for such a float. *)
Definition rate_str (r : Rate) : string :=
  let t := Z.abs (tenths r) in
  (if tenths r <? 0 then "-" else "")
  ++ PyStr.str_of_int (t / 10) ++ "." ++ PyStr.str_of_int (t mod 10).

(** The [offer] dictionary: every key is optional, [{}] has none. *)
Record Offer := mkOffer {
  requested : option Z;
  approved : option Z;
  rate : option Rate;
  tenure_months : option Z;
  processing_fee : option Z;
  status : option string;
  letter : option string }.

Definition empty_offer : Offer := mkOffer None None None None None None None.

(** [not offer]: the dictionary has no key. *)
Definition offer_is_empty (o : Offer) : bool :=
  match o with
  | mkOffer None None None None None None None => true
  | _ => false
  end.

(** A key of a document whose value may be [None]: the key is missing,
    holds [None], or holds a value. *)
Inductive field (A : Type) : Type :=
| Missing
| Null
| Value (a : A).
Arguments Missing {A}.
Arguments Null {A}.
Arguments Value {A} a.

(** [doc.get(key, default)] *)
Definition get_default {A : Type} (f : field A) (d : A) : option A :=
  match f with
  | Missing => Some d
  | Null => None
  | Value a => Some a
  end.

(** The session document. [stage] is [None] when the key is missing;
    for the two optional integers a missing key and [None] read alike.
    [messages] may hold [None] entries (see [chat_send]). *)
Record Session := mkSession {
  stage : option string;
  customer_name : field string;
  monthly_income : option Z;
  requested_amount : option Z;
  kyc : option Kyc;
  offer : Offer;
  messages : list (option Message) }.

(** [Session()] of [schemas.py], with every default. *)
Definition SessionSchema : Session :=
  mkSession (Some "intro") Null None None None empty_offer [].

(** [session.get("stage", "intro")] *)
Definition get_stage (s : Session) : string := default "intro" (stage s).

(** The update documents the handlers send. *)
Inductive assignment :=
| SetCustomerName (name : string)
| SetRequestedAmount (amount : Z)
| SetMonthlyIncome (income : Z)
| SetStage (st : string)
| SetKyc (k : Kyc)
| SetOffer (o : Offer)
| SetOfferLetter (text : string).

Inductive update :=
| Push (m : option Message)       (* {"$push": {"messages": m}} *)
| Set_ (fields : list assignment). (* {"$set": {...}} *)

Definition with_letter (text : string) (o : Offer) : Offer :=
  mkOffer (requested o) (approved o) (rate o) (tenure_months o)
          (processing_fee o) (status o) (Some text).

Definition assign (s : Session) (a : assignment) : Session :=
  match a with
  | SetCustomerName n =>
      mkSession (stage s) (Value n) (monthly_income s) (requested_amount s) (kyc s) (offer s) (messages s)
  | SetRequestedAmount n =>
      mkSession (stage s) (customer_name s) (monthly_income s) (Some n) (kyc s) (offer s) (messages s)
  | SetMonthlyIncome n =>
      mkSession (stage s) (customer_name s) (Some n) (requested_amount s) (kyc s) (offer s) (messages s)
  | SetStage st =>
      mkSession (Some st) (customer_name s) (monthly_income s) (requested_amount s) (kyc s) (offer s) (messages s)
  | SetKyc k =>
      mkSession (stage s) (customer_name s) (monthly_income s) (requested_amount s) (Some k) (offer s) (messages s)
  | SetOffer o =>
      mkSession (stage s) (customer_name s) (monthly_income s) (requested_amount s) (kyc s) o (messages s)
  | SetOfferLetter t =>
      mkSession (stage s) (customer_name s) (monthly_income s) (requested_amount s) (kyc s)
                (with_letter t (offer s)) (messages s)
  end.

Definition push_message (m : option Message) (s : Session) : Session :=
  mkSession (stage s) (customer_name s) (monthly_income s) (requested_amount s) (kyc s) (offer s)
            (messages s ++ [m])%list.

Definition apply_update (u : update) (s : Session) : Session :=
  match u with
  | Push m => push_message m s
  | Set_ fields => fold_left assign fields s
  end.

(** ** Requests: the store, the clock and exceptions *)

Inductive exn :=
| HTTPException (status_code : nat) (detail : string)
| IndexError
| AttributeError
| OverflowError
| ValueError.

Inductive outcome (A : Type) : Type :=
| Return (a : A)
| Raise (e : exn).
Arguments Return {A} a.
Arguments Raise {A} e.

(** What a handler runs in: the [db] handle of [database.py] ([None]
    when no database is configured) holding the ["session"] collection,
    and the clock, as the sequence of the values [datetime.utcnow()]
    returns and the number of them already read. *)
Record World := mkWorld {
  db : option (gmap string Session);
  clock : nat -> datetime;
  reads : nat }.

Definition with_db (c : gmap string Session) (w : World) : World :=
  mkWorld (Some c) (clock w) (reads w).

(** A handler: it ends by returning or by raising, and leaves a world. *)
Definition M (A : Type) : Type := World -> outcome A * World.

#[global] Instance M_ret : MRet M := fun A a w => (Return a, w).

#[global] Instance M_bind : MBind M := fun A B k m w =>
  match m w with
  | (Return a, w') => k a w'
  | (Raise e, w') => (Raise e, w')
  end.

Definition raise {A : Type} (e : exn) : M A := fun w => (Raise e, w).

(** [datetime.utcnow()] *)
Definition utcnow : M datetime :=
  fun w => (Return (clock w (reads w)), mkWorld (db w) (clock w) (S (reads w))).

(** [_col(name)]: the collection, or the error of a missing database.
    The handlers only name ["session"]. *)
Definition _col (name : string) : M (gmap string Session) :=
  fun w =>
    match db w with
    | None => (Raise (HTTPException 500 "Database not configured"), w)
    | Some c => (Return c, w)
    end.

(** [_col("session").find_one({"_id": oid})] *)
Definition find_one (oid : string) : M (option Session) :=
  c ← _col "session"; mret (c !! oid).

(** The collection after a write. *)
Definition store (c : gmap string Session) : M unit :=
  fun w => (Return tt, with_db c w).

(** [_col("session").update_one({"_id": oid}, u)]: the document of that
    id is updated; when there is none, nothing is written. *)
Definition update_one (oid : string) (u : update) : M unit :=
  c ← _col "session";
  match c !! oid with
  | Some s => store (<[oid := apply_update u s]> c)
  | None => mret tt
  end.

Definition is_hex (c : ascii) : bool :=
  PyStr.is_digit c
  || (let n := PyStr.code (PyStr.to_lower c) in (97 <=? n) && (n <=? 102))%nat.

Fixpoint all_chars (p : ascii -> bool) (s : string) : bool :=
  match s with
  | EmptyString => true
  | String c s' => p c && all_chars p s'
  end.

(** [ObjectId(s)]: an [ObjectId] is written with 24 hexadecimal digits;
    it is kept in the form [str] gives it, in lower case. *)
Definition object_id (s : string) : option string :=
  if (String.length s =? 24)%nat && all_chars is_hex s
  then Some (PyStr.lower s) else None.

(** [_oid(s)] *)
Definition _oid (s : string) : M string :=
  match object_id s with
  | Some oid => mret oid
  | None => raise (HTTPException 400 "Invalid session id")
  end.

(** [_now()] *)
Definition _now : M datetime := utcnow.

(** [system_message(text)] *)
Definition system_message (text : string) : M Message :=
  t ← _now; mret (mkMessage "assistant" text t).

(** ** The handlers of [main.py] *)

(** [parse_int(text)]: the first run of digits once the commas are
    removed; [None] when there is none or when [int] refuses it. *)
Definition parse_int (text : string) : option Z :=
  match PyStr.findall_digits (PyStr.remove_char ","%char text) with
  | [] => None
  | n :: _ => PyStr.int_of_digits n
  end.

(** Python truth of an optional integer and of an optional string: the
    value when an [if] takes it as true ([None], [0] and [""] are false). *)
Definition truthy_int (n : option Z) : option Z :=
  match n with
  | Some z => if z =? 0 then None else Some z
  | None => None
  end.

Definition truthy_str (s : option string) : option string :=
  match s with
  | Some x => if (x =? "")%string then None else Some x
  | None => None
  end.

Definition is_some {A : Type} (o : option A) : bool :=
  match o with
  | Some _ => true
  | None => false
  end.

(** [l[1]]: the second item, or the [IndexError] of a list too short. *)
Definition second_item (l : list string) : outcome string :=
  match nth_error l 1 with
  | Some x => Return x
  | None => Raise IndexError
  end.

(** A computation without effect, run in a handler. *)
Definition lift {A : Type} (r : outcome A) : M A := fun w => (r, w).

(** [str(x)] inside an f-string, for a value that may be [None]. *)
Definition str_or_none (x : option string) : string :=
  match x with
  | Some s => s
  | None => "None"
  end.

Definition nl : string := String (ascii_of_nat 10) EmptyString.

(** [int(approved * 0.01)] *)
Definition int_of_hundredth (n : Z) : M Z :=
  match PyFloat.of_int n with
  | None => raise OverflowError
  | Some x =>
      let f := PrimFloat.mul x PyFloat.hundredth in
      match PyFloat.to_int f with
      | Some q => mret q
      | None => raise (if PrimFloat.is_nan f then ValueError else OverflowError)
      end
  end.

(** The text [generate_offer_letter] formats for an offer that is not
    empty, with [today] for [datetime.utcnow()]. *)
Definition letter_text (today : datetime) (name : option string) (offer : Offer) : string :=
  "LoanLens AI – Sanction Letter" ++ nl ++ nl
  ++ "Date: " ++ date_str today ++ nl
  ++ "To, " ++ str_or_none name ++ nl ++ nl
  ++ "We are pleased to sanction a personal loan with the following terms:" ++ nl
  ++ "Approved Amount: ₹" ++ PyStr.format_comma (default 0 (approved offer)) ++ nl
  ++ "Interest Rate: " ++ from_option rate_str "0" (rate offer) ++ "% p.a." ++ nl
  ++ "Tenure: " ++ PyStr.str_of_int (default 0 (tenure_months offer)) ++ " months" ++ nl
  ++ "Processing Fee: ₹" ++ PyStr.format_comma (default 0 (processing_fee offer)) ++ nl ++ nl
  ++ "This is a system-generated letter and does not require a signature." ++ nl.

(** [generate_offer_letter(name, offer)] *)
Definition generate_offer_letter (name : option string) (offer : Offer) : M string :=
  if offer_is_empty offer then mret "No offer available."
  else today ← utcnow; mret (letter_text today name offer).

(** The body of a chat request. *)
Record ChatInput := mkChatInput {
  session_id : option string;
  message : string }.

(** What [chat_send] returns: [{"session_id", "reply", "stage"}]. *)
Record ChatResponse := mkChatResponse {
  resp_session_id : string;
  resp_reply : option Message;
  resp_stage : option string }.

(** An uploaded part: [filename], [content_type] and what [read()] gives. *)
Record UploadFile := mkUploadFile {
  filename : option string;
  content_type : option string;
  file_content : list Byte.byte }.

(** What [verification_upload] returns: [{"ok": True, "message": msg}]. *)
Record UploadResponse := mkUploadResponse {
  ok : bool;
  upload_message : Message }.

Definition confirmations : list string := ["yes"; "ok"; "proceed"; "generate"; "sure"].

Definition allowed : list string := ["image/jpeg"; "image/png"; "application/pdf"].

Definition mem_str (x : string) (l : list string) : bool :=
  existsb (String.eqb x) l.

(** The branches of [chat_send] on the stage (lines 140-212), each giving
    the reply. [oid] is the id of the session, [session] the document as
    it was read at the start of the request, [text] the stripped message. *)

(** The name, lines 142-149: the three marks are looked for in the text
    in lower case, in this order, and the text as written is split. *)
Definition after_mark (sep text : string) : outcome (option string) :=
  match second_item (PyStr.split1 sep text) with
  | Return x => Return (Some (PyStr.strip x))
  | Raise e => Raise e
  end.

Definition extract_name (text : string) : outcome (option string) :=
  let tl := PyStr.lower text in
  if PyStr.contains "name is" tl then after_mark "is" text
  else if PyStr.contains "i am" tl then after_mark "i am" text
  else if PyStr.contains "i'm" tl then after_mark "i'm" text
  else Return None.

(** The [updates] dictionary, lines 150-154. *)
Definition intro_updates (name : option string) (amt : option Z) : list assignment :=
  (match truthy_str name with
   | Some name =>
       [SetCustomerName (PyStr.title (PyStr.join " " (take 3 (PyStr.split name))))]
   | None => []
   end
   ++ match truthy_int amt with
      | Some amt => [SetRequestedAmount amt]
      | None => []
      end)%list.

(** [stage == "intro"] *)
Definition intro_reply (oid : string) (text : string) : M (option Message) :=
  let amt := parse_int text in
  name ← lift (extract_name text);
  let updates := intro_updates name amt in
  '(updates, reply) ←
    (if is_some (truthy_int amt) || is_some (truthy_str name) then
       r ← system_message
             "Great. To proceed, please upload your KYC: PAN and Aadhaar. You can upload images (JPG/PNG) or PDF.";
       mret ((updates ++ [SetStage "verification"])%list, r)
     else
       r ← system_message
             "Got it. Please share your full name and the loan amount you need (e.g., 500000).";
       mret (updates, r));
  match updates with
  | [] => mret (Some reply)
  | _ => update_one oid (Set_ updates);; mret (Some reply)
  end.

(** [stage == "verification"] *)
Definition verification_reply : M (option Message) :=
  r ← system_message "Awaiting KYC documents. Upload PAN and Aadhaar to continue.";
  mret (Some r).

(** The offer dictionary built in the underwriting branch. *)
Definition make_offer (requested approved percent : Z) (status : string) : Offer :=
  mkOffer (Some requested)
          (Some approved)
          (Some (if 300000 <=? approved then rate_14_0 else rate_16_0))
          (Some (if 300000 <=? approved then 48 else 36))
          (Some (Z.max 1999 percent))
          (Some status)
          None.

(** [stage == "underwriting"] *)
Definition underwriting_reply (oid : string) (session : Session) (text : string)
  : M (option Message) :=
  let income := parse_int text in
  match truthy_int income with
  | Some income =>
      update_one oid (Set_ [SetMonthlyIncome income]);;
      let max_amount := Z.min (income * 20) 500000 in
      let requested := default max_amount (truthy_int (requested_amount session)) in
      let approved := Z.min requested max_amount in
      let status :=
        if (25000 <=? income) && (0 <? approved) then "approved" else "rejected" in
      percent ← int_of_hundredth approved;
      let offer := make_offer requested approved percent status in
      update_one oid (Set_ [SetOffer offer; SetStage "sanction"]);;
      if (status =? "approved")%string then
        r ← system_message
              ("You're eligible. Approved amount: ₹" ++ PyStr.format_comma approved
               ++ ". Shall I generate your sanction letter?");
        mret (Some r)
      else
        r ← system_message
              "Based on your income, we can’t approve the requested amount at this time.";
        mret (Some r)
  | None =>
      r ← system_message "Please share your monthly income (e.g., 30000).";
      mret (Some r)
  end.

(** [stage == "sanction"] *)
Definition sanction_reply (oid : string) (text : string) : M (option Message) :=
  if existsb (fun k => PyStr.contains k (PyStr.lower text)) confirmations then
    s ← find_one oid;
    match s with
    | None => raise AttributeError
    | Some s =>
        let name := get_default (customer_name s) "Customer" in
        let offer := offer s in
        letter ← generate_offer_letter name offer;
        update_one oid (Set_ [SetOfferLetter letter; SetStage "complete"]);;
        r ← system_message "Sanction letter generated. You can download it now.";
        mret (Some r)
    end
  else
    r ← system_message "Say 'yes' to generate your sanction letter.";
    mret (Some r).

(** [stage == "complete"] *)
Definition complete_reply : M (option Message) :=
  r ← system_message "Your application is complete. How else can I help today?";
  mret (Some r).

(** The [if]/[elif] chain; with no branch taken [reply] stays [None]. *)
Definition stage_reply (st : string) (oid : string) (session : Session) (text : string)
  : M (option Message) :=
  if (st =? "intro")%string then intro_reply oid text
  else if (st =? "verification")%string then verification_reply
  else if (st =? "underwriting")%string then underwriting_reply oid session text
  else if (st =? "sanction")%string then sanction_reply oid text
  else if (st =? "complete")%string then complete_reply
  else mret None.

Section handlers.

(** [create_document(collection, data)] of [database.py], which is not
    part of the sources read here: it stores the document and returns the
    new id as a string. *)
Variable create_document : string -> Session -> M string.

(** [chat_send(payload)] *)
Definition chat_send (payload : ChatInput) : M ChatResponse :=
  sid ← match truthy_str (session_id payload) with
        | Some s => mret s
        | None => create_document "session" SessionSchema
        end;
  oid ← _oid sid;
  found ← find_one oid;
  match found with
  | None => raise (HTTPException 404 "Session not found")
  | Some session =>
      now ← _now;
      let user_msg := mkMessage "user" (message payload) now in
      update_one oid (Push (Some user_msg));;
      let st := get_stage session in
      let text := PyStr.strip (message payload) in
      reply ← stage_reply st oid session text;
      update_one oid (Push reply);;
      after ← find_one oid;
      match after with
      | None => raise AttributeError
      | Some s' => mret (mkChatResponse sid reply (stage s'))
      end
  end.

(** The two tests [verification_upload] makes on a part. *)
Definition check_upload (f : UploadFile) : M unit :=
  if negb (from_option (fun t => mem_str t allowed) false (content_type f)) then
    raise (HTTPException 400 ("Invalid file type: " ++ str_or_none (filename f)))
  else if Z.of_nat (length (file_content f)) <? 10 * 1024 then
    raise (HTTPException 400 ("File too small/unclear: " ++ str_or_none (filename f)))
  else mret tt.

(** [verification_upload(session_id, pan, aadhaar)] *)
Definition verification_upload (session_id : string) (pan aadhaar : UploadFile)
  : M UploadResponse :=
  check_upload pan;;
  check_upload aadhaar;;
  oid ← _oid session_id;
  sdoc ← find_one oid;
  match sdoc with
  | None => raise (HTTPException 404 "Session not found")
  | Some _ =>
      update_one oid
        (Set_ [SetKyc (mkKyc (filename pan) (filename aadhaar) true); SetStage "underwriting"]);;
      msg ← system_message "KYC verified successfully. What’s your monthly income?";
      update_one oid (Push (Some msg));;
      mret (mkUploadResponse true msg)
  end.

(** [generate_sanction(session_id)]; the result is the value of ["letter"]. *)
Definition generate_sanction (session_id : string) : M string :=
  oid ← _oid session_id;
  s ← find_one oid;
  match s with
  | None => raise (HTTPException 404 "Session not found")
  | Some s =>
      let offer := offer s in
      let name := get_default (customer_name s) "Customer" in
      letter ← generate_offer_letter name offer;
      update_one oid (Set_ [SetOfferLetter letter; SetStage "complete"]);;
      mret letter
  end.

End handlers.

(** ** A sample collection and clock, for running the handlers *)

Definition sample_id : string := "0123456789abcdef01234567".

(** A clock that returns 4 November 2026, 09:00, one second later at
    each reading. *)
Definition sample_clock (n : nat) : datetime := mkDatetime 2026 11 4 9 0 n 0.

(** A collection holding the one session [s], with the clock unread. *)
Definition sample_world (s : Session) : World :=
  mkWorld (Some {[ sample_id := s ]}) sample_clock 0.

(** A [create_document] that stores nothing, for requests that name their
    session and so never call it. *)
Definition no_create : string -> Session -> M string :=
  fun _ _ => raise (HTTPException 500 "Database not configured").

Definition in_stage (st : string) : Session :=
  mkSession (Some st) Null None None None empty_offer [].

(** The session of [in_stage st], as the collection of a world holds it. *)
Definition session_of (w : World) (oid : string) : option Session :=
  match db w with
  | Some c => c !! oid
  | None => None
  end.

(** A part that passes the checks of [verification_upload]. *)
Definition sample_file (name : string) : UploadFile :=
  mkUploadFile (Some name) (Some "image/png") (repeat Byte.x00 (Z.to_nat (10 * 1024))).

(** ** Words for the statements *)

(** The record of the user's message, as [chat_send] stores it. *)
Definition user_message (msg : string) (now : datetime) : Message :=
  mkMessage "user" msg now.

(** The record of a reply, as [system_message] builds it. *)
Definition assistant_message (text : string) (now : datetime) : Message :=
  mkMessage "assistant" text now.

(** The world in which the branch on the stage runs: the user's message
    is stored already, and the clock was read once. *)
Definition received (c : gmap string Session) (clk : nat -> datetime) (n : nat)
           (oid msg : string) (s : Session) : World :=
  mkWorld (Some (<[oid := push_message (Some (user_message msg (clk n))) s]> c)) clk (S n).

(** [s] with the records [l] added to [messages] and nothing else changed. *)
Definition add_messages (l : list (option Message)) (s : Session) : Session :=
  mkSession (stage s) (customer_name s) (monthly_income s) (requested_amount s) (kyc s) (offer s)
            (messages s ++ l)%list.

(** The order of the stages. *)
Definition stages : list string :=
  ["intro"; "verification"; "underwriting"; "sanction"; "complete"].

Fixpoint index_of (x : string) (l : list string) : option nat :=
  match l with
  | [] => None
  | y :: l' => if (x =? y)%string then Some O else option_map S (index_of x l')
  end.

Definition stage_rank (st : string) : option nat := index_of st stages.

(** [b] is the stage [a] or a later one. *)
Definition stage_forward (a b : string) : Prop :=
  match stage_rank a, stage_rank b with
  | Some i, Some j => (i <= j)%nat
  | _, _ => False
  end.

(** The requests a client can make on the session of id [sid]. *)
Inductive operation :=
| Chat (msg : string)
| Upload (pan aadhaar : UploadFile)
| Generate.

Definition is_upload (op : operation) : bool :=
  match op with
  | Upload _ _ => true
  | _ => false
  end.

(** The world a request leaves, whether it returned or raised. *)
Definition perform (create_document : string -> Session -> M string)
           (sid : string) (op : operation) (w : World) : World :=
  match op with
  | Chat msg => snd (chat_send create_document (mkChatInput (Some sid) msg) w)
  | Upload p a => snd (verification_upload sid p a w)
  | Generate => snd (generate_sanction sid w)
  end.

Definition perform_all (create_document : string -> Session -> M string)
           (sid : string) (ops : list operation) (w : World) : World :=
  fold_left (fun w op => perform create_document sid op w) ops w.

(** A part that [verification_upload] accepts. *)
Definition accepted (f : UploadFile) : bool :=
  from_option (fun t => mem_str t allowed) false (content_type f)
  && negb (Z.of_nat (length (file_content f)) <? 10 * 1024).

(** The amount a session asks for, when it holds one, is positive: the
    state in which the handlers leave [requested_amount]. *)
Definition amount_ok (s : Session) : Prop :=
  match requested_amount s with
  | Some r => 0 < r
  | None => True
  end.

(** What [generate_offer_letter] returns for a session, with [now] for
    the clock, and the number of times it reads the clock. *)
Definition letter_of (now : datetime) (s : Session) : string :=
  if offer_is_empty (offer s) then "No offer available."
  else letter_text now (get_default (customer_name s) "Customer") (offer s).

Definition letter_reads (s : Session) : nat :=
  if offer_is_empty (offer s) then 0%nat else 1%nat.

(** [text.lower()] holds one of the words that confirm. *)
Definition confirms (text : string) : bool :=
  existsb (fun k => PyStr.contains k (PyStr.lower text)) confirmations.

(** [text.lower()] holds none of the three marks of a name. *)
Definition no_name_mark (text : string) : bool :=
  negb (PyStr.contains "name is" (PyStr.lower text))
  && negb (PyStr.contains "i am" (PyStr.lower text))
  && negb (PyStr.contains "i'm" (PyStr.lower text)).

(** A session in stage sanction holding the offer of the specification's
    sequence scenario: 500000 asked, income 30000. *)
Definition offered_session : Session :=
  mkSession (Some "sanction") (Value "Ravi Kumar") (Some 30000) (Some 500000)
            (Some (mkKyc (Some "pan.png") (Some "aadhaar.png") true))
            (make_offer 500000 500000 5000 "approved") [].

(** A session in stage underwriting that asked for [amount]. *)
Definition underwriting_session (amount : option Z) : Session :=
  mkSession (Some "underwriting") Null None amount
            (Some (mkKyc (Some "pan.png") (Some "aadhaar.png") true))
            empty_offer [].

(** The first mark of a name that [text.lower()] holds is not in [text]
    as it is written (for "name is", the word "is" is not). *)
Definition mark_missing (text : string) : bool :=
  let tl := PyStr.lower text in
  if PyStr.contains "name is" tl then negb (PyStr.contains "is" text)
  else if PyStr.contains "i am" tl then negb (PyStr.contains "i am" text)
  else if PyStr.contains "i'm" tl then negb (PyStr.contains "i'm" text)
  else false.

(** What a branch of [chat_send] taken for the stage [st] may do to the
    session: it leaves [messages] to the frame, keeps [amount_ok], and
    either keeps the stage or takes the one step forward of [st]. *)
Definition branch_moves (st : string) (s s' : Session) : Prop :=
  messages s' = messages s
  /\ (amount_ok s -> amount_ok s')
  /\ (stage s' = stage s
      \/ (st = "intro" /\ stage s' = Some "verification")
      \/ (st = "underwriting" /\ stage s' = Some "sanction")
      \/ (st = "sanction" /\ stage s' = Some "complete")).

(** A valid part for [verification_upload], and a session that reached
    the last stage. *)
Definition completed_session : Session :=
  mkSession (Some "complete") (Value "Ravi Kumar") (Some 30000) (Some 500000)
            (Some (mkKyc (Some "pan.png") (Some "aadhaar.png") true))
            (with_letter "letter" (make_offer 500000 500000 5000 "approved")) [].

(** ** The other routes of [main.py] *)

(** What [get_session] returns: the document with its ["_id"] replaced
    by [str(_id)]. *)
Record SessionView := mkSessionView {
  view_id : string;
  view_session : Session }.

(** [get_session(session_id)]. In
    [_col("session").find_one({"_id": _oid(session_id)})] the collection
    is taken before the argument is evaluated, so a missing database is
    reported before a malformed id. *)
Definition get_session (session_id : string) : M SessionView :=
  c ← _col "session";
  oid ← _oid session_id;
  match c !! oid with
  | None => raise (HTTPException 404 "Session not found")
  | Some s => mret (mkSessionView oid s)
  end.

(** What [start_session] returns: [{"session_id", "message"}]. *)
Record StartResponse := mkStartResponse {
  start_session_id : string;
  start_message : Message }.

Definition welcome_text : string :=
  "Hi! I’m your loan assistant. What’s your full name and the loan amount you’re looking for?".

Section start.

(** [create_document] of [database.py], as for [chat_send]. *)
Variable create_document : string -> Session -> M string.

(** [start_session()] *)
Definition start_session : M StartResponse :=
  session_id ← create_document "session" SessionSchema;
  oid ← _oid session_id;
  welcome ← system_message welcome_text;
  update_one oid (Push (Some welcome));;
  mret (mkStartResponse session_id welcome).

End start.

(** A [create_document] that stores the document under the id [sid] and
    returns it: what the persistence layer does for a fresh id. *)
Definition create_at (sid : string) : string -> Session -> M string :=
  fun _ doc w =>
    match db w, object_id sid with
    | Some c, Some oid => (Return sid, with_db (<[oid := doc]> c) w)
    | _, _ => (Raise (HTTPException 500 "Database not configured"), w)
    end.

(** The two tests on an uploaded part, one by one. *)
Definition type_allowed (f : UploadFile) : bool :=
  from_option (fun t => mem_str t allowed) false (content_type f).

Definition too_small (f : UploadFile) : bool :=
  Z.of_nat (length (file_content f)) <? 10 * 1024.

(** A part of [size] bytes with the given name and type. *)
Definition file_of (name type : string) (size : Z) : UploadFile :=
  mkUploadFile (Some name) (Some type) (repeat Byte.x00 (Z.to_nat size)).

(** ** Words for the statements about numbers *)

(** [text] holds no digit. *)
Definition no_digit (text : string) : bool :=
  all_chars (fun c => negb (PyStr.is_digit c)) text.

(** [text] is empty or starts with an ASCII character that is neither a
    digit nor a comma: a numeral put in front of it ends where [text]
    starts. *)
Definition ends_numeral (text : string) : bool :=
  match text with
  | EmptyString => true
  | String c _ =>
      (PyStr.code c <? 128)%nat && negb (PyStr.is_digit c) && negb (Ascii.eqb c ","%char)
  end.

(** [text] is ASCII text, for which the text functions of [PyStr] are
    those of Python. *)
Definition ascii_text (text : string) : bool :=
  all_chars (fun c => (PyStr.code c <? 128)%nat) text.

(** ** Words for the statements about names *)

(** The separator at which the intro branch splits the text, lines
    144-149: chosen by what the text in lower case holds. *)
Definition name_cut (text : string) : option string :=
  let tl := PyStr.lower text in
  if PyStr.contains "name is" tl then Some "is"
  else if PyStr.contains "i am" tl then Some "i am"
  else if PyStr.contains "i'm" tl then Some "i'm"
  else None.

(** [s] without its last character. *)
Fixpoint but_last (s : string) : string :=
  match s with
  | EmptyString => EmptyString
  | String c s' =>
      match s' with
      | EmptyString => EmptyString
      | _ => String c (but_last s')
      end
  end.

(** In [before ++ sep ++ rest], the [sep] written is the first one:
    no occurrence of [sep] starts in [before]. *)
Definition occurs_first (sep before : string) : bool :=
  negb (PyStr.contains sep (before ++ but_last sep)).

(** A string that [ObjectId] refuses whatever else it holds: its length
    is not 24, or one of its characters is neither a hexadecimal digit
    nor white space (the 24 characters are handed to [bytes.fromhex],
    which skips white space). *)
Definition refused_id (s : string) : bool :=
  negb (String.length s =? 24)%nat
  || negb (all_chars (fun c => is_hex c || PyStr.is_space c) s).

(** The number [parse_int] reads in [text], when there is one, fits the
    8 bytes of a BSON integer. The driver refuses to store a larger one
    with an [OverflowError] that the handlers do not catch; the store of
    this development keeps any integer, so the statements about what a
    turn stores are made for the numbers that fit. *)
Definition fits_int64 (text : string) : Prop :=
  match parse_int text with
  | Some z => z < 2 ^ 63
  | None => True
  end.

(** ** What the letter shows, in the words of the specification *)

(** [shown] is the decimal numeral of [n]: digits only, at least one,
    of value [n], with no zero in front unless it is "0" itself. *)
Definition numeral (n : Z) (shown : string) : Prop :=
  all_chars PyStr.is_digit shown = true
  /\ shown <> ""
  /\ PyStr.digits_value 0 shown = n
  /\ (PyStr.starts_with "0" shown = true -> shown = "0").

(** Digits in groups of three counted from the right, a comma between
    two groups and nowhere else. [l] is the text read from its end and
    [k] the number of digits that may still come before a comma is due. *)
Fixpoint grouped (k : nat) (l : list ascii) : bool :=
  match l with
  | [] => false
  | c :: r =>
      PyStr.is_digit c
      && match r with
         | [] => true
         | x :: r' =>
             match k with
             | O => Ascii.eqb x ","%char && grouped 2 r'
             | S k' => grouped k' r
             end
         end
  end.

(** [shown] is [n] rendered with thousands separators. *)
Definition thousands (n : Z) (shown : string) : Prop :=
  grouped 2 (rev (list_ascii_of_string shown)) = true
  /\ numeral n (PyStr.remove_char ","%char shown).

(** [shown] is [width] digits of value [n]. *)
Definition padded (width : nat) (n : nat) (shown : string) : Prop :=
  String.length shown = width
  /\ all_chars PyStr.is_digit shown = true
  /\ PyStr.digits_value 0 shown = Z.of_nat n.

(** [shown] is the date of [t] in the form YYYY-MM-DD. *)
Definition iso_date (t : datetime) (shown : string) : Prop :=
  exists y m d : string,
    shown = y ++ "-" ++ m ++ "-" ++ d
    /\ padded 4 (year t) y /\ padded 2 (month t) m /\ padded 2 (day t) d.

(** The numbers from 0 to [bound], [bound] left out, are written with
    at most [width] digits: checked on every number below [2^d]. *)
Definition short_below (width : nat) (bound : Z) (d : nat) : bool :=
  PyFloat.all_below d 0
    (fun a => (bound <=? a) || (String.length (PyStr.str_of_int a) <=? width)%nat).
Example strip_ex : PyStr.strip "  my name is  Jane " = "my name is  Jane".
Proof. reflexivity. Qed.
Example split1_ex : PyStr.split1 "is" "this name is Bob" = ["th"; " name is Bob"].
Proof. reflexivity. Qed.
Example split1_none : PyStr.split1 "i am" "I am Bob" = ["I am Bob"].
Proof. reflexivity. Qed.
Example split_ex : PyStr.split " a  b c d " = ["a"; "b"; "c"; "d"].
Proof. reflexivity. Qed.
Example title_ex : PyStr.title "jaNE o'neil 3rd" = "Jane O'Neil 3Rd".
Proof. reflexivity. Qed.
Example findall_ex : PyStr.findall_digits "a12b 345" = ["12"; "345"].
Proof. reflexivity. Qed.
Example comma_ex : map PyStr.format_comma [0; 999; 1000; 500000; 1234567; -1234]
                   = ["0"; "999"; "1,000"; "500,000"; "1,234,567"; "-1,234"].
Proof. reflexivity. Qed.
Example fill_ex : PyStr.zero_fill 4 26 ++ "-" ++ PyStr.zero_fill 2 11 = "0026-11".
Proof. reflexivity. Qed.

Example to_int_ex :
map PyFloat.to_int [4999.5; -1.5; -0.5; 0; 0x1p-1074; 9007199254740992; infinity; nan]%float
= [Some 4999; Some (-1); Some 0; Some 0; Some 0; Some 9007199254740992; None; None].
Proof. vm_compute. reflexivity. Qed.
Example of_int_ex :
(PyFloat.of_int 50000, PyFloat.of_int (2 ^ 53 + 1), PyFloat.of_int (2 ^ 1024))
= (Some 50000%float, Some 9007199254740992%float, None).
Proof. vm_compute. reflexivity. Qed.
Example int_of_hundredth_ex :
map PyFloat.int_of_hundredth [50000; 400000; 299999; 100; 99; 0; -5; -250]
= [Some 500; Some 4000; Some 2999; Some 1; Some 0; Some 0; Some 0; Some (-2)].
Proof. vm_compute. reflexivity. Qed.

Section float_facts.

Lemma all_below_spec (P : Z -> bool) (d : nat) :
  forall base : Z,
    PyFloat.all_below d base P = true ->
    forall a : Z, base <= a < base + 2 ^ Z.of_nat d -> P a = true.
Proof.
  induction d as [|d IH]; intros base Hall a Ha; simpl in Hall.
  - change (2 ^ Z.of_nat 0) with 1 in Ha. replace a with base by lia. exact Hall.
  - apply andb_true_iff in Hall as [Hlo Hhi].
    rewrite Nat2Z.inj_succ, Z.pow_succ_r in Ha by lia.
    destruct (Z_lt_dec a (base + 2 ^ Z.of_nat d)) as [Hlt|Hge].
    + apply (IH base Hlo). lia.
    + apply (IH _ Hhi). lia.
Qed.

Lemma of_int_uint63 (a : Z) :
  0 <= a < wB ->
  PrimFloat.is_infinity (PrimFloat.of_uint63 (Uint63.of_Z a)) = false ->
  PyFloat.of_int a = Some (PrimFloat.of_uint63 (Uint63.of_Z a)).
Proof.
  intros Ha Hfin. unfold PyFloat.of_int.
  assert (Hsf : binary_normalize prec emax a 0 false
                = Prim2SF (PrimFloat.of_uint63 (Uint63.of_Z a))).
  { rewrite of_uint63_spec, Uint63.of_Z_spec, Z.mod_small by exact Ha. reflexivity. }
  rewrite Hsf, SF2Prim_Prim2SF, Hfin. reflexivity.
Qed.

Lemma hundredth_check_sound (a : Z) :
  0 <= a < wB ->
  PyFloat.hundredth_check (Uint63.of_Z a) = true ->
  PyFloat.int_of_hundredth a = Some (a / 100).
Proof.
  intros Ha Hc. unfold PyFloat.hundredth_check in Hc.
  apply andb_true_iff in Hc as [Hc Hm].
  apply andb_true_iff in Hc as [Hx Hf].
  apply negb_true_iff in Hx, Hf.
  unfold PyFloat.int_of_hundredth. rewrite (of_int_uint63 a Ha Hx).
  unfold PyFloat.to_int. rewrite Hf.
  destruct (PrimFloat.frshiftexp _) as [m e].
  apply andb_true_iff in Hm as [Hm Heq].
  apply andb_true_iff in Hm as [Hpt Hsg].
  apply negb_true_iff in Hpt, Hsg. rewrite Hpt, Hsg.
  apply Uint63.eqb_spec in Heq. rewrite Heq.
  rewrite Uint63.div_spec, Uint63.of_Z_spec, Z.mod_small by exact Ha.
  reflexivity.
Qed.

Lemma hundredth_checked : PyFloat.all_below 19 0 (fun a => PyFloat.hundredth_check (Uint63.of_Z a)) = true.
Proof. vm_compute. reflexivity. Qed.

(** On the amounts an offer can hold, the binary64 product truncates
    to the integer quotient by 100. *)
Lemma int_of_hundredth_exact (a : Z) :
  0 <= a <= 500000 -> PyFloat.int_of_hundredth a = Some (a / 100).
Proof.
  intros Ha. apply hundredth_check_sound.
  - change wB with 9223372036854775808. lia.
  - apply (all_below_spec _ 19 0 hundredth_checked). change (2 ^ Z.of_nat 19) with 524288. lia.
Qed.

End float_facts.

(** * Properties *)

(** ** Running a handler *)

Section run.

Context {A B : Type}.

Lemma run_bind (m : M A) (k : A -> M B) (w : World) :
  (m ≫= k) w = match m w with
               | (Return a, w') => k a w'
               | (Raise e, w') => (Raise e, w')
               end.
Proof. reflexivity. Qed.

Lemma run_ret (a : A) (w : World) : (mret a : M A) w = (Return a, w).
Proof. reflexivity. Qed.

Lemma run_raise (e : exn) (w : World) : @raise A e w = (Raise e, w).
Proof. reflexivity. Qed.

End run.

Section run_store.

Variables (c : gmap string Session) (clk : nat -> datetime) (n : nat).

Lemma run_find_one (oid : string) :
  find_one oid (mkWorld (Some c) clk n) = (Return (c !! oid), mkWorld (Some c) clk n).
Proof. reflexivity. Qed.

Lemma run_update_one (oid : string) (u : update) (s : Session) :
  c !! oid = Some s ->
  update_one oid u (mkWorld (Some c) clk n)
  = (Return tt, mkWorld (Some (<[oid := apply_update u s]> c)) clk n).
Proof.
  intros Hs. unfold update_one. rewrite run_bind. cbn [_col db].
  rewrite Hs. reflexivity.
Qed.

Lemma run_utcnow (d : option (gmap string Session)) :
  utcnow (mkWorld d clk n) = (Return (clk n), mkWorld d clk (S n)).
Proof. reflexivity. Qed.

Lemma run_system_message (d : option (gmap string Session)) (text : string) :
  system_message text (mkWorld d clk n)
  = (Return (mkMessage "assistant" text (clk n)), mkWorld d clk (S n)).
Proof. reflexivity. Qed.

End run_store.

Lemma object_id_truthy (sid oid : string) :
  object_id sid = Some oid -> truthy_str (Some sid) = Some sid.
Proof. destruct sid; [discriminate | reflexivity]. Qed.

Lemma run_oid (sid oid : string) (w : World) :
  object_id sid = Some oid -> _oid sid w = (Return oid, w).
Proof. intros H. unfold _oid. rewrite H. reflexivity. Qed.

Lemma sample_lookup (s : Session) :
  ({[ sample_id := s ]} : gmap string Session) !! sample_id = Some s.
Proof. apply lookup_singleton_eq. Qed.

(** The session a lookup finds: the one just written, or the one a
    hypothesis gives for this very collection. *)
Ltac find_session :=
  first
    [ apply lookup_insert_eq
    | match goal with
      | H : ?c !! ?o = Some _ |- ?c !! ?o = Some _ => exact H
      end ].

(** A lookup of the id just written, and two writes of one id, as they
    stand in the goal. *)
Ltac tidy_store :=
  repeat match goal with
         | |- context [<[?o := ?x]> ?m !! ?o] => rewrite (lookup_insert_eq m o x)
         | |- context [<[?o := ?x]> (<[?o := ?y]> ?m)] => rewrite (insert_insert_eq m o x y)
         end.

(** One step of a handler: the binds at the head are opened, and the
    computation they start with is run by its equation. *)
Ltac open_binds :=
  repeat match goal with
         | |- context [mbind ?k ?m ?w] => rewrite (run_bind m k w)
         end.

Ltac mstep :=
  open_binds;
  first
    [ rewrite run_find_one
    | erewrite run_update_one by find_session
    | rewrite run_system_message
    | rewrite run_utcnow
    | erewrite run_oid by eassumption
    | rewrite run_ret
    | rewrite run_raise ];
  cbv beta iota;
  cbn [apply_update];
  tidy_store.

(** ** The frame of a chat request: what [chat_send] does around the
    branch on the stage *)

Section chat_frame.

Variable create_document : string -> Session -> M string.
Variables (c : gmap string Session) (clk : nat -> datetime) (n : nat).
Variables (sid oid msg : string) (s : Session).
Hypothesis Hid : object_id sid = Some oid.
Hypothesis Hs : c !! oid = Some s.


Lemma chat_send_raises (e : exn) (w' : World) :
  stage_reply (get_stage s) oid s (PyStr.strip msg) (received c clk n oid msg s) = (Raise e, w') ->
  chat_send create_document (mkChatInput (Some sid) msg) (mkWorld (Some c) clk n)
  = (Raise e, w').
Proof.
  intros Hbranch. unfold chat_send. cbn [session_id message].
  rewrite (object_id_truthy _ _ Hid).
  do 3 mstep. rewrite Hs. unfold _now. do 2 mstep.
  rewrite run_bind. fold (user_message msg (clk n)). fold (received c clk n oid msg s). rewrite Hbranch. reflexivity.
Qed.

Lemma chat_send_returns (reply : option Message)
      (c' : gmap string Session) (clk' : nat -> datetime) (n' : nat) (s' : Session) :
  stage_reply (get_stage s) oid s (PyStr.strip msg) (received c clk n oid msg s)
  = (Return reply, mkWorld (Some c') clk' n') ->
  c' !! oid = Some s' ->
  chat_send create_document (mkChatInput (Some sid) msg) (mkWorld (Some c) clk n)
  = (Return (mkChatResponse sid reply (stage s')),
     mkWorld (Some (<[oid := push_message reply s']> c')) clk' n').
Proof.
  intros Hbranch Hs'. unfold chat_send. cbn [session_id message].
  rewrite (object_id_truthy _ _ Hid).
  do 3 mstep. rewrite Hs. unfold _now. do 2 mstep.
  rewrite run_bind. fold (user_message msg (clk n)). fold (received c clk n oid msg s). rewrite Hbranch. cbv beta iota.
  do 2 mstep. rewrite run_ret. reflexivity.
Qed.

End chat_frame.

Lemma push_twice (a b : option Message) (s : Session) :
  push_message b (push_message a s) = add_messages [a; b] s.
Proof.
  unfold push_message, add_messages. cbn [stage customer_name monthly_income
    requested_amount kyc offer messages]. rewrite <- app_assoc. reflexivity.
Qed.

(** A turn whose branch only replies: the session gains the two records
    and nothing else. *)
Lemma chat_send_quiet (create_document : string -> Session -> M string)
      (c : gmap string Session) (clk : nat -> datetime) (n n' : nat)
      (sid oid msg : string) (s : Session) (reply : option Message) :
  object_id sid = Some oid ->
  c !! oid = Some s ->
  stage_reply (get_stage s) oid s (PyStr.strip msg) (received c clk n oid msg s)
  = (Return reply,
     mkWorld (Some (<[oid := push_message (Some (user_message msg (clk n))) s]> c)) clk n') ->
  chat_send create_document (mkChatInput (Some sid) msg) (mkWorld (Some c) clk n)
  = (Return (mkChatResponse sid reply (stage s)),
     mkWorld (Some (<[oid := add_messages [Some (user_message msg (clk n)); reply] s]> c)) clk n').
Proof.
  intros Hid Hs Hbranch.
  rewrite (chat_send_returns create_document c clk n sid oid msg s Hid Hs
             reply _ clk n' _ Hbranch (lookup_insert_eq _ _ _)).
  rewrite insert_insert_eq, push_twice. reflexivity.
Qed.

(** ** Stages that only reply: verification and complete *)

(** C9. In stage verification a chat message changes nothing of the
    session but [messages], which gains the user's record and the
    reminder to upload the KYC documents; in stage complete a chat
    message changes nothing but [messages] either, and the reply is the
    generic offer of further help. The stage, [kyc] and every other field
    are those of the session before. This holds of text events only; what
    an upload does to a session in stage complete is shown next. *)
Theorem idle_stages_only_reply
        (create_document : string -> Session -> M string)
        (c : gmap string Session) (clk : nat -> datetime) (n : nat)
        (sid oid msg : string) (s : Session) :
  object_id sid = Some oid ->
  c !! oid = Some s ->
  get_stage s = "verification" \/ get_stage s = "complete" ->
  let text :=
    if (get_stage s =? "verification")%string
    then "Awaiting KYC documents. Upload PAN and Aadhaar to continue."
    else "Your application is complete. How else can I help today?" in
  let reply := assistant_message text (clk (S n)) in
  chat_send create_document (mkChatInput (Some sid) msg) (mkWorld (Some c) clk n)
  = (Return (mkChatResponse sid (Some reply) (stage s)),
     mkWorld (Some (<[oid := add_messages [Some (user_message msg (clk n)); Some reply] s]> c))
             clk (S (S n))).
Proof.
  intros Hid Hs Hst text reply. subst text reply.
  apply chat_send_quiet; [exact Hid | exact Hs |].
  destruct Hst as [Hst|Hst]; rewrite Hst; reflexivity.
Qed.

Lemma idle_stages_only_reply_witness :
  object_id sample_id = Some sample_id
  /\ ({[ sample_id := in_stage "complete" ]} : gmap string Session) !! sample_id
     = Some (in_stage "complete")
  /\ chat_send no_create (mkChatInput (Some sample_id) "thanks")
               (sample_world (in_stage "complete"))
     = (Return (mkChatResponse sample_id
                  (Some (assistant_message
                           "Your application is complete. How else can I help today?"
                           (sample_clock 1)))
                  (Some "complete")),
        mkWorld
          (Some (<[sample_id :=
                     add_messages
                       [Some (user_message "thanks" (sample_clock 0));
                        Some (assistant_message
                                "Your application is complete. How else can I help today?"
                                (sample_clock 1))]
                       (in_stage "complete")]> {[ sample_id := in_stage "complete" ]}))
          sample_clock 2).
Proof.
  split; [reflexivity | split; [reflexivity |]].
  apply (idle_stages_only_reply no_create {[ sample_id := in_stage "complete" ]}
           sample_clock 0 sample_id sample_id "thanks" (in_stage "complete")).
  - reflexivity.
  - reflexivity.
  - right. reflexivity.
Defined.

(** Not of any event: on a session in stage complete, an upload of two
    accepted files writes [kyc] and sets the stage to underwriting. *)
Lemma upload_changes_complete_session :
  let after :=
    snd (verification_upload sample_id (sample_file "new_pan.png") (sample_file "new_aadhaar.png")
                             (sample_world completed_session)) in
  (stage completed_session, kyc completed_session)
  = (Some "complete", Some (mkKyc (Some "pan.png") (Some "aadhaar.png") true))
  /\ option_map (fun s => (stage s, kyc s)) (session_of after sample_id)
     = Some (Some "underwriting", Some (mkKyc (Some "new_pan.png") (Some "new_aadhaar.png") true))
  /\ option_map (fun s => (stage s, kyc s)) (session_of after sample_id)
     <> Some (stage completed_session, kyc completed_session).
Proof.
  cbv zeta. split; [reflexivity |].
  assert (Hafter :
            option_map (fun s => (stage s, kyc s))
              (session_of
                 (snd (verification_upload sample_id (sample_file "new_pan.png")
                                           (sample_file "new_aadhaar.png")
                                           (sample_world completed_session))) sample_id)
            = Some (Some "underwriting",
                    Some (mkKyc (Some "new_pan.png") (Some "new_aadhaar.png") true))).
  { vm_compute. reflexivity. }
  split; [exact Hafter |]. rewrite Hafter. discriminate.
Qed.


(** ** Without a number *)

Lemma intro_reply_raises (oid text : string) (e : exn) (w : World) :
  extract_name text = Raise e -> intro_reply oid text w = (Raise e, w).
Proof. intros Hname. unfold intro_reply. rewrite run_bind. unfold lift. rewrite Hname. reflexivity. Qed.

(** The intro branch when the name is read without error: with a name
    or an amount the fields are written and the stage set; with neither
    nothing is written. *)
Lemma intro_reply_returns (oid text : string) (name : option string)
      (c : gmap string Session) (clk : nat -> datetime) (n : nat) (s : Session) :
  c !! oid = Some s ->
  extract_name text = Return name ->
  intro_reply oid text (mkWorld (Some c) clk n)
  = if is_some (truthy_int (parse_int text)) || is_some (truthy_str name)
    then (Return (Some (assistant_message
                          "Great. To proceed, please upload your KYC: PAN and Aadhaar. You can upload images (JPG/PNG) or PDF."
                          (clk n))),
          mkWorld (Some (<[oid := fold_left assign
                                    (intro_updates name (parse_int text)
                                     ++ [SetStage "verification"]) s]> c))
                  clk (S n))
    else (Return (Some (assistant_message
                          "Got it. Please share your full name and the loan amount you need (e.g., 500000)."
                          (clk n))),
          mkWorld (Some c) clk (S n)).
Proof.
  intros Hs Hname. unfold intro_reply. rewrite run_bind. unfold lift. rewrite Hname.
  cbv beta iota.
  destruct (is_some (truthy_int (parse_int text)) || is_some (truthy_str name)) eqn:Hany.
  - do 2 mstep.
    destruct (intro_updates name (parse_int text) ++ [SetStage "verification"])%list
      as [|u us] eqn:Hups.
    + destruct (intro_updates name (parse_int text)); discriminate Hups.
    + mstep. rewrite run_ret. reflexivity.
  - do 2 mstep.
    apply orb_false_iff in Hany as [Hamt Hnm].
    unfold intro_updates.
    destruct (truthy_int (parse_int text)); [discriminate Hamt |].
    destruct (truthy_str name); [discriminate Hnm |].
    reflexivity.
Qed.

Lemma extract_name_no_mark (text : string) :
  no_name_mark text = true -> extract_name text = Return None.
Proof.
  intros Hname. unfold no_name_mark in Hname.
  apply andb_true_iff in Hname as [Hname H3].
  apply andb_true_iff in Hname as [H1 H2].
  apply negb_true_iff in H1, H2, H3.
  unfold extract_name. rewrite H1, H2, H3. reflexivity.
Qed.

Lemma intro_reply_unparsed (oid text : string)
      (d : option (gmap string Session)) (clk : nat -> datetime) (n : nat) :
  truthy_int (parse_int text) = None ->
  no_name_mark text = true ->
  intro_reply oid text (mkWorld d clk n)
  = (Return (Some (assistant_message
                     "Got it. Please share your full name and the loan amount you need (e.g., 500000)."
                     (clk n))),
     mkWorld d clk (S n)).
Proof.
  intros Hamt Hname. unfold intro_reply, intro_updates. rewrite run_bind. unfold lift.
  rewrite (extract_name_no_mark text Hname), Hamt. reflexivity.
Qed.

Lemma underwriting_reply_unparsed (oid text : string) (s : Session)
      (d : option (gmap string Session)) (clk : nat -> datetime) (n : nat) :
  truthy_int (parse_int text) = None ->
  underwriting_reply oid s text (mkWorld d clk n)
  = (Return (Some (assistant_message "Please share your monthly income (e.g., 30000)." (clk n))),
     mkWorld d clk (S n)).
Proof. intros Hamt. unfold underwriting_reply. rewrite Hamt. reflexivity. Qed.



(** ** The offer letter *)

Lemma run_generate_offer_letter (name : option string) (o : Offer)
      (d : option (gmap string Session)) (clk : nat -> datetime) (n : nat) :
  generate_offer_letter name o (mkWorld d clk n)
  = (Return (if offer_is_empty o then "No offer available." else letter_text (clk n) name o),
     mkWorld d clk (if offer_is_empty o then n else S n)).
Proof.
  unfold generate_offer_letter. destruct (offer_is_empty o); reflexivity.
Qed.

(** ** Stage sanction *)

Lemma sanction_reply_confirmed (oid text : string)
      (c : gmap string Session) (clk : nat -> datetime) (n : nat) (s : Session) :
  c !! oid = Some s ->
  confirms text = true ->
  sanction_reply oid text (mkWorld (Some c) clk n)
  = (Return (Some (assistant_message "Sanction letter generated. You can download it now."
                                     (clk (letter_reads s + n)%nat))),
     mkWorld (Some (<[oid := apply_update (Set_ [SetOfferLetter (letter_of (clk n) s);
                                                  SetStage "complete"]) s]> c))
             clk (S (letter_reads s + n))).
Proof.
  intros Hs Hyes. unfold sanction_reply. fold (confirms text). rewrite Hyes.
  mstep. rewrite Hs.
  rewrite run_bind, run_generate_offer_letter.
  unfold letter_of, letter_reads.
  destruct (offer_is_empty (offer s)); cbv beta iota; do 2 mstep; rewrite run_ret; reflexivity.
Qed.

Lemma sanction_reply_waiting (oid text : string)
      (d : option (gmap string Session)) (clk : nat -> datetime) (n : nat) :
  confirms text = false ->
  sanction_reply oid text (mkWorld d clk n)
  = (Return (Some (assistant_message "Say 'yes' to generate your sanction letter." (clk n))),
     mkWorld d clk (S n)).
Proof.
  intros Hno. unfold sanction_reply. fold (confirms text). rewrite Hno. reflexivity.
Qed.

(** C6. In stage sanction, for an ASCII text: when the text in lower
    case holds one of
    "yes", "ok", "proceed", "generate", "sure", the letter is generated
    from the stored name and offer, stored as [offer.letter], the stage
    becomes complete and the reply confirms the generation; for every
    other text the session keeps its stage and its offer, and the reply
    asks for the confirmation. *)
Theorem sanction_confirmation
        (create_document : string -> Session -> M string)
        (c : gmap string Session) (clk : nat -> datetime) (n : nat)
        (sid oid msg : string) (s : Session) :
  object_id sid = Some oid ->
  c !! oid = Some s ->
  get_stage s = "sanction" ->
  ascii_text msg = true ->
  (confirms (PyStr.strip msg) = true ->
   let letter := letter_of (clk (S n)) s in
   let after := (letter_reads s + S n)%nat in
   let reply :=
     assistant_message "Sanction letter generated. You can download it now." (clk after) in
   chat_send create_document (mkChatInput (Some sid) msg) (mkWorld (Some c) clk n)
   = (Return (mkChatResponse sid (Some reply) (Some "complete")),
      mkWorld
        (Some (<[oid := mkSession (Some "complete") (customer_name s) (monthly_income s)
                                  (requested_amount s) (kyc s)
                                  (with_letter letter (offer s))
                                  (messages s ++ [Some (user_message msg (clk n)); Some reply])]> c))
        clk (S after)))
  /\ (confirms (PyStr.strip msg) = false ->
      let reply :=
        assistant_message "Say 'yes' to generate your sanction letter." (clk (S n)) in
      chat_send create_document (mkChatInput (Some sid) msg) (mkWorld (Some c) clk n)
      = (Return (mkChatResponse sid (Some reply) (stage s)),
         mkWorld (Some (<[oid := add_messages [Some (user_message msg (clk n)); Some reply] s]> c))
                 clk (S (S n)))).
Proof.
  intros Hid Hs Hst _. split.
  - intros Hyes letter after reply. subst letter after reply.
    erewrite chat_send_returns; [ | exact Hid | exact Hs | | apply lookup_insert_eq ].
    2:{ rewrite Hst. change (stage_reply "sanction" oid s (PyStr.strip msg))
          with (sanction_reply oid (PyStr.strip msg)).
        unfold received. apply sanction_reply_confirmed; [apply lookup_insert_eq | exact Hyes]. }
    rewrite !insert_insert_eq.
    unfold letter_of, letter_reads, push_message, apply_update.
    cbn [fold_left assign stage customer_name monthly_income requested_amount kyc offer messages].
    rewrite <- app_assoc. reflexivity.
  - intros Hno reply. subst reply.
    apply chat_send_quiet; [exact Hid | exact Hs |].
    rewrite Hst. change (stage_reply "sanction" oid s (PyStr.strip msg))
      with (sanction_reply oid (PyStr.strip msg)).
    apply sanction_reply_waiting. exact Hno.
Qed.

Lemma sanction_confirmation_witness :
  object_id sample_id = Some sample_id
  /\ ({[ sample_id := offered_session ]} : gmap string Session) !! sample_id = Some offered_session
  /\ get_stage offered_session = "sanction"
  /\ ascii_text "Yes, please" = true
  /\ confirms (PyStr.strip "Yes, please") = true
  /\ option_map (fun s => (stage s, letter (offer s)))
       (session_of (snd (chat_send no_create (mkChatInput (Some sample_id) "Yes, please")
                                   (sample_world offered_session)))
                   sample_id)
     = Some (Some "complete", Some (letter_of (sample_clock 1) offered_session)).
Proof.
  split; [reflexivity | split; [reflexivity | split; [reflexivity | split; [reflexivity |]]]].
  split; [reflexivity |].
  unfold sample_world.
  rewrite (proj1 (sanction_confirmation no_create {[ sample_id := offered_session ]}
                    sample_clock 0 sample_id sample_id "Yes, please" offered_session
                    eq_refl (sample_lookup offered_session) eq_refl eq_refl) eq_refl).
  cbn [snd session_of db]. rewrite lookup_insert_eq. reflexivity.
Defined.

(** The letter of the sequence scenario holds the approved amount with
    its separators. *)
Example scenario_letter :
  PyStr.contains "Approved Amount: ₹500,000" (letter_of (sample_clock 1) offered_session) = true.
Proof. vm_compute. reflexivity. Qed.

(** ** Stage underwriting *)

Lemma digits_value_nonneg (s : string) :
  forall acc : Z, 0 <= acc -> 0 <= PyStr.digits_value acc s.
Proof.
  induction s as [|ch s IH]; intros acc Hacc; cbn [PyStr.digits_value].
  - exact Hacc.
  - apply IH. unfold PyStr.digit_value. lia.
Qed.

Lemma parse_int_nonneg (text : string) (z : Z) : parse_int text = Some z -> 0 <= z.
Proof.
  unfold parse_int, PyStr.int_of_digits.
  destruct (PyStr.findall_digits _) as [|d ds]; [discriminate |].
  destruct (_ <? _)%nat; [discriminate |].
  intros [= <-]. apply digits_value_nonneg. lia.
Qed.

Lemma truthy_parse_int_positive (text : string) (z : Z) :
  truthy_int (parse_int text) = Some z -> 0 < z.
Proof.
  destruct (parse_int text) as [v|] eqn:Hp; [| discriminate].
  apply parse_int_nonneg in Hp. cbn [truthy_int].
  destruct (Z.eqb_spec v 0); [discriminate |]. intros [= <-]. lia.
Qed.

Lemma run_int_of_hundredth (a : Z) (w : World) :
  0 <= a <= 500000 -> int_of_hundredth a w = (Return (a / 100), w).
Proof.
  intros Ha. pose proof (int_of_hundredth_exact a Ha) as Hex.
  unfold PyFloat.int_of_hundredth in Hex. unfold int_of_hundredth.
  destruct (PyFloat.of_int a) as [x|]; [| discriminate].
  cbv zeta. rewrite Hex. reflexivity.
Qed.

(** The amounts of the underwriting branch, from the income and the
    amount the session asked for. *)
Lemma approved_range (income : Z) (asked : option Z) :
  0 < income ->
  match asked with Some r => 0 < r | None => True end ->
  let max_amount := Z.min (income * 20) 500000 in
  let requested := default max_amount (truthy_int asked) in
  1 <= Z.min requested max_amount <= 500000.
Proof.
  intros Hinc Hasked max_amount requested. subst requested max_amount.
  destruct asked as [r|]; cbn [truthy_int].
  - destruct (Z.eqb_spec r 0); cbn [from_option id]; lia.
  - cbn [from_option id]. lia.
Qed.

Lemma truthy_amount (s : Session) (max_amount : Z) :
  amount_ok s ->
  default max_amount (truthy_int (requested_amount s))
  = match requested_amount s with Some r => r | None => max_amount end.
Proof.
  unfold amount_ok. destruct (requested_amount s) as [r|]; [| reflexivity].
  intros Hr. cbn [truthy_int]. destruct (Z.eqb_spec r 0); [lia | reflexivity].
Qed.

(** The whole turn: the session after an income was read. *)
Lemma underwriting_turn
      (create_document : string -> Session -> M string)
      (c : gmap string Session) (clk : nat -> datetime) (n : nat)
      (sid oid msg : string) (s : Session) (income : Z) :
  object_id sid = Some oid ->
  c !! oid = Some s ->
  get_stage s = "underwriting" ->
  amount_ok s ->
  parse_int (PyStr.strip msg) = Some income ->
  income <> 0 ->
  let max_amount := Z.min (income * 20) 500000 in
  let requested := match requested_amount s with Some r => r | None => max_amount end in
  let approved := Z.min requested max_amount in
  let status := if (25000 <=? income) && (0 <? approved) then "approved" else "rejected" in
  let reply :=
    assistant_message
      (if (status =? "approved")%string
       then "You're eligible. Approved amount: ₹" ++ PyStr.format_comma approved
            ++ ". Shall I generate your sanction letter?"
       else "Based on your income, we can’t approve the requested amount at this time.")
      (clk (S n)) in
  chat_send create_document (mkChatInput (Some sid) msg) (mkWorld (Some c) clk n)
  = (Return (mkChatResponse sid (Some reply) (Some "sanction")),
     mkWorld
       (Some (<[oid := mkSession (Some "sanction") (customer_name s) (Some income)
                                 (requested_amount s) (kyc s)
                                 (make_offer requested approved (approved / 100) status)
                                 (messages s ++ [Some (user_message msg (clk n)); Some reply])]> c))
       clk (S (S n))).
Proof.
  intros Hid Hs Hst Hok Hparse Hnz max_amount requested approved status reply.
  assert (Htruthy : truthy_int (parse_int (PyStr.strip msg)) = Some income).
  { rewrite Hparse. cbn [truthy_int]. destruct (Z.eqb_spec income 0); [contradiction | reflexivity]. }
  pose proof (truthy_parse_int_positive _ _ Htruthy) as Hpos.
  pose proof (approved_range income (requested_amount s) Hpos Hok) as Hrange.
  cbv zeta in Hrange. rewrite (truthy_amount s _ Hok) in Hrange.
  fold max_amount requested approved in Hrange.
  assert (Hbranch :
            stage_reply (get_stage s) oid s (PyStr.strip msg) (received c clk n oid msg s)
            = (Return (Some reply),
               mkWorld
                 (Some (<[oid := fold_left assign
                                   [SetOffer (make_offer requested approved (approved / 100) status);
                                    SetStage "sanction"]
                                   (fold_left assign [SetMonthlyIncome income]
                                      (push_message (Some (user_message msg (clk n))) s))]> c))
                 clk (S (S n)))).
  { rewrite Hst. change (stage_reply "underwriting" oid s (PyStr.strip msg))
      with (underwriting_reply oid s (PyStr.strip msg)).
    unfold received, underwriting_reply. rewrite Htruthy.
    mstep. rewrite (truthy_amount s _ Hok).
    fold max_amount requested approved status.
    open_binds.
    rewrite (run_int_of_hundredth approved _
               (conj (Z.le_trans 0 1 _ ltac:(lia) (proj1 Hrange)) (proj2 Hrange))).
    cbv beta iota. mstep. subst reply.
    destruct (status =? "approved")%string; mstep; rewrite run_ret; reflexivity. }
  rewrite (chat_send_returns create_document c clk n sid oid msg s Hid Hs
             _ _ _ _ _ Hbranch (lookup_insert_eq _ _ _)).
  rewrite insert_insert_eq.
  unfold push_message.
  cbn [fold_left assign stage customer_name monthly_income requested_amount kyc offer messages].
  rewrite <- app_assoc. reflexivity.
Qed.

(** C3. In stage underwriting, an ASCII text whose first run of digits
    is a positive income, one that fits the 8 bytes of a stored integer,
    sets [monthly_income] to it and stores an offer with
    [requested] the amount the session asked for, or the ceiling
    [min(income * 20, 500000)] when it asked for none, [approved] the
    smaller of [requested] and the ceiling, and [status] "approved"
    exactly when the income is at least 25000 and [approved] is positive,
    "rejected" otherwise; the stage becomes sanction in both cases. An
    income of 30000 gives the ceiling 500000 and an approval, an income of
    20000 a rejection whatever the amount. *)
Theorem underwriting_offer
        (create_document : string -> Session -> M string)
        (c : gmap string Session) (clk : nat -> datetime) (n : nat)
        (sid oid msg : string) (s : Session) (income : Z) :
  object_id sid = Some oid ->
  c !! oid = Some s ->
  get_stage s = "underwriting" ->
  amount_ok s ->
  ascii_text msg = true ->
  parse_int (PyStr.strip msg) = Some income ->
  0 < income ->
  income < 2 ^ 63 ->
  let ceiling := Z.min (income * 20) 500000 in
  let asked := match requested_amount s with Some r => r | None => ceiling end in
  let granted := Z.min asked ceiling in
  exists (reply : Message) (s' : Session),
    chat_send create_document (mkChatInput (Some sid) msg) (mkWorld (Some c) clk n)
    = (Return (mkChatResponse sid (Some reply) (Some "sanction")),
       mkWorld (Some (<[oid := s']> c)) clk (S (S n)))
    /\ stage s' = Some "sanction"
    /\ monthly_income s' = Some income
    /\ requested (offer s') = Some asked
    /\ approved (offer s') = Some granted
    /\ (status (offer s') = Some "approved" <-> 25000 <= income /\ 0 < granted)
    /\ (status (offer s') = Some "rejected" <-> ~ (25000 <= income /\ 0 < granted))
    /\ (income = 30000 -> ceiling = 500000 /\ granted = Z.min asked 500000
                          /\ status (offer s') = Some "approved")
    /\ (income = 20000 -> status (offer s') = Some "rejected").
Proof.
  intros Hid Hs Hst Hok _ Hparse Hpos _ ceiling asked granted.
  assert (Hnz : income <> 0) by lia.
  pose proof (underwriting_turn create_document c clk n sid oid msg s income
                Hid Hs Hst Hok Hparse Hnz) as Hturn.
  cbv zeta in Hturn. fold ceiling asked granted in Hturn.
  assert (Hgranted : 0 < granted).
  { subst granted asked ceiling. unfold amount_ok in Hok.
    destruct (requested_amount s); lia. }
  eexists _, _. split; [exact Hturn |].
  cbn [stage monthly_income offer requested approved status make_offer].
  repeat split; try reflexivity.
  - destruct (Z.leb_spec 25000 income); [lia | discriminate].
  - exact Hgranted.
  - intros [Hinc _]. destruct (Z.leb_spec 25000 income); [| lia].
    destruct (Z.ltb_spec 0 granted); [reflexivity | lia].
  - destruct (Z.leb_spec 25000 income); [| intros _; lia].
    destruct (Z.ltb_spec 0 granted); [discriminate | lia].
  - intros Hnot. destruct (Z.leb_spec 25000 income); [| reflexivity].
    destruct (Z.ltb_spec 0 granted); [| reflexivity]. exfalso. apply Hnot. lia.
  - subst ceiling. lia.
  - subst granted ceiling. subst income. reflexivity.
  - subst income. destruct (Z.ltb_spec 0 granted); [reflexivity | lia].
  - intros ->. reflexivity.
Qed.

Lemma underwriting_offer_witness :
  object_id sample_id = Some sample_id
  /\ ({[ sample_id := underwriting_session (Some 500000) ]} : gmap string Session) !! sample_id
     = Some (underwriting_session (Some 500000))
  /\ get_stage (underwriting_session (Some 500000)) = "underwriting"
  /\ amount_ok (underwriting_session (Some 500000))
  /\ ascii_text "30,000 a month" = true
  /\ parse_int (PyStr.strip "30,000 a month") = Some 30000
  /\ 0 < 30000
  /\ 30000 < 2 ^ 63
  /\ exists (reply : Message) (s' : Session),
       chat_send no_create (mkChatInput (Some sample_id) "30,000 a month")
                 (sample_world (underwriting_session (Some 500000)))
       = (Return (mkChatResponse sample_id (Some reply) (Some "sanction")),
          mkWorld (Some (<[sample_id := s']> {[ sample_id := underwriting_session (Some 500000) ]}))
                  sample_clock 2)
       /\ monthly_income s' = Some 30000
       /\ approved (offer s') = Some 500000
       /\ status (offer s') = Some "approved".
Proof.
  split; [reflexivity |]. split; [apply sample_lookup |]. split; [reflexivity |].
  split; [reflexivity |]. split; [reflexivity |]. split; [reflexivity |].
  split; [reflexivity |]. split; [reflexivity |].
  destruct (underwriting_offer no_create {[ sample_id := underwriting_session (Some 500000) ]}
              sample_clock 0 sample_id sample_id "30,000 a month"
              (underwriting_session (Some 500000)) 30000
              eq_refl (sample_lookup _) eq_refl eq_refl eq_refl eq_refl eq_refl eq_refl)
    as (reply & s' & Hrun & _ & Hincome & _ & Happroved & _ & _ & Hthirty & _).
  exists reply, s'. split; [exact Hrun |]. split; [exact Hincome |].
  split; [exact Happroved |]. apply Hthirty. reflexivity.
Defined.

(** C5. The terms of every offer the underwriting branch computes, for
    an ASCII text whose income fits the 8 bytes of a stored integer: the
    rate is 14.0 and the tenure 48 months when [approved] is at least
    300000, 16.0 and 36 months below; the processing fee is the larger of
    1999 and the whole part of a hundredth of [approved]. So 50000 gives
    the fee 1999, 400000 the fee 4000, 300000 the rate 14.0 over 48
    months and 299999 the rate 16.0 over 36 months. *)
Theorem offer_terms
        (create_document : string -> Session -> M string)
        (c : gmap string Session) (clk : nat -> datetime) (n : nat)
        (sid oid msg : string) (s : Session) (income : Z) :
  object_id sid = Some oid ->
  c !! oid = Some s ->
  get_stage s = "underwriting" ->
  amount_ok s ->
  ascii_text msg = true ->
  parse_int (PyStr.strip msg) = Some income ->
  income <> 0 ->
  income < 2 ^ 63 ->
  let ceiling := Z.min (income * 20) 500000 in
  let asked := match requested_amount s with Some r => r | None => ceiling end in
  let a := Z.min asked ceiling in
  exists (reply : Message) (s' : Session),
    chat_send create_document (mkChatInput (Some sid) msg) (mkWorld (Some c) clk n)
    = (Return (mkChatResponse sid (Some reply) (Some "sanction")),
       mkWorld (Some (<[oid := s']> c)) clk (S (S n)))
    /\ approved (offer s') = Some a
    /\ (300000 <= a -> rate (offer s') = Some rate_14_0 /\ tenure_months (offer s') = Some 48)
    /\ (a < 300000 -> rate (offer s') = Some rate_16_0 /\ tenure_months (offer s') = Some 36)
    /\ processing_fee (offer s') = Some (Z.max 1999 (a / 100))
    /\ (a = 50000 -> processing_fee (offer s') = Some 1999)
    /\ (a = 400000 -> processing_fee (offer s') = Some 4000)
    /\ (a = 300000 -> rate (offer s') = Some rate_14_0 /\ tenure_months (offer s') = Some 48)
    /\ (a = 299999 -> rate (offer s') = Some rate_16_0 /\ tenure_months (offer s') = Some 36).
Proof.
  intros Hid Hs Hst Hok _ Hparse Hnz _ ceiling asked a.
  pose proof (underwriting_turn create_document c clk n sid oid msg s income
                Hid Hs Hst Hok Hparse Hnz) as Hturn.
  cbv zeta in Hturn. fold ceiling asked a in Hturn.
  eexists _, _. split; [exact Hturn |].
  cbn [offer approved rate tenure_months processing_fee make_offer].
  split; [reflexivity |].
  assert (Hhigh : 300000 <= a ->
                  Some (if 300000 <=? a then rate_14_0 else rate_16_0) = Some rate_14_0
                  /\ Some (if 300000 <=? a then 48 else 36) = Some 48).
  { intros Ha. destruct (Z.leb_spec 300000 a); [split; reflexivity | lia]. }
  assert (Hlow : a < 300000 ->
                 Some (if 300000 <=? a then rate_14_0 else rate_16_0) = Some rate_16_0
                 /\ Some (if 300000 <=? a then 48 else 36) = Some 36).
  { intros Ha. destruct (Z.leb_spec 300000 a); [lia | split; reflexivity]. }
  split; [exact Hhigh |]. split; [exact Hlow |]. split; [reflexivity |].
  split; [intros ->; reflexivity |]. split; [intros ->; reflexivity |].
  split; [intros Ha; apply Hhigh; lia | intros Ha; apply Hlow; lia].
Qed.

Lemma offer_terms_witness :
  object_id sample_id = Some sample_id
  /\ ({[ sample_id := underwriting_session (Some 400000) ]} : gmap string Session) !! sample_id
     = Some (underwriting_session (Some 400000))
  /\ get_stage (underwriting_session (Some 400000)) = "underwriting"
  /\ amount_ok (underwriting_session (Some 400000))
  /\ ascii_text "45000" = true
  /\ parse_int (PyStr.strip "45000") = Some 45000
  /\ 45000 <> 0
  /\ 45000 < 2 ^ 63
  /\ exists (reply : Message) (s' : Session),
       chat_send no_create (mkChatInput (Some sample_id) "45000")
                 (sample_world (underwriting_session (Some 400000)))
       = (Return (mkChatResponse sample_id (Some reply) (Some "sanction")),
          mkWorld (Some (<[sample_id := s']> {[ sample_id := underwriting_session (Some 400000) ]}))
                  sample_clock 2)
       /\ approved (offer s') = Some 400000
       /\ rate (offer s') = Some rate_14_0
       /\ tenure_months (offer s') = Some 48
       /\ processing_fee (offer s') = Some 4000.
Proof.
  split; [reflexivity |]. split; [apply sample_lookup |]. split; [reflexivity |].
  split; [reflexivity |]. split; [reflexivity |]. split; [reflexivity |].
  split; [discriminate |]. split; [reflexivity |].
  destruct (offer_terms no_create {[ sample_id := underwriting_session (Some 400000) ]}
              sample_clock 0 sample_id sample_id "45000"
              (underwriting_session (Some 400000)) 45000
              eq_refl (sample_lookup _) eq_refl eq_refl eq_refl eq_refl ltac:(discriminate)
              eq_refl)
    as (reply & s' & Hrun & Ha & Hhigh & _ & _ & _ & Hfee & _).
  exists reply, s'. split; [exact Hrun |]. split; [exact Ha |].
  destruct (Hhigh ltac:(discriminate)) as [Hrate Htenure].
  split; [exact Hrate |]. split; [exact Htenure |]. apply Hfee. reflexivity.
Defined.

(** The four amounts of the specification, run through the handler: the
    hundredth is the binary64 product. *)
Example terms_of_50000 :
  option_map (fun s => (rate (offer s), tenure_months (offer s), processing_fee (offer s)))
    (session_of (snd (chat_send no_create (mkChatInput (Some sample_id) "30000")
                                (sample_world (underwriting_session (Some 50000))))) sample_id)
  = Some (Some rate_16_0, Some 36, Some 1999).
Proof. vm_compute. reflexivity. Qed.

Example terms_of_400000 :
  option_map (fun s => (rate (offer s), tenure_months (offer s), processing_fee (offer s)))
    (session_of (snd (chat_send no_create (mkChatInput (Some sample_id) "30000")
                                (sample_world (underwriting_session (Some 400000))))) sample_id)
  = Some (Some rate_14_0, Some 48, Some 4000).
Proof. vm_compute. reflexivity. Qed.

Example terms_of_300000 :
  option_map (fun s => (rate (offer s), tenure_months (offer s), processing_fee (offer s)))
    (session_of (snd (chat_send no_create (mkChatInput (Some sample_id) "30000")
                                (sample_world (underwriting_session (Some 300000))))) sample_id)
  = Some (Some rate_14_0, Some 48, Some 3000).
Proof. vm_compute. reflexivity. Qed.

Example terms_of_299999 :
  option_map (fun s => (rate (offer s), tenure_months (offer s), processing_fee (offer s)))
    (session_of (snd (chat_send no_create (mkChatInput (Some sample_id) "30000")
                                (sample_world (underwriting_session (Some 299999))))) sample_id)
  = Some (Some rate_16_0, Some 36, Some 2999).
Proof. vm_compute. reflexivity. Qed.

Example rates_as_text : (rate_str rate_14_0, rate_str rate_16_0) = ("14.0", "16.0").
Proof. reflexivity. Qed.

(** ** The text of the letter *)

Lemma append_cons (ch : ascii) (a x : string) : String ch a ++ x = String ch (a ++ x).
Proof. reflexivity. Qed.

Lemma starts_with_app_cancel (a x y : string) :
  PyStr.starts_with (a ++ x) (a ++ y) = PyStr.starts_with x y.
Proof.
  induction a as [|ch a IH]; [reflexivity |].
  rewrite !append_cons. cbn [PyStr.starts_with]. rewrite Ascii.eqb_refl. exact IH.
Qed.

Lemma starts_with_self_app (x r : string) : PyStr.starts_with x (x ++ r) = true.
Proof.
  induction x as [|ch x IH]; [reflexivity |].
  rewrite append_cons. cbn [PyStr.starts_with]. rewrite Ascii.eqb_refl. exact IH.
Qed.

Lemma contains_here (x s : string) :
  PyStr.starts_with x s = true -> PyStr.contains x s = true.
Proof. intros H. destruct s; cbn [PyStr.contains]; rewrite H; reflexivity. Qed.

Lemma contains_skip (x a t : string) :
  PyStr.contains x t = true -> PyStr.contains x (a ++ t) = true.
Proof.
  intros H. induction a as [|ch a IH]; [exact H |].
  rewrite append_cons. cbn [PyStr.contains]. rewrite IH.
  destruct (PyStr.starts_with _ _); reflexivity.
Qed.

(** A piece of a concatenation is found in it: the pieces before it are
    skipped, then the piece is read off the front. *)
Ltac read_front :=
  repeat rewrite starts_with_app_cancel;
  first [ apply starts_with_self_app | reflexivity ].

Ltac find_piece :=
  first [ apply contains_here; solve [ read_front ]
        | apply contains_skip; find_piece ].

(** The letter of an approved offer, as it is printed. *)
Example letter_printed :
  fst (generate_offer_letter (Some "Ravi Kumar") (make_offer 500000 500000 5000 "approved")
                             (mkWorld None sample_clock 0))
  = Return
      ("LoanLens AI – Sanction Letter" ++ nl ++ nl
       ++ "Date: 2026-11-04" ++ nl
       ++ "To, Ravi Kumar" ++ nl ++ nl
       ++ "We are pleased to sanction a personal loan with the following terms:" ++ nl
       ++ "Approved Amount: ₹500,000" ++ nl
       ++ "Interest Rate: 14.0% p.a." ++ nl
       ++ "Tenure: 48 months" ++ nl
       ++ "Processing Fee: ₹5,000" ++ nl ++ nl
       ++ "This is a system-generated letter and does not require a signature." ++ nl).
Proof. vm_compute. reflexivity. Qed.

(** ** Stage intro: reading the name *)

Lemma partition_missing (sep s : string) :
  PyStr.contains sep s = false -> PyStr.partition sep s = None.
Proof.
  induction s as [|ch s IH]; cbn [PyStr.contains PyStr.partition];
    destruct (PyStr.starts_with sep _); try discriminate; try reflexivity.
  intros H. rewrite (IH H). reflexivity.
Qed.

Lemma partition_found (sep s : string) :
  PyStr.contains sep s = true -> exists before rest, PyStr.partition sep s = Some (before, rest).
Proof.
  induction s as [|ch s IH]; cbn [PyStr.contains PyStr.partition];
    destruct (PyStr.starts_with sep _); try discriminate; eauto.
  intros H. destruct (IH H) as (b & r & ->). eauto.
Qed.

Lemma after_mark_missing (sep text : string) :
  PyStr.contains sep text = false -> after_mark sep text = Raise IndexError.
Proof.
  intros H. unfold after_mark, PyStr.split1. rewrite (partition_missing _ _ H). reflexivity.
Qed.

Lemma after_mark_found (sep text : string) :
  PyStr.contains sep text = true -> exists name, after_mark sep text = Return (Some name).
Proof.
  intros H. unfold after_mark, PyStr.split1.
  destruct (partition_found _ _ H) as (b & r & ->). cbn. eauto.
Qed.

(** The name extraction raises exactly when the mark it chose in the
    lower-case text is missing from the text it splits. *)
Lemma extract_name_raises (text : string) :
  mark_missing text = true -> extract_name text = Raise IndexError.
Proof.
  unfold mark_missing, extract_name.
  destruct (PyStr.contains "name is" _).
  { intros H. apply negb_true_iff in H. apply after_mark_missing, H. }
  destruct (PyStr.contains "i am" _).
  { intros H. apply negb_true_iff in H. apply after_mark_missing, H. }
  destruct (PyStr.contains "i'm" _).
  { intros H. apply negb_true_iff in H. apply after_mark_missing, H. }
  discriminate.
Qed.

Lemma extract_name_returns (text : string) :
  mark_missing text = false -> exists name, extract_name text = Return name.
Proof.
  unfold mark_missing, extract_name.
  destruct (PyStr.contains "name is" _).
  { intros H. apply negb_false_iff in H. destruct (after_mark_found _ _ H) as [x ->]. eauto. }
  destruct (PyStr.contains "i am" _).
  { intros H. apply negb_false_iff in H. destruct (after_mark_found _ _ H) as [x ->]. eauto. }
  destruct (PyStr.contains "i'm" _).
  { intros H. apply negb_false_iff in H. destruct (after_mark_found _ _ H) as [x ->]. eauto. }
  eauto.
Qed.

Lemma extract_name_only_index_error (text : string) (e : exn) :
  extract_name text = Raise e -> e = IndexError /\ mark_missing text = true.
Proof.
  intros H. destruct (mark_missing text) eqn:Hm.
  - rewrite (extract_name_raises _ Hm) in H. injection H as <-. split; reflexivity.
  - destruct (extract_name_returns _ Hm) as [name Hn]. rewrite Hn in H. discriminate.
Qed.

Lemma fold_assign_push (us : list assignment) (m : option Message) :
  forall s : Session,
    fold_left assign us (push_message m s) = push_message m (fold_left assign us s).
Proof.
  induction us as [|u us IH]; intros s; [reflexivity |].
  cbn [fold_left]. rewrite <- IH. f_equal. destruct u; reflexivity.
Qed.

Section intro_turns.

Variable create_document : string -> Session -> M string.
Variables (c : gmap string Session) (clk : nat -> datetime) (n : nat).
Variables (sid oid msg : string) (s : Session).
Hypothesis Hid : object_id sid = Some oid.
Hypothesis Hs : c !! oid = Some s.
Hypothesis Hst : get_stage s = "intro".

(** The turn is lost when the name cannot be read: the user's message
    is stored, nothing else happens. *)
Lemma intro_turn_raises (e : exn) :
  extract_name (PyStr.strip msg) = Raise e ->
  chat_send create_document (mkChatInput (Some sid) msg) (mkWorld (Some c) clk n)
  = (Raise e, received c clk n oid msg s).
Proof.
  intros Hname. apply (chat_send_raises create_document c clk n sid oid msg s Hid Hs).
  rewrite Hst. change (stage_reply "intro" oid s (PyStr.strip msg))
    with (intro_reply oid (PyStr.strip msg)).
  apply intro_reply_raises, Hname.
Qed.

(** The turn when the name is read: the session after it. *)
Lemma intro_turn_returns (name : option string) :
  extract_name (PyStr.strip msg) = Return name ->
  let amt := parse_int (PyStr.strip msg) in
  let found := is_some (truthy_int amt) || is_some (truthy_str name) in
  let reply :=
    assistant_message
      (if found
       then "Great. To proceed, please upload your KYC: PAN and Aadhaar. You can upload images (JPG/PNG) or PDF."
       else "Got it. Please share your full name and the loan amount you need (e.g., 500000).")
      (clk (S n)) in
  let s' :=
    if found
    then fold_left assign (intro_updates name amt ++ [SetStage "verification"]) s
    else s in
  chat_send create_document (mkChatInput (Some sid) msg) (mkWorld (Some c) clk n)
  = (Return (mkChatResponse sid (Some reply) (stage s')),
     mkWorld (Some (<[oid := add_messages [Some (user_message msg (clk n)); Some reply] s']> c))
             clk (S (S n))).
Proof.
  intros Hname amt found reply s'.
  pose proof (intro_reply_returns oid (PyStr.strip msg) name
                (<[oid := push_message (Some (user_message msg (clk n))) s]> c) clk (S n)
                _ (lookup_insert_eq _ _ _) Hname) as Hbranch.
  fold amt in Hbranch. fold found in Hbranch.
  change (intro_reply oid (PyStr.strip msg)) with (stage_reply "intro" oid s (PyStr.strip msg))
    in Hbranch.
  rewrite <- Hst in Hbranch. fold (received c clk n oid msg s) in Hbranch.
  subst reply s'. destruct found.
  - rewrite (chat_send_returns create_document c clk n sid oid msg s Hid Hs
               _ _ _ _ _ Hbranch (lookup_insert_eq _ _ _)).
    rewrite !insert_insert_eq, fold_assign_push, push_twice. reflexivity.
  - rewrite (chat_send_returns create_document c clk n sid oid msg s Hid Hs
               _ _ _ _ _ Hbranch (lookup_insert_eq _ _ _)).
    rewrite !insert_insert_eq, push_twice. reflexivity.
Qed.

End intro_turns.

(** C1. The chat handler does raise on a well-formed request: in stage
    intro, when the mark of a name found in the lower-case text is not in
    the text as it is written, the split has one piece, the index 1 is
    out of range and the request ends with the [IndexError]. The user's
    message is stored by then; no reply is. "I am Bob" is such a text. *)
Theorem intro_name_index_error
        (create_document : string -> Session -> M string)
        (c : gmap string Session) (clk : nat -> datetime) (n : nat)
        (sid oid msg : string) (s : Session) :
  object_id sid = Some oid ->
  c !! oid = Some s ->
  get_stage s = "intro" ->
  mark_missing (PyStr.strip msg) = true ->
  chat_send create_document (mkChatInput (Some sid) msg) (mkWorld (Some c) clk n)
  = (Raise IndexError,
     mkWorld (Some (<[oid := push_message (Some (user_message msg (clk n))) s]> c)) clk (S n)).
Proof.
  intros Hid Hs Hst Hmark.
  apply (intro_turn_raises create_document c clk n sid oid msg s Hid Hs Hst).
  apply extract_name_raises, Hmark.
Qed.

Lemma intro_name_index_error_witness :
  object_id sample_id = Some sample_id
  /\ ({[ sample_id := SessionSchema ]} : gmap string Session) !! sample_id = Some SessionSchema
  /\ get_stage SessionSchema = "intro"
  /\ mark_missing (PyStr.strip "I am Bob") = true
  /\ chat_send no_create (mkChatInput (Some sample_id) "I am Bob") (sample_world SessionSchema)
     = (Raise IndexError,
        mkWorld (Some (<[sample_id := push_message (Some (user_message "I am Bob" (sample_clock 0)))
                                                   SessionSchema]> {[ sample_id := SessionSchema ]}))
                sample_clock 1).
Proof.
  split; [reflexivity |]. split; [apply sample_lookup |]. split; [reflexivity |].
  split; [reflexivity |].
  apply (intro_name_index_error no_create {[ sample_id := SessionSchema ]} sample_clock 0
           sample_id sample_id "I am Bob" SessionSchema
           eq_refl (sample_lookup _) eq_refl eq_refl).
Defined.

(** C4. The name is not always the text after the mark: for "name is"
    the text is split at its first "is", wherever that is. In stage intro
    the message "this name is Bob" is cut inside "this", and the name
    stored is "Name Is Bob". *)
Theorem name_is_cut_at_first_is
        (create_document : string -> Session -> M string)
        (c : gmap string Session) (clk : nat -> datetime) (n : nat)
        (sid oid : string) (s : Session) :
  object_id sid = Some oid ->
  c !! oid = Some s ->
  get_stage s = "intro" ->
  let reply :=
    assistant_message
      "Great. To proceed, please upload your KYC: PAN and Aadhaar. You can upload images (JPG/PNG) or PDF."
      (clk (S n)) in
  chat_send create_document (mkChatInput (Some sid) "this name is Bob") (mkWorld (Some c) clk n)
  = (Return (mkChatResponse sid (Some reply) (Some "verification")),
     mkWorld
       (Some (<[oid := mkSession (Some "verification") (Value "Name Is Bob") (monthly_income s)
                                 (requested_amount s) (kyc s) (offer s)
                                 (messages s ++ [Some (user_message "this name is Bob" (clk n));
                                                 Some reply])]> c))
       clk (S (S n))).
Proof.
  intros Hid Hs Hst reply.
  exact (intro_turn_returns create_document c clk n sid oid "this name is Bob" s Hid Hs Hst
           (Some "name is Bob") eq_refl).
Qed.

Lemma name_is_cut_at_first_is_witness :
  object_id sample_id = Some sample_id
  /\ ({[ sample_id := SessionSchema ]} : gmap string Session) !! sample_id = Some SessionSchema
  /\ get_stage SessionSchema = "intro"
  /\ option_map customer_name
       (session_of (snd (chat_send no_create (mkChatInput (Some sample_id) "this name is Bob")
                                   (sample_world SessionSchema))) sample_id)
     = Some (Value "Name Is Bob").
Proof.
  split; [reflexivity |]. split; [apply sample_lookup |]. split; [reflexivity |].
  unfold sample_world.
  rewrite (name_is_cut_at_first_is no_create {[ sample_id := SessionSchema ]} sample_clock 0
             sample_id sample_id SessionSchema eq_refl (sample_lookup _) eq_refl).
  cbn [snd session_of db]. rewrite lookup_insert_eq. reflexivity.
Defined.

(** The example of the specification: the name after "name is". *)
Example my_name_is_jane_doe :
  option_map (fun s => (customer_name s, stage s))
    (session_of (snd (chat_send no_create (mkChatInput (Some sample_id) "my name is Jane Doe")
                                (sample_world SessionSchema))) sample_id)
  = Some (Value "Jane Doe", Some "verification").
Proof. vm_compute. reflexivity. Qed.

(** "name is" is looked for first. *)
Example name_is_before_i_am :
  extract_name "i am sure my name is jane" = Return (Some "jane").
Proof. vm_compute. reflexivity. Qed.

(** The same message in capitals is lost. *)
Example my_name_is_in_capitals :
  fst (chat_send no_create (mkChatInput (Some sample_id) "My Name Is Jane Doe")
                 (sample_world SessionSchema))
  = Raise IndexError.
Proof. vm_compute. reflexivity. Qed.

(** C8. A chat turn does not always add two records: when the name
    extraction raises, the user's record is in [messages] already and the
    turn ends there, with no record of a reply. "I'm Bob" in stage intro
    is such a turn. *)
Theorem lost_turn_keeps_one_record
        (create_document : string -> Session -> M string)
        (c : gmap string Session) (clk : nat -> datetime) (n : nat)
        (sid oid : string) (s : Session) :
  object_id sid = Some oid ->
  c !! oid = Some s ->
  get_stage s = "intro" ->
  exists (w' : World) (s' : Session),
    chat_send create_document (mkChatInput (Some sid) "I'm Bob") (mkWorld (Some c) clk n)
    = (Raise IndexError, w')
    /\ session_of w' oid = Some s'
    /\ messages s' = (messages s ++ [Some (user_message "I'm Bob" (clk n))])%list.
Proof.
  intros Hid Hs Hst. eexists _, _. split; [| split].
  - exact (intro_turn_raises create_document c clk n sid oid "I'm Bob" s Hid Hs Hst
             IndexError eq_refl).
  - cbn [session_of db]. apply lookup_insert_eq.
  - reflexivity.
Qed.

Lemma lost_turn_keeps_one_record_witness :
  object_id sample_id = Some sample_id
  /\ ({[ sample_id := SessionSchema ]} : gmap string Session) !! sample_id = Some SessionSchema
  /\ get_stage SessionSchema = "intro"
  /\ exists (w' : World) (s' : Session),
       chat_send no_create (mkChatInput (Some sample_id) "I'm Bob") (sample_world SessionSchema)
       = (Raise IndexError, w')
       /\ session_of w' sample_id = Some s'
       /\ messages s' = [Some (user_message "I'm Bob" (sample_clock 0))].
Proof.
  split; [reflexivity |]. split; [apply sample_lookup |]. split; [reflexivity |].
  exact (lost_turn_keeps_one_record no_create {[ sample_id := SessionSchema ]} sample_clock 0
           sample_id sample_id SessionSchema eq_refl (sample_lookup _) eq_refl).
Defined.

(** ** A zero is no number *)

(** C10. A message, in ASCII, whose first run of digits is the number 0
    is handled as a message without a number. In stage intro the turn
    never sets [requested_amount], whether a name is read, none is, or
    the reading of the name fails; and when the text has no mark of a
    name the session keeps its stage and only gains the two records, the
    reply asking again for name and amount. In stage underwriting the
    session keeps its stage, its [monthly_income] and its [offer] and only
    gains the two records, the reply asking for the income. *)
Theorem zero_is_no_number
        (create_document : string -> Session -> M string)
        (c : gmap string Session) (clk : nat -> datetime) (n : nat)
        (sid oid msg : string) (s : Session) :
  object_id sid = Some oid ->
  c !! oid = Some s ->
  ascii_text msg = true ->
  parse_int (PyStr.strip msg) = Some 0 ->
  (get_stage s = "intro" ->
   (exists (r : outcome ChatResponse) (n' : nat) (s' : Session),
      chat_send create_document (mkChatInput (Some sid) msg) (mkWorld (Some c) clk n)
      = (r, mkWorld (Some (<[oid := s']> c)) clk n')
      /\ requested_amount s' = requested_amount s)
   /\ (no_name_mark (PyStr.strip msg) = true ->
       let reply :=
         assistant_message
           "Got it. Please share your full name and the loan amount you need (e.g., 500000)."
           (clk (S n)) in
       chat_send create_document (mkChatInput (Some sid) msg) (mkWorld (Some c) clk n)
       = (Return (mkChatResponse sid (Some reply) (stage s)),
          mkWorld (Some (<[oid := add_messages [Some (user_message msg (clk n)); Some reply] s]> c))
                  clk (S (S n)))))
  /\ (get_stage s = "underwriting" ->
      let reply :=
        assistant_message "Please share your monthly income (e.g., 30000)." (clk (S n)) in
      chat_send create_document (mkChatInput (Some sid) msg) (mkWorld (Some c) clk n)
      = (Return (mkChatResponse sid (Some reply) (stage s)),
         mkWorld (Some (<[oid := add_messages [Some (user_message msg (clk n)); Some reply] s]> c))
                 clk (S (S n)))).
Proof.
  intros Hid Hs _ Hzero.
  assert (Hamt : truthy_int (parse_int (PyStr.strip msg)) = None) by (rewrite Hzero; reflexivity).
  split; [intros Hst; split |].
  - destruct (extract_name (PyStr.strip msg)) as [name|e] eqn:Hname.
    + pose proof (intro_turn_returns create_document c clk n sid oid msg s Hid Hs Hst name Hname)
        as Hrun.
      cbv zeta in Hrun. unfold intro_updates in Hrun. rewrite Hamt in Hrun.
      eexists _, _, _. split; [exact Hrun |].
      destruct (truthy_str name); reflexivity.
    + rewrite (intro_turn_raises create_document c clk n sid oid msg s Hid Hs Hst e Hname).
      unfold received. eexists _, _, _. split; reflexivity.
  - intros Hmark reply. subst reply.
    apply chat_send_quiet; [exact Hid | exact Hs |].
    rewrite Hst. change (stage_reply "intro" oid s (PyStr.strip msg))
      with (intro_reply oid (PyStr.strip msg)).
    apply intro_reply_unparsed; assumption.
  - intros Hst reply. subst reply.
    apply chat_send_quiet; [exact Hid | exact Hs |].
    rewrite Hst. change (stage_reply "underwriting" oid s (PyStr.strip msg))
      with (underwriting_reply oid s (PyStr.strip msg)).
    apply underwriting_reply_unparsed; assumption.
Qed.

Lemma zero_is_no_number_witness :
  object_id sample_id = Some sample_id
  /\ ({[ sample_id := SessionSchema ]} : gmap string Session) !! sample_id = Some SessionSchema
  /\ ascii_text "my name is Bob 0" = true
  /\ parse_int (PyStr.strip "my name is Bob 0") = Some 0
  /\ get_stage SessionSchema = "intro"
  /\ exists (r : outcome ChatResponse) (n' : nat) (s' : Session),
       chat_send no_create (mkChatInput (Some sample_id) "my name is Bob 0")
                 (sample_world SessionSchema)
       = (r, mkWorld (Some (<[sample_id := s']> {[ sample_id := SessionSchema ]})) sample_clock n')
       /\ requested_amount s' = None.
Proof.
  split; [reflexivity |]. split; [apply sample_lookup |]. split; [reflexivity |].
  split; [reflexivity |]. split; [reflexivity |].
  exact (proj1 (proj1 (zero_is_no_number no_create {[ sample_id := SessionSchema ]}
                         sample_clock 0 sample_id sample_id "my name is Bob 0" SessionSchema
                         eq_refl (sample_lookup _) eq_refl eq_refl) eq_refl)).
Defined.

(** The text "my name is Bob 0" gives the name and the stage
    verification, and no amount. *)
Example name_with_zero :
  option_map (fun s => (stage s, customer_name s, requested_amount s))
    (session_of (snd (chat_send no_create (mkChatInput (Some sample_id) "my name is Bob 0")
                                (sample_world SessionSchema))) sample_id)
  = Some (Some "verification", Value "Bob 0", None).
Proof. vm_compute. reflexivity. Qed.

(** ** What every request does to a session *)

Lemma chat_send_by_branch
      (create_document : string -> Session -> M string)
      (c : gmap string Session) (clk : nat -> datetime) (n n1 : nat)
      (sid oid msg : string) (s s1 : Session) (r : outcome (option Message)) :
  object_id sid = Some oid ->
  c !! oid = Some s ->
  stage_reply (get_stage s) oid s (PyStr.strip msg) (received c clk n oid msg s)
  = (r, mkWorld (Some (<[oid := s1]> (<[oid := push_message (Some (user_message msg (clk n))) s]> c)))
                clk n1) ->
  chat_send create_document (mkChatInput (Some sid) msg) (mkWorld (Some c) clk n)
  = (match r with
     | Return reply => Return (mkChatResponse sid reply (stage s1))
     | Raise e => Raise e
     end,
     mkWorld (Some (<[oid := match r with
                             | Return reply => push_message reply s1
                             | Raise _ => s1
                             end]> c)) clk n1).
Proof.
  intros Hid Hs Hbranch. destruct r as [reply|e].
  - rewrite (chat_send_returns create_document c clk n sid oid msg s Hid Hs
               _ _ _ _ _ Hbranch (lookup_insert_eq _ _ _)).
    rewrite !insert_insert_eq. reflexivity.
  - rewrite (chat_send_raises create_document c clk n sid oid msg s Hid Hs _ _ Hbranch).
    rewrite !insert_insert_eq. reflexivity.
Qed.

Lemma fold_assign_messages (us : list assignment) :
  forall s : Session, messages (fold_left assign us s) = messages s.
Proof.
  induction us as [|u us IH]; intros s; [reflexivity |].
  cbn [fold_left]. rewrite IH. destruct u; reflexivity.
Qed.

Lemma branch_moves_refl (st : string) (s : Session) : branch_moves st s s.
Proof. split; [reflexivity | split; [tauto | left; reflexivity]]. Qed.

Lemma int_of_hundredth_pure (a : Z) :
  exists r : outcome Z, forall w : World, int_of_hundredth a w = (r, w).
Proof.
  unfold int_of_hundredth. destruct (PyFloat.of_int a) as [x|]; [| eexists; reflexivity].
  cbv zeta. destruct (PyFloat.to_int _); eexists; reflexivity.
Qed.

Section branches.

Variables (oid : string) (clk : nat -> datetime).

Lemma intro_reply_effect (text : string) (c : gmap string Session) (n : nat) (s : Session) :
  c !! oid = Some s ->
  exists (r : outcome (option Message)) (n' : nat) (s' : Session),
    intro_reply oid text (mkWorld (Some c) clk n) = (r, mkWorld (Some (<[oid := s']> c)) clk n')
    /\ branch_moves "intro" s s'.
Proof.
  intros Hs. destruct (extract_name text) as [name|e] eqn:Hname.
  - rewrite (intro_reply_returns oid text name c clk n s Hs Hname).
    destruct (is_some (truthy_int (parse_int text)) || is_some (truthy_str name)).
    + eexists _, _, _. split; [reflexivity |].
      rewrite fold_left_app. cbn [fold_left assign].
      split; [apply fold_assign_messages |]. split; [| right; left; split; reflexivity].
      unfold amount_ok, intro_updates. cbn [requested_amount].
      destruct (truthy_str name); destruct (truthy_int (parse_int text)) as [a|] eqn:Ha;
        cbn [app fold_left assign requested_amount]; try tauto;
        intros _; exact (truthy_parse_int_positive _ _ Ha).
    + exists (Return (Some (assistant_message
                "Got it. Please share your full name and the loan amount you need (e.g., 500000)."
                (clk n)))), (S n), s.
      rewrite (insert_id c oid s Hs). split; [reflexivity | apply branch_moves_refl].
  - rewrite (intro_reply_raises oid text e _ Hname).
    exists (Raise e), n, s. rewrite (insert_id c oid s Hs).
    split; [reflexivity | apply branch_moves_refl].
Qed.

Lemma underwriting_reply_effect (session : Session) (text : string)
      (c : gmap string Session) (n : nat) (s : Session) :
  c !! oid = Some s ->
  exists (r : outcome (option Message)) (n' : nat) (s' : Session),
    underwriting_reply oid session text (mkWorld (Some c) clk n)
    = (r, mkWorld (Some (<[oid := s']> c)) clk n')
    /\ branch_moves "underwriting" s s'.
Proof.
  intros Hs. unfold underwriting_reply.
  destruct (truthy_int (parse_int text)) as [income|].
  - mstep. cbn [fold_left assign].
    match goal with
    | |- context [int_of_hundredth ?a] => destruct (int_of_hundredth_pure a) as [r Hr]
    end.
    rewrite run_bind, Hr. destruct r as [q|e]; cbv beta iota.
    + mstep. cbn [fold_left assign stage customer_name monthly_income requested_amount kyc
                   offer messages].
      match goal with
      | |- context [if ?b then _ else _] => destruct b
      end; mstep; rewrite run_ret; eexists _, _, _; (split; [reflexivity |]);
        (split; [reflexivity | split; [tauto | right; right; left; split; reflexivity]]).
    + eexists _, _, _. split; [reflexivity |].
      split; [reflexivity | split; [tauto | left; reflexivity]].
  - exists (Return (Some (assistant_message "Please share your monthly income (e.g., 30000)."
                                             (clk n)))), (S n), s.
    rewrite (insert_id c oid s Hs). split; [reflexivity | apply branch_moves_refl].
Qed.

Lemma sanction_reply_effect (text : string) (c : gmap string Session) (n : nat) (s : Session) :
  c !! oid = Some s ->
  exists (r : outcome (option Message)) (n' : nat) (s' : Session),
    sanction_reply oid text (mkWorld (Some c) clk n) = (r, mkWorld (Some (<[oid := s']> c)) clk n')
    /\ branch_moves "sanction" s s'.
Proof.
  intros Hs. destruct (confirms text) eqn:Hyes.
  - rewrite (sanction_reply_confirmed oid text c clk n s Hs Hyes).
    eexists _, _, _. split; [reflexivity |]. cbn [apply_update fold_left assign].
    split; [reflexivity | split; [tauto | right; right; right; split; reflexivity]].
  - rewrite (sanction_reply_waiting oid text _ clk n Hyes).
    eexists _, _, s. rewrite (insert_id c oid s Hs).
    split; [reflexivity | apply branch_moves_refl].
Qed.

Lemma stage_reply_effect (st : string) (session : Session) (text : string)
      (c : gmap string Session) (n : nat) (s : Session) :
  c !! oid = Some s ->
  exists (r : outcome (option Message)) (n' : nat) (s' : Session),
    stage_reply st oid session text (mkWorld (Some c) clk n)
    = (r, mkWorld (Some (<[oid := s']> c)) clk n')
    /\ branch_moves st s s'
    /\ (In st stages -> forall reply, r = Return reply -> reply <> None).
Proof.
  intros Hs. unfold stage_reply.
  destruct (String.eqb_spec st "intro") as [->|Hn1].
  { destruct (intro_reply_effect text c n s Hs) as (r & n' & s' & Hrun & Hmoves).
    exists r, n', s'. split; [exact Hrun | split; [exact Hmoves |]].
    intros _ reply ->. revert Hrun. unfold intro_reply. rewrite run_bind. unfold lift.
    destruct (extract_name text); [| discriminate]. cbv beta iota.
    destruct (_ || _); do 2 mstep;
      match goal with |- context [match ?l with [] => _ | _ => _ end] => destruct l end;
      try mstep; rewrite ?run_ret; intros [= <- _]; discriminate. }
  destruct (String.eqb_spec st "verification") as [->|Hn2].
  { eexists _, _, s. rewrite (insert_id c oid s Hs).
    split; [reflexivity | split; [apply branch_moves_refl |]]. intros _ reply [= <-]. discriminate. }
  destruct (String.eqb_spec st "underwriting") as [->|Hn3].
  { destruct (underwriting_reply_effect session text c n s Hs) as (r & n' & s' & Hrun & Hmoves).
    exists r, n', s'. split; [exact Hrun | split; [exact Hmoves |]].
    intros _ reply ->. revert Hrun. unfold underwriting_reply.
    destruct (truthy_int (parse_int text)); [| intros [= <- _]; discriminate].
    mstep. match goal with
           | |- context [int_of_hundredth ?a] => destruct (int_of_hundredth_pure a) as [r Hr]
           end.
    rewrite run_bind, Hr. destruct r; cbv beta iota; [| discriminate].
    mstep. match goal with |- context [if ?b then _ else _] => destruct b end;
      mstep; rewrite run_ret; intros [= <- _]; discriminate. }
  destruct (String.eqb_spec st "sanction") as [->|Hn4].
  { destruct (sanction_reply_effect text c n s Hs) as (r & n' & s' & Hrun & Hmoves).
    exists r, n', s'. split; [exact Hrun | split; [exact Hmoves |]].
    intros _ reply ->. revert Hrun. destruct (confirms text) eqn:Hyes.
    - rewrite (sanction_reply_confirmed oid text c clk n s Hs Hyes). intros [= <- _]. discriminate.
    - rewrite (sanction_reply_waiting oid text _ clk n Hyes). intros [= <- _]. discriminate. }
  destruct (String.eqb_spec st "complete") as [->|Hn5].
  { eexists _, _, s. rewrite (insert_id c oid s Hs).
    split; [reflexivity | split; [apply branch_moves_refl |]]. intros _ reply [= <-]. discriminate. }
  exists (Return None), n, s. rewrite (insert_id c oid s Hs).
  split; [reflexivity | split; [apply branch_moves_refl |]].
  intros Hin. exfalso. cbn in Hin. intuition congruence.
Qed.

End branches.

(** What a chat request does to the session it names, whether it
    returns or raises: the user's record is added, then whatever the
    branch wrote, then the reply when there is one. *)
Lemma chat_send_effect
      (create_document : string -> Session -> M string)
      (c : gmap string Session) (clk : nat -> datetime) (n : nat)
      (sid oid msg : string) (s : Session) :
  object_id sid = Some oid ->
  c !! oid = Some s ->
  exists (r : outcome ChatResponse) (n' : nat) (s' : Session),
    chat_send create_document (mkChatInput (Some sid) msg) (mkWorld (Some c) clk n)
    = (r, mkWorld (Some (<[oid := s']> c)) clk n')
    /\ (stage s' = stage s
        \/ (get_stage s = "intro" /\ stage s' = Some "verification")
        \/ (get_stage s = "underwriting" /\ stage s' = Some "sanction")
        \/ (get_stage s = "sanction" /\ stage s' = Some "complete"))
    /\ (amount_ok s -> amount_ok s')
    /\ (exists l, messages s' = messages s ++ Some (user_message msg (clk n)) :: l)%list
    /\ (forall resp, r = Return resp ->
        exists reply,
          resp = mkChatResponse sid reply (stage s')
          /\ messages s' = (messages s ++ [Some (user_message msg (clk n)); reply])%list
          /\ (In (get_stage s) stages -> reply <> None)).
Proof.
  intros Hid Hs.
  destruct (stage_reply_effect oid clk (get_stage s) s (PyStr.strip msg)
              (<[oid := push_message (Some (user_message msg (clk n))) s]> c) (S n)
              _ (lookup_insert_eq _ _ _))
    as (r & n' & s1 & Hrun & (Hmsg & Hamt & Hmove) & Hreply).
  pose proof (chat_send_by_branch create_document c clk n n' sid oid msg s s1 r Hid Hs Hrun)
    as Hchat.
  eexists _, n', _. split; [exact Hchat |].
  cbn [messages push_message] in Hmsg.
  destruct r as [reply|e].
  - cbn [push_message stage messages requested_amount amount_ok]. unfold amount_ok in *.
    cbn [requested_amount push_message] in *.
    split; [exact Hmove |]. split; [exact Hamt |].
    split.
    + exists [reply]. rewrite Hmsg, <- app_assoc. reflexivity.
    + intros resp [= <-]. exists reply. split; [reflexivity |].
      split; [rewrite Hmsg, <- app_assoc; reflexivity |].
      intros Hin. exact (Hreply Hin reply eq_refl).
  - unfold amount_ok in *. cbn [requested_amount push_message] in *.
    split; [exact Hmove |]. split; [exact Hamt |].
    split; [exists []; exact Hmsg | discriminate].
Qed.

Lemma generate_sanction_effect (c : gmap string Session) (clk : nat -> datetime) (n : nat)
      (sid oid : string) (s : Session) :
  object_id sid = Some oid ->
  c !! oid = Some s ->
  generate_sanction sid (mkWorld (Some c) clk n)
  = (Return (letter_of (clk n) s),
     mkWorld (Some (<[oid := mkSession (Some "complete") (customer_name s) (monthly_income s)
                                      (requested_amount s) (kyc s)
                                      (with_letter (letter_of (clk n) s) (offer s))
                                      (messages s)]> c))
             clk (letter_reads s + n)).
Proof.
  intros Hid Hs. unfold generate_sanction. do 2 mstep. rewrite Hs.
  open_binds. rewrite run_generate_offer_letter.
  unfold letter_of, letter_reads.
  destruct (offer_is_empty (offer s)); cbv beta iota; mstep; rewrite run_ret; reflexivity.
Qed.

Lemma check_upload_accepted (f : UploadFile) (w : World) :
  accepted f = true -> check_upload f w = (Return tt, w).
Proof.
  unfold accepted, check_upload. intros H. apply andb_true_iff in H as [Ht Hsize].
  rewrite Ht. apply negb_true_iff in Hsize. cbn [negb]. rewrite Hsize. reflexivity.
Qed.

Lemma check_upload_refused (f : UploadFile) (w : World) :
  accepted f = false -> exists detail, check_upload f w = (Raise (HTTPException 400 detail), w).
Proof.
  unfold accepted, check_upload. intros H.
  destruct (from_option _ false (content_type f)); cbn [negb andb] in *.
  - apply negb_false_iff in H. rewrite H. eexists. reflexivity.
  - eexists. reflexivity.
Qed.

Lemma verification_upload_effect (c : gmap string Session) (clk : nat -> datetime) (n : nat)
      (sid oid : string) (pan aadhaar : UploadFile) (s : Session) :
  object_id sid = Some oid ->
  c !! oid = Some s ->
  accepted pan = true ->
  accepted aadhaar = true ->
  let msg :=
    assistant_message "KYC verified successfully. What’s your monthly income?" (clk n) in
  verification_upload sid pan aadhaar (mkWorld (Some c) clk n)
  = (Return (mkUploadResponse true msg),
     mkWorld (Some (<[oid := mkSession (Some "underwriting") (customer_name s) (monthly_income s)
                                      (requested_amount s)
                                      (Some (mkKyc (filename pan) (filename aadhaar) true))
                                      (offer s) (messages s ++ [Some msg])]> c))
             clk (S n)).
Proof.
  intros Hid Hs Hpan Haad msg. unfold verification_upload.
  open_binds. rewrite (check_upload_accepted pan _ Hpan). cbv beta iota.
  open_binds. rewrite (check_upload_accepted aadhaar _ Haad). cbv beta iota.
  do 2 mstep. rewrite Hs. do 3 mstep. rewrite run_ret. reflexivity.
Qed.

Lemma verification_upload_refused (w : World) (sid : string) (pan aadhaar : UploadFile) :
  accepted pan && accepted aadhaar = false ->
  exists detail,
    verification_upload sid pan aadhaar w = (Raise (HTTPException 400 detail), w).
Proof.
  intros H. unfold verification_upload. rewrite run_bind.
  destruct (accepted pan) eqn:Hpan.
  - rewrite (check_upload_accepted pan _ Hpan). cbv beta iota. rewrite run_bind.
    cbn [andb] in H. destruct (check_upload_refused aadhaar w H) as [detail ->].
    exists detail. reflexivity.
  - destruct (check_upload_refused pan w Hpan) as [detail ->]. exists detail. reflexivity.
Qed.

(** ** The order of the stages *)

Lemma stage_rank_in (st : string) (i : nat) : stage_rank st = Some i -> In st stages.
Proof.
  unfold stage_rank, stages. cbn [index_of In].
  destruct (String.eqb_spec st "intro") as [->|_]; [intros _; auto 10 |].
  destruct (String.eqb_spec st "verification") as [->|_]; [intros _; auto 10 |].
  destruct (String.eqb_spec st "underwriting") as [->|_]; [intros _; auto 10 |].
  destruct (String.eqb_spec st "sanction") as [->|_]; [intros _; auto 10 |].
  destruct (String.eqb_spec st "complete") as [->|_]; [intros _; auto 10 |].
  cbn. discriminate.
Qed.

Lemma in_stage_rank (st : string) : In st stages -> exists i, stage_rank st = Some i.
Proof.
  cbn [stages In]. intros [<-|[<-|[<-|[<-|[<-|[]]]]]]; eexists; reflexivity.
Qed.

Lemma stage_forward_refl (st : string) : In st stages -> stage_forward st st.
Proof.
  intros Hin. destruct (in_stage_rank st Hin) as [i Hi]. unfold stage_forward. rewrite Hi. lia.
Qed.

Lemma stage_forward_trans (a b d : string) :
  stage_forward a b -> stage_forward b d -> stage_forward a d.
Proof.
  unfold stage_forward.
  destruct (stage_rank a), (stage_rank b), (stage_rank d); try tauto. lia.
Qed.

Lemma stage_forward_to_complete (st : string) : In st stages -> stage_forward st "complete".
Proof.
  cbn [stages In]. intros [<-|[<-|[<-|[<-|[<-|[]]]]]]; unfold stage_forward; cbn; lia.
Qed.

(** A request other than an upload leaves the session in its stage or in
    a later one. *)
Lemma perform_forward
      (create_document : string -> Session -> M string)
      (sid oid : string) (op : operation)
      (c : gmap string Session) (clk : nat -> datetime) (n : nat) (s : Session) :
  object_id sid = Some oid ->
  c !! oid = Some s ->
  In (get_stage s) stages ->
  is_upload op = false ->
  exists (n' : nat) (s' : Session),
    perform create_document sid op (mkWorld (Some c) clk n)
    = mkWorld (Some (<[oid := s']> c)) clk n'
    /\ stage_forward (get_stage s) (get_stage s').
Proof.
  intros Hid Hs Hin Hop. destruct op as [msg|p a|]; [| discriminate |].
  - destruct (chat_send_effect create_document c clk n sid oid msg s Hid Hs)
      as (r & n' & s' & Hrun & Hmove & _).
    exists n', s'. cbn [perform]. rewrite Hrun. split; [reflexivity |].
    destruct Hmove as [Hsame|[[H1 H2]|[[H1 H2]|[H1 H2]]]].
    + unfold get_stage. rewrite Hsame. apply stage_forward_refl. exact Hin.
    + unfold get_stage at 2. rewrite H1, H2. unfold stage_forward. cbn. lia.
    + unfold get_stage at 2. rewrite H1, H2. unfold stage_forward. cbn. lia.
    + unfold get_stage at 2. rewrite H1, H2. unfold stage_forward. cbn. lia.
  - cbn [perform]. rewrite (generate_sanction_effect c clk n sid oid s Hid Hs).
    eexists _, _. split; [reflexivity |]. apply stage_forward_to_complete. exact Hin.
Qed.

(** C2, as the handlers have it. From a session in one of the five
    stages, no sequence of chat requests and sanction generations moves
    the stage to an earlier one. The KYC upload is not bound to a stage:
    when its two files are accepted it sets the stage to underwriting
    whatever the stage was. *)
Theorem stage_forward_except_upload
        (create_document : string -> Session -> M string)
        (sid oid : string) (ops : list operation)
        (c : gmap string Session) (clk : nat -> datetime) (n : nat) (s : Session) :
  object_id sid = Some oid ->
  c !! oid = Some s ->
  In (get_stage s) stages ->
  (forallb (fun op => negb (is_upload op)) ops = true ->
   exists s' : Session,
     session_of (perform_all create_document sid ops (mkWorld (Some c) clk n)) oid = Some s'
     /\ stage_forward (get_stage s) (get_stage s'))
  /\ (forall pan aadhaar : UploadFile,
        accepted pan = true ->
        accepted aadhaar = true ->
        exists s' : Session,
          session_of (perform create_document sid (Upload pan aadhaar) (mkWorld (Some c) clk n)) oid
          = Some s'
          /\ stage s' = Some "underwriting").
Proof.
  intros Hid Hs Hin. split.
  - revert c n s Hs Hin. induction ops as [|op ops IH]; intros c n s Hs Hin Hops.
    + exists s. cbn [perform_all fold_left session_of db]. split; [exact Hs |].
      apply stage_forward_refl, Hin.
    + cbn [forallb] in Hops. apply andb_true_iff in Hops as [Hop Hops].
      apply negb_true_iff in Hop.
      destruct (perform_forward create_document sid oid op c clk n s Hid Hs Hin Hop)
        as (n' & s1 & Hrun & Hfwd).
      unfold perform_all. cbn [fold_left]. rewrite Hrun.
      assert (Hin1 : In (get_stage s1) stages).
      { unfold stage_forward in Hfwd. destruct (stage_rank (get_stage s)); [| tauto].
        destruct (stage_rank (get_stage s1)) eqn:Hr; [| tauto]. exact (stage_rank_in _ _ Hr). }
      destruct (IH (<[oid := s1]> c) n' s1 (lookup_insert_eq _ _ _) Hin1 Hops) as (s' & Hs' & Hfwd').
      exists s'. split.
      * unfold perform_all in Hs'. rewrite Hs'. reflexivity.
      * exact (stage_forward_trans _ _ _ Hfwd Hfwd').
  - intros pan aadhaar Hpan Haad. cbn [perform].
    rewrite (verification_upload_effect c clk n sid oid pan aadhaar s Hid Hs Hpan Haad).
    eexists. cbn [snd session_of db]. rewrite lookup_insert_eq. split; reflexivity.
Qed.

Lemma stage_forward_except_upload_witness :
  object_id sample_id = Some sample_id
  /\ ({[ sample_id := SessionSchema ]} : gmap string Session) !! sample_id = Some SessionSchema
  /\ In (get_stage SessionSchema) stages
  /\ forallb (fun op => negb (is_upload op)) [Chat "Ravi Kumar 500000"; Generate; Chat "yes"] = true
  /\ exists s' : Session,
       session_of (perform_all no_create sample_id [Chat "Ravi Kumar 500000"; Generate; Chat "yes"]
                               (sample_world SessionSchema)) sample_id = Some s'
       /\ stage_forward (get_stage SessionSchema) (get_stage s').
Proof.
  split; [reflexivity |]. split; [apply sample_lookup |].
  split; [left; reflexivity |]. split; [reflexivity |].
  exact (proj1 (stage_forward_except_upload no_create sample_id sample_id
                  [Chat "Ravi Kumar 500000"; Generate; Chat "yes"]
                  {[ sample_id := SessionSchema ]} sample_clock 0 SessionSchema
                  eq_refl (sample_lookup _) (or_introl eq_refl)) eq_refl).
Defined.

(** The stage does move backward: a session that reached complete is
    put back in underwriting by an upload of two accepted files. *)
Lemma upload_moves_complete_back :
  option_map get_stage (session_of (sample_world completed_session) sample_id) = Some "complete"
  /\ option_map get_stage
       (session_of (perform no_create sample_id
                            (Upload (sample_file "pan.png") (sample_file "aadhaar.png"))
                            (sample_world completed_session)) sample_id)
     = Some "underwriting"
  /\ ~ stage_forward "complete" "underwriting".
Proof.
  split; [vm_compute; reflexivity |]. split; [vm_compute; reflexivity |].
  unfold stage_forward. cbn. lia.
Qed.

(** * Errors, effects and invariants of the routes *)

(** ** Errors *)

Lemma run_col_none (name : string) (clk : nat -> datetime) (n : nat) :
  _col name (mkWorld None clk n)
  = (Raise (HTTPException 500 "Database not configured"), mkWorld None clk n).
Proof. reflexivity. Qed.

Lemma run_find_one_none (oid : string) (clk : nat -> datetime) (n : nat) :
  find_one oid (mkWorld None clk n)
  = (Raise (HTTPException 500 "Database not configured"), mkWorld None clk n).
Proof. reflexivity. Qed.

Lemma run_oid_bad (sid : string) (w : World) :
  object_id sid = None -> _oid sid w = (Raise (HTTPException 400 "Invalid session id"), w).
Proof. intros H. unfold _oid. rewrite H. reflexivity. Qed.

Lemma all_chars_weaken (p q : ascii -> bool) (s : string) :
  (forall c, p c = true -> q c = true) -> all_chars p s = true -> all_chars q s = true.
Proof.
  intros Hpq. induction s as [|ch s IH]; [reflexivity |].
  cbn [all_chars]. intros H. apply andb_true_iff in H as [Hch Hs].
  rewrite (Hpq _ Hch), (IH Hs). reflexivity.
Qed.

Lemma refused_id_none (sid : string) : refused_id sid = true -> object_id sid = None.
Proof.
  unfold refused_id, object_id. destruct (String.length sid =? 24)%nat; [| reflexivity].
  cbn [negb orb andb]. intros H. apply negb_true_iff in H.
  destruct (all_chars is_hex sid) eqn:Hhex; [| reflexivity].
  rewrite (all_chars_weaken is_hex _ sid) in H; [discriminate | | exact Hhex].
  intros c Hc. rewrite Hc. reflexivity.
Qed.

(** A session id that is no [ObjectId], because it has not 24 characters
    or holds one that is neither a hexadecimal digit nor white space, is
    refused with the status 400 by the chat route, the sanction route and
    (once both files are accepted) the upload route, before the store is
    read: the world is left as it was, and this holds with or without a
    database. *)
Theorem malformed_id_is_refused
        (create_document : string -> Session -> M string)
        (sid msg : string) (pan aadhaar : UploadFile) (w : World) :
  sid <> "" ->
  refused_id sid = true ->
  chat_send create_document (mkChatInput (Some sid) msg) w
  = (Raise (HTTPException 400 "Invalid session id"), w)
  /\ generate_sanction sid w = (Raise (HTTPException 400 "Invalid session id"), w)
  /\ (accepted pan = true -> accepted aadhaar = true ->
      verification_upload sid pan aadhaar w
      = (Raise (HTTPException 400 "Invalid session id"), w)).
Proof.
  intros Hne Hrefused. pose proof (refused_id_none sid Hrefused) as Hbad.
  assert (Htruthy : truthy_str (Some sid) = Some sid).
  { cbn [truthy_str]. destruct (String.eqb_spec sid ""); [contradiction | reflexivity]. }
  split; [| split].
  - unfold chat_send. cbn [session_id]. rewrite Htruthy.
    open_binds. rewrite run_ret. cbv beta iota.
    open_binds. rewrite (run_oid_bad sid w Hbad). reflexivity.
  - unfold generate_sanction. open_binds. rewrite (run_oid_bad sid w Hbad). reflexivity.
  - intros Hpan Haad. unfold verification_upload.
    open_binds. rewrite (check_upload_accepted pan _ Hpan). cbv beta iota.
    open_binds. rewrite (check_upload_accepted aadhaar _ Haad). cbv beta iota.
    open_binds. rewrite (run_oid_bad sid w Hbad). reflexivity.
Qed.

Lemma malformed_id_is_refused_witness :
  "not-an-id" <> ""
  /\ refused_id "not-an-id" = true
  /\ chat_send no_create (mkChatInput (Some "not-an-id") "hello") (sample_world SessionSchema)
     = (Raise (HTTPException 400 "Invalid session id"), sample_world SessionSchema).
Proof.
  split; [discriminate |]. split; [reflexivity |].
  exact (proj1 (malformed_id_is_refused no_create "not-an-id" "hello"
                  (sample_file "a") (sample_file "b") (sample_world SessionSchema)
                  ltac:(discriminate) eq_refl)).
Defined.

(** A well-formed id that names no document is answered with the status
    404 by the chat, sanction, upload and session routes, and nothing is
    written: no message is stored for a session that does not exist. *)
Theorem unknown_session_is_not_found
        (create_document : string -> Session -> M string)
        (c : gmap string Session) (clk : nat -> datetime) (n : nat)
        (sid oid msg : string) (pan aadhaar : UploadFile) :
  object_id sid = Some oid ->
  c !! oid = None ->
  let w := mkWorld (Some c) clk n in
  let not_found := HTTPException 404 "Session not found" in
  chat_send create_document (mkChatInput (Some sid) msg) w = (Raise not_found, w)
  /\ generate_sanction sid w = (Raise not_found, w)
  /\ get_session sid w = (Raise not_found, w)
  /\ (accepted pan = true -> accepted aadhaar = true ->
      verification_upload sid pan aadhaar w = (Raise not_found, w)).
Proof.
  intros Hid Hnone w not_found. subst w not_found. split; [| split; [| split]].
  - unfold chat_send. cbn [session_id]. rewrite (object_id_truthy _ _ Hid).
    do 3 mstep. rewrite Hnone. reflexivity.
  - unfold generate_sanction. do 2 mstep. rewrite Hnone. reflexivity.
  - unfold get_session. open_binds. cbn [_col db]. cbv beta iota.
    open_binds. rewrite (run_oid sid oid _ Hid). cbv beta iota. rewrite Hnone. reflexivity.
  - intros Hpan Haad. unfold verification_upload.
    open_binds. rewrite (check_upload_accepted pan _ Hpan). cbv beta iota.
    open_binds. rewrite (check_upload_accepted aadhaar _ Haad). cbv beta iota.
    do 2 mstep. rewrite Hnone. reflexivity.
Qed.

Lemma unknown_session_is_not_found_witness :
  object_id sample_id = Some sample_id
  /\ (∅ : gmap string Session) !! sample_id = None
  /\ chat_send no_create (mkChatInput (Some sample_id) "hello") (mkWorld (Some ∅) sample_clock 0)
     = (Raise (HTTPException 404 "Session not found"), mkWorld (Some ∅) sample_clock 0).
Proof.
  split; [reflexivity |]. split; [apply lookup_empty |].
  exact (proj1 (unknown_session_is_not_found no_create ∅ sample_clock 0 sample_id sample_id
                  "hello" (sample_file "a") (sample_file "b") eq_refl (lookup_empty _))).
Defined.

(** Without a database every route that names a session answers with
    the status 500 and the detail "Database not configured". The session
    route reports it even for a malformed id, which the other routes
    refuse first. *)
Theorem missing_database_is_reported
        (create_document : string -> Session -> M string)
        (clk : nat -> datetime) (n : nat)
        (sid oid msg any : string) (pan aadhaar : UploadFile) :
  object_id sid = Some oid ->
  let w := mkWorld None clk n in
  let unavailable := HTTPException 500 "Database not configured" in
  chat_send create_document (mkChatInput (Some sid) msg) w = (Raise unavailable, w)
  /\ generate_sanction sid w = (Raise unavailable, w)
  /\ get_session any w = (Raise unavailable, w)
  /\ (accepted pan = true -> accepted aadhaar = true ->
      verification_upload sid pan aadhaar w = (Raise unavailable, w)).
Proof.
  intros Hid w unavailable. subst w unavailable. split; [| split; [| split]].
  - unfold chat_send. cbn [session_id]. rewrite (object_id_truthy _ _ Hid).
    do 2 mstep. open_binds. rewrite run_find_one_none. reflexivity.
  - unfold generate_sanction. mstep. open_binds. rewrite run_find_one_none. reflexivity.
  - reflexivity.
  - intros Hpan Haad. unfold verification_upload.
    open_binds. rewrite (check_upload_accepted pan _ Hpan). cbv beta iota.
    open_binds. rewrite (check_upload_accepted aadhaar _ Haad). cbv beta iota.
    mstep. open_binds. rewrite run_find_one_none. reflexivity.
Qed.

Lemma missing_database_is_reported_witness :
  object_id sample_id = Some sample_id
  /\ generate_sanction sample_id (mkWorld None sample_clock 0)
     = (Raise (HTTPException 500 "Database not configured"), mkWorld None sample_clock 0)
  /\ get_session "not-an-id" (mkWorld None sample_clock 0)
     = (Raise (HTTPException 500 "Database not configured"), mkWorld None sample_clock 0).
Proof.
  split; [reflexivity |].
  pose proof (missing_database_is_reported no_create sample_clock 0 sample_id sample_id
                "hello" "not-an-id" (sample_file "a") (sample_file "b") eq_refl) as H.
  cbv zeta in H. destruct H as (_ & Hgen & Hget & _). split; [exact Hgen | exact Hget].
Defined.

(** ** The upload route *)

(** The files are checked before anything else, the PAN before the
    Aadhaar, the type before the size, and the first failure is the one
    reported, with the file's name; the session id is not even parsed and
    nothing is written. *)
Theorem upload_reports_first_failure (sid : string) (pan aadhaar : UploadFile) (w : World) :
  let refuse (what : string) (f : UploadFile) :=
    (Raise (HTTPException 400 (what ++ str_or_none (filename f))), w)
    : outcome UploadResponse * World in
  (type_allowed pan = false ->
   verification_upload sid pan aadhaar w = refuse "Invalid file type: " pan)
  /\ (type_allowed pan = true -> too_small pan = true ->
      verification_upload sid pan aadhaar w = refuse "File too small/unclear: " pan)
  /\ (accepted pan = true -> type_allowed aadhaar = false ->
      verification_upload sid pan aadhaar w = refuse "Invalid file type: " aadhaar)
  /\ (accepted pan = true -> type_allowed aadhaar = true -> too_small aadhaar = true ->
      verification_upload sid pan aadhaar w = refuse "File too small/unclear: " aadhaar).
Proof.
  intros refuse. subst refuse. unfold type_allowed, too_small.
  split; [| split; [| split]].
  - intros Ht. unfold verification_upload. open_binds.
    unfold check_upload. rewrite Ht. reflexivity.
  - intros Ht Hs. unfold verification_upload. open_binds.
    unfold check_upload. rewrite Ht, Hs. reflexivity.
  - intros Hpan Ht. unfold verification_upload. open_binds.
    rewrite (check_upload_accepted pan _ Hpan). cbv beta iota. open_binds.
    unfold check_upload. rewrite Ht. reflexivity.
  - intros Hpan Ht Hs. unfold verification_upload. open_binds.
    rewrite (check_upload_accepted pan _ Hpan). cbv beta iota. open_binds.
    unfold check_upload. rewrite Ht, Hs. reflexivity.
Qed.

(** A text file as PAN is refused by its type, and a PNG of 10239 bytes
    by its size, whatever the Aadhaar is. *)
Example upload_refusals :
  fst (verification_upload sample_id (file_of "pan.txt" "text/plain" 20000)
                           (sample_file "aadhaar.png") (sample_world SessionSchema))
  = Raise (HTTPException 400 "Invalid file type: pan.txt")
  /\ fst (verification_upload sample_id (file_of "pan.png" "image/png" 10239)
                              (file_of "aadhaar.txt" "text/plain" 1) (sample_world SessionSchema))
     = Raise (HTTPException 400 "File too small/unclear: pan.png").
Proof. split; vm_compute; reflexivity. Qed.

(** An upload of two accepted files, for a session that exists, in any
    stage: [kyc] becomes the two file names with [verified] true, the
    stage becomes underwriting, [messages] gains the one record that asks
    for the income, and name, income, amount and offer are kept. The
    user's upload leaves no record of its own. *)
Theorem upload_records_kyc
        (c : gmap string Session) (clk : nat -> datetime) (n : nat)
        (sid oid : string) (pan aadhaar : UploadFile) (s : Session) :
  object_id sid = Some oid ->
  c !! oid = Some s ->
  accepted pan = true ->
  accepted aadhaar = true ->
  let msg :=
    assistant_message "KYC verified successfully. What’s your monthly income?" (clk n) in
  verification_upload sid pan aadhaar (mkWorld (Some c) clk n)
  = (Return (mkUploadResponse true msg),
     mkWorld (Some (<[oid := mkSession (Some "underwriting") (customer_name s) (monthly_income s)
                                      (requested_amount s)
                                      (Some (mkKyc (filename pan) (filename aadhaar) true))
                                      (offer s) (messages s ++ [Some msg])]> c))
             clk (S n)).
Proof. exact (verification_upload_effect c clk n sid oid pan aadhaar s). Qed.

Lemma upload_records_kyc_witness :
  object_id sample_id = Some sample_id
  /\ ({[ sample_id := in_stage "verification" ]} : gmap string Session) !! sample_id
     = Some (in_stage "verification")
  /\ accepted (sample_file "pan.png") = true
  /\ accepted (sample_file "aadhaar.png") = true
  /\ option_map (fun s => (stage s, kyc s, length (messages s)))
       (session_of (snd (verification_upload sample_id (sample_file "pan.png")
                                             (sample_file "aadhaar.png")
                                             (sample_world (in_stage "verification"))))
                   sample_id)
     = Some (Some "underwriting", Some (mkKyc (Some "pan.png") (Some "aadhaar.png") true), 1%nat).
Proof.
  split; [reflexivity |]. split; [apply sample_lookup |].
  split; [vm_compute; reflexivity |]. split; [vm_compute; reflexivity |].
  unfold sample_world.
  rewrite (upload_records_kyc {[ sample_id := in_stage "verification" ]} sample_clock 0
             sample_id sample_id (sample_file "pan.png") (sample_file "aadhaar.png")
             (in_stage "verification") eq_refl (sample_lookup _)
             ltac:(vm_compute; reflexivity) ltac:(vm_compute; reflexivity)).
  cbn [snd session_of db]. rewrite lookup_insert_eq. reflexivity.
Defined.

(** ** The sanction route *)

(** [generate_sanction] works in every stage: it returns the letter of
    the stored name and offer, stores it as [offer.letter], sets the
    stage to complete, and adds no record to [messages]. *)
Theorem sanction_route_stores_letter
        (c : gmap string Session) (clk : nat -> datetime) (n : nat)
        (sid oid : string) (s : Session) :
  object_id sid = Some oid ->
  c !! oid = Some s ->
  generate_sanction sid (mkWorld (Some c) clk n)
  = (Return (letter_of (clk n) s),
     mkWorld (Some (<[oid := mkSession (Some "complete") (customer_name s) (monthly_income s)
                                      (requested_amount s) (kyc s)
                                      (with_letter (letter_of (clk n) s) (offer s))
                                      (messages s)]> c))
             clk (letter_reads s + n)).
Proof. exact (generate_sanction_effect c clk n sid oid s). Qed.

Lemma sanction_route_stores_letter_witness :
  object_id sample_id = Some sample_id
  /\ ({[ sample_id := offered_session ]} : gmap string Session) !! sample_id = Some offered_session
  /\ fst (generate_sanction sample_id (sample_world offered_session))
     = Return (letter_of (sample_clock 0) offered_session).
Proof.
  split; [reflexivity |]. split; [apply sample_lookup |].
  unfold sample_world.
  rewrite (sanction_route_stores_letter {[ sample_id := offered_session ]} sample_clock 0
             sample_id sample_id offered_session eq_refl (sample_lookup _)).
  reflexivity.
Defined.

(** On a session without an offer the first call returns "No offer
    available." and stores it as [offer.letter]; the offer is then no
    longer empty, so a second call returns a full letter, whose amounts,
    rate, tenure and fee are all 0. *)
Theorem sanction_route_twice_on_empty_offer
        (c : gmap string Session) (clk : nat -> datetime) (n : nat)
        (sid oid : string) (s : Session) :
  object_id sid = Some oid ->
  c !! oid = Some s ->
  offer s = empty_offer ->
  let first := generate_sanction sid (mkWorld (Some c) clk n) in
  let second := generate_sanction sid (snd first) in
  fst first = Return "No offer available."
  /\ fst second
     = Return (letter_text (clk n) (get_default (customer_name s) "Customer")
                           (with_letter "No offer available." empty_offer))
  /\ PyStr.contains ("Approved Amount: ₹0" ++ nl ++ "Interest Rate: 0% p.a." ++ nl
                     ++ "Tenure: 0 months" ++ nl ++ "Processing Fee: ₹0" ++ nl)
                    (letter_text (clk n) (get_default (customer_name s) "Customer")
                                 (with_letter "No offer available." empty_offer))
     = true.
Proof.
  intros Hid Hs Hoffer first second. subst second first.
  rewrite (generate_sanction_effect c clk n sid oid s Hid Hs).
  unfold letter_of at 1 2, letter_reads. rewrite Hoffer. cbn [offer_is_empty empty_offer fst snd].
  split; [reflexivity |].
  rewrite (generate_sanction_effect _ clk _ sid oid _ Hid (lookup_insert_eq _ _ _)).
  cbn [fst]. unfold letter_of. cbn [offer customer_name with_letter offer_is_empty
    requested approved rate tenure_months processing_fee status letter empty_offer].
  split; [reflexivity |].
  unfold letter_text. find_piece.
Qed.

Lemma sanction_route_twice_on_empty_offer_witness :
  object_id sample_id = Some sample_id
  /\ ({[ sample_id := SessionSchema ]} : gmap string Session) !! sample_id = Some SessionSchema
  /\ offer SessionSchema = empty_offer
  /\ fst (generate_sanction sample_id (sample_world SessionSchema)) = Return "No offer available."
  /\ fst (generate_sanction sample_id (snd (generate_sanction sample_id (sample_world SessionSchema))))
     = Return (letter_text (sample_clock 0) None (with_letter "No offer available." empty_offer)).
Proof.
  split; [reflexivity |]. split; [apply sample_lookup |]. split; [reflexivity |].
  pose proof (sanction_route_twice_on_empty_offer {[ sample_id := SessionSchema ]} sample_clock 0
                sample_id sample_id SessionSchema eq_refl (sample_lookup _) eq_refl) as H.
  cbv zeta in H. destruct H as (H1 & H2 & _). split; [exact H1 | exact H2].
Defined.

(** ** The session route *)

(** [get_session] returns the stored document under the id in the form
    [str] gives it (lower case), and writes nothing. *)
Theorem session_route_reads
        (c : gmap string Session) (clk : nat -> datetime) (n : nat)
        (sid oid : string) (s : Session) :
  object_id sid = Some oid ->
  c !! oid = Some s ->
  get_session sid (mkWorld (Some c) clk n)
  = (Return (mkSessionView oid s), mkWorld (Some c) clk n)
  /\ oid = PyStr.lower sid.
Proof.
  intros Hid Hs. split.
  - unfold get_session. open_binds. cbn [_col db]. cbv beta iota.
    open_binds. rewrite (run_oid sid oid _ Hid). cbv beta iota. rewrite Hs. reflexivity.
  - unfold object_id in Hid. destruct (_ && _); [| discriminate]. injection Hid as <-. reflexivity.
Qed.

Lemma session_route_reads_witness :
  object_id "0123456789ABCDEF01234567" = Some sample_id
  /\ ({[ sample_id := offered_session ]} : gmap string Session) !! sample_id = Some offered_session
  /\ fst (get_session "0123456789ABCDEF01234567" (sample_world offered_session))
     = Return (mkSessionView sample_id offered_session).
Proof.
  split; [reflexivity |]. split; [apply sample_lookup |].
  unfold sample_world.
  rewrite (proj1 (session_route_reads {[ sample_id := offered_session ]} sample_clock 0
                    "0123456789ABCDEF01234567" sample_id offered_session
                    eq_refl (sample_lookup _))).
  reflexivity.
Defined.

(** ** Sequences of requests on one session *)

(** What any request does to the session it names: the collection
    changes at that id only, the records of
    [messages] are kept in front of any new one, and [amount_ok] is kept. *)
Lemma perform_effect
      (create_document : string -> Session -> M string)
      (sid oid : string) (op : operation)
      (c : gmap string Session) (clk : nat -> datetime) (n : nat) (s : Session) :
  object_id sid = Some oid ->
  c !! oid = Some s ->
  exists (n' : nat) (s' : Session),
    perform create_document sid op (mkWorld (Some c) clk n)
    = mkWorld (Some (<[oid := s']> c)) clk n'
    /\ (exists l, messages s' = messages s ++ l)%list
    /\ (amount_ok s -> amount_ok s').
Proof.
  intros Hid Hs. destruct op as [msg|pan aadhaar|]; cbn [perform].
  - destruct (chat_send_effect create_document c clk n sid oid msg s Hid Hs)
      as (r & n' & s' & Hrun & _ & Hamt & (l & Hl) & _).
    exists n', s'. rewrite Hrun. split; [reflexivity |].
    split; [eexists; exact Hl | exact Hamt].
  - destruct (accepted pan && accepted aadhaar) eqn:Hacc.
    + apply andb_true_iff in Hacc as [Hpan Haad].
      rewrite (verification_upload_effect c clk n sid oid pan aadhaar s Hid Hs Hpan Haad).
      eexists _, _. split; [reflexivity |].
      split; [eexists; reflexivity | tauto].
    + destruct (verification_upload_refused (mkWorld (Some c) clk n) sid pan aadhaar Hacc)
        as [detail ->].
      exists n, s. rewrite (insert_id c oid s Hs). split; [reflexivity |].
      split; [exists []; symmetry; apply app_nil_r | tauto].
  - rewrite (generate_sanction_effect c clk n sid oid s Hid Hs).
    eexists _, _. split; [reflexivity |].
    split; [exists []; symmetry; apply app_nil_r | tauto].
Qed.

Lemma perform_all_effect
      (create_document : string -> Session -> M string)
      (sid oid : string) (clk : nat -> datetime) (ops : list operation) :
  object_id sid = Some oid ->
  forall (c : gmap string Session) (n : nat) (s : Session),
    c !! oid = Some s ->
    exists (c' : gmap string Session) (n' : nat) (s' : Session),
      perform_all create_document sid ops (mkWorld (Some c) clk n) = mkWorld (Some c') clk n'
      /\ c' !! oid = Some s'
      /\ (forall k, k <> oid -> c' !! k = c !! k)
      /\ (exists l, messages s' = messages s ++ l)%list
      /\ (amount_ok s -> amount_ok s').
Proof.
  intros Hid. induction ops as [|op ops IH]; intros c n s Hs.
  - exists c, n, s. split; [reflexivity |]. split; [exact Hs |]. split; [reflexivity |].
    split; [exists []; symmetry; apply app_nil_r | tauto].
  - destruct (perform_effect create_document sid oid op c clk n s Hid Hs)
      as (n1 & s1 & Hrun & (l1 & Hl1) & Hamt1).
    destruct (IH (<[oid := s1]> c) n1 s1 (lookup_insert_eq _ _ _))
      as (c' & n' & s' & Hall & Hs' & Hframe & (l & Hl) & Hamt).
    exists c', n', s'. unfold perform_all in *. cbn [fold_left]. rewrite Hrun.
    split; [exact Hall |]. split; [exact Hs' |].
    split.
    { intros k Hk. rewrite (Hframe k Hk). apply lookup_insert_ne. congruence. }
    split; [| tauto].
    exists (l1 ++ l)%list. rewrite Hl, Hl1, app_assoc. reflexivity.
Qed.

(** No request ever removes or rewrites a record of [messages]: after
    any sequence of chat messages, uploads and sanction generations,
    accepted or refused, returned or raised, the records the session had
    are still there, in order, before the new ones. *)
Theorem messages_only_grow
        (create_document : string -> Session -> M string)
        (sid oid : string) (ops : list operation)
        (c : gmap string Session) (clk : nat -> datetime) (n : nat) (s : Session) :
  object_id sid = Some oid ->
  c !! oid = Some s ->
  exists (s' : Session) (l : list (option Message)),
    session_of (perform_all create_document sid ops (mkWorld (Some c) clk n)) oid = Some s'
    /\ messages s' = (messages s ++ l)%list.
Proof.
  intros Hid Hs.
  destruct (perform_all_effect create_document sid oid clk ops Hid c n s Hs)
    as (c' & n' & s' & Hall & Hs' & _ & (l & Hl) & _).
  exists s', l. rewrite Hall. split; [exact Hs' | exact Hl].
Qed.

Lemma messages_only_grow_witness :
  object_id sample_id = Some sample_id
  /\ ({[ sample_id := SessionSchema ]} : gmap string Session) !! sample_id = Some SessionSchema
  /\ exists (s' : Session) (l : list (option Message)),
       session_of (perform_all no_create sample_id
                               [Chat "I am Bob"; Chat "500000";
                                Upload (sample_file "pan.png") (sample_file "aadhaar.png"); Generate]
                               (sample_world SessionSchema)) sample_id = Some s'
       /\ messages s' = (messages SessionSchema ++ l)%list.
Proof.
  split; [reflexivity |]. split; [apply sample_lookup |].
  exact (messages_only_grow no_create sample_id sample_id
           [Chat "I am Bob"; Chat "500000";
            Upload (sample_file "pan.png") (sample_file "aadhaar.png"); Generate]
           {[ sample_id := SessionSchema ]} sample_clock 0 SessionSchema
           eq_refl (sample_lookup _)).
Defined.

(** The amount a session asks for stays unset or positive: no sequence
    of requests stores a zero or a negative [requested_amount]. It holds
    for the session [Session()] starts as, so for every session the
    routes have written. *)
Theorem amount_ok_invariant
        (create_document : string -> Session -> M string)
        (sid oid : string) (ops : list operation)
        (c : gmap string Session) (clk : nat -> datetime) (n : nat) (s : Session) :
  object_id sid = Some oid ->
  c !! oid = Some s ->
  amount_ok s ->
  exists s' : Session,
    session_of (perform_all create_document sid ops (mkWorld (Some c) clk n)) oid = Some s'
    /\ amount_ok s'.
Proof.
  intros Hid Hs Hok.
  destruct (perform_all_effect create_document sid oid clk ops Hid c n s Hs)
    as (c' & n' & s' & Hall & Hs' & _ & _ & Hamt).
  exists s'. rewrite Hall. split; [exact Hs' | exact (Hamt Hok)].
Qed.

Lemma amount_ok_invariant_witness :
  object_id sample_id = Some sample_id
  /\ ({[ sample_id := SessionSchema ]} : gmap string Session) !! sample_id = Some SessionSchema
  /\ amount_ok SessionSchema
  /\ exists s' : Session,
       session_of (perform_all no_create sample_id [Chat "0"; Chat "i need 0,250,000"]
                               (sample_world SessionSchema)) sample_id = Some s'
       /\ amount_ok s'.
Proof.
  split; [reflexivity |]. split; [apply sample_lookup |]. split; [exact I |].
  exact (amount_ok_invariant no_create sample_id sample_id [Chat "0"; Chat "i need 0,250,000"]
           {[ sample_id := SessionSchema ]} sample_clock 0 SessionSchema
           eq_refl (sample_lookup _) I).
Defined.

(** Requests on one session leave every other document of the
    collection as it was, and the session they name is still stored
    after them: no request removes a document. *)
Theorem other_sessions_untouched
        (create_document : string -> Session -> M string)
        (sid oid : string) (ops : list operation)
        (c : gmap string Session) (clk : nat -> datetime) (n : nat) (s : Session) :
  object_id sid = Some oid ->
  c !! oid = Some s ->
  (exists s' : Session,
     session_of (perform_all create_document sid ops (mkWorld (Some c) clk n)) oid = Some s')
  /\ (forall other : string,
        other <> oid ->
        session_of (perform_all create_document sid ops (mkWorld (Some c) clk n)) other
        = c !! other).
Proof.
  intros Hid Hs.
  destruct (perform_all_effect create_document sid oid clk ops Hid c n s Hs)
    as (c' & n' & s' & Hall & Hs' & Hframe & _).
  rewrite Hall. split.
  - exists s'. exact Hs'.
  - intros other Hother. exact (Hframe other Hother).
Qed.

Lemma other_sessions_untouched_witness :
  object_id sample_id = Some sample_id
  /\ (<[ "aaaaaaaaaaaaaaaaaaaaaaaa" := offered_session ]> {[ sample_id := SessionSchema ]}
      : gmap string Session) !! sample_id = Some SessionSchema
  /\ "aaaaaaaaaaaaaaaaaaaaaaaa" <> sample_id
  /\ (exists s' : Session,
        session_of (perform_all no_create sample_id [Chat "my name is Jane Doe"; Generate]
                                (mkWorld (Some (<[ "aaaaaaaaaaaaaaaaaaaaaaaa" := offered_session ]>
                                                  {[ sample_id := SessionSchema ]}))
                                         sample_clock 0))
                   sample_id
        = Some s')
  /\ session_of (perform_all no_create sample_id [Chat "my name is Jane Doe"; Generate]
                             (mkWorld (Some (<[ "aaaaaaaaaaaaaaaaaaaaaaaa" := offered_session ]>
                                               {[ sample_id := SessionSchema ]}))
                                      sample_clock 0))
                "aaaaaaaaaaaaaaaaaaaaaaaa"
     = Some offered_session.
Proof.
  assert (Hne : "aaaaaaaaaaaaaaaaaaaaaaaa" <> sample_id) by discriminate.
  assert (Hs : (<[ "aaaaaaaaaaaaaaaaaaaaaaaa" := offered_session ]> {[ sample_id := SessionSchema ]}
                : gmap string Session) !! sample_id = Some SessionSchema).
  { rewrite lookup_insert_ne by exact Hne. apply sample_lookup. }
  split; [reflexivity |]. split; [exact Hs |]. split; [exact Hne |].
  destruct (other_sessions_untouched no_create sample_id sample_id
              [Chat "my name is Jane Doe"; Generate] _ sample_clock 0 SessionSchema
              eq_refl Hs) as [Hkept Hothers].
  split; [exact Hkept |].
  rewrite (Hothers "aaaaaaaaaaaaaaaaaaaaaaaa" Hne).
  apply lookup_insert_eq.
Defined.

(** ** Chat turns *)

(** A chat request that returns, on a session in one of the five stages,
    has added exactly two records to [messages], the user's and then the
    reply's; the reply it returns is the one stored and the stage it
    returns is the stage stored. *)
Theorem returned_turn_adds_two_records
        (create_document : string -> Session -> M string)
        (c : gmap string Session) (clk : nat -> datetime) (n : nat)
        (sid oid msg : string) (s : Session) (resp : ChatResponse) :
  object_id sid = Some oid ->
  c !! oid = Some s ->
  In (get_stage s) stages ->
  fst (chat_send create_document (mkChatInput (Some sid) msg) (mkWorld (Some c) clk n))
  = Return resp ->
  exists (reply : Message) (s' : Session),
    session_of (snd (chat_send create_document (mkChatInput (Some sid) msg)
                               (mkWorld (Some c) clk n))) oid = Some s'
    /\ messages s' = (messages s ++ [Some (user_message msg (clk n)); Some reply])%list
    /\ resp = mkChatResponse sid (Some reply) (stage s').
Proof.
  intros Hid Hs Hin Hret.
  destruct (chat_send_effect create_document c clk n sid oid msg s Hid Hs)
    as (r & n' & s' & Hrun & _ & _ & _ & Hreturned).
  rewrite Hrun in Hret |- *. cbn [fst] in Hret. cbn [snd session_of db].
  destruct (Hreturned resp Hret) as (reply & Hresp & Hmsgs & Hsome).
  destruct reply as [reply|]; [| exfalso; exact (Hsome Hin eq_refl)].
  exists reply, s'. rewrite lookup_insert_eq. split; [reflexivity |]. split; assumption.
Qed.

Lemma returned_turn_adds_two_records_witness :
  object_id sample_id = Some sample_id
  /\ ({[ sample_id := SessionSchema ]} : gmap string Session) !! sample_id = Some SessionSchema
  /\ In (get_stage SessionSchema) stages
  /\ fst (chat_send no_create (mkChatInput (Some sample_id) "500000") (sample_world SessionSchema))
     = Return (mkChatResponse sample_id
                 (Some (assistant_message
                          "Great. To proceed, please upload your KYC: PAN and Aadhaar. You can upload images (JPG/PNG) or PDF."
                          (sample_clock 1)))
                 (Some "verification"))
  /\ exists (reply : Message) (s' : Session),
       session_of (snd (chat_send no_create (mkChatInput (Some sample_id) "500000")
                                  (sample_world SessionSchema))) sample_id = Some s'
       /\ messages s' = [Some (user_message "500000" (sample_clock 0)); Some reply].
Proof.
  split; [reflexivity |]. split; [apply sample_lookup |]. split; [left; reflexivity |].
  split; [vm_compute; reflexivity |].
  destruct (returned_turn_adds_two_records no_create {[ sample_id := SessionSchema ]}
              sample_clock 0 sample_id sample_id "500000" SessionSchema _
              eq_refl (sample_lookup _) (or_introl eq_refl)
              ltac:(vm_compute; reflexivity))
    as (reply & s' & Hs' & Hmsgs & _).
  exists reply, s'. split; [exact Hs' | exact Hmsgs].
Defined.

Lemma stage_reply_unknown (st oid : string) (session : Session) (text : string) :
  ~ In st stages -> stage_reply st oid session text = mret None.
Proof.
  intros Hout. unfold stage_reply. cbn [stages In] in Hout.
  destruct (String.eqb_spec st "intro"); [exfalso; apply Hout; auto 10 |].
  destruct (String.eqb_spec st "verification"); [exfalso; apply Hout; auto 10 |].
  destruct (String.eqb_spec st "underwriting"); [exfalso; apply Hout; auto 10 |].
  destruct (String.eqb_spec st "sanction"); [exfalso; apply Hout; auto 10 |].
  destruct (String.eqb_spec st "complete"); [exfalso; apply Hout; auto 10 |].
  reflexivity.
Qed.

(** A session whose stage is none of the five names takes no branch:
    [reply] stays [None], and that [None] is pushed onto [messages] after
    the user's record and returned to the client; the stage is kept. *)
Theorem unknown_stage_stores_null_reply
        (create_document : string -> Session -> M string)
        (c : gmap string Session) (clk : nat -> datetime) (n : nat)
        (sid oid msg : string) (s : Session) :
  object_id sid = Some oid ->
  c !! oid = Some s ->
  ~ In (get_stage s) stages ->
  chat_send create_document (mkChatInput (Some sid) msg) (mkWorld (Some c) clk n)
  = (Return (mkChatResponse sid None (stage s)),
     mkWorld (Some (<[oid := add_messages [Some (user_message msg (clk n)); None] s]> c))
             clk (S n)).
Proof.
  intros Hid Hs Hout. apply chat_send_quiet; [exact Hid | exact Hs |].
  rewrite (stage_reply_unknown _ oid s (PyStr.strip msg) Hout). reflexivity.
Qed.

Lemma unknown_stage_stores_null_reply_witness :
  object_id sample_id = Some sample_id
  /\ ({[ sample_id := in_stage "review" ]} : gmap string Session) !! sample_id
     = Some (in_stage "review")
  /\ ~ In (get_stage (in_stage "review")) stages
  /\ chat_send no_create (mkChatInput (Some sample_id) "hello") (sample_world (in_stage "review"))
     = (Return (mkChatResponse sample_id None (Some "review")),
        mkWorld (Some (<[sample_id := add_messages [Some (user_message "hello" (sample_clock 0)); None]
                                        (in_stage "review")]> {[ sample_id := in_stage "review" ]}))
                sample_clock 1).
Proof.
  assert (Hout : ~ In (get_stage (in_stage "review")) stages).
  { cbn. intros H. repeat (destruct H as [H|H]; [discriminate H |]). exact H. }
  split; [reflexivity |]. split; [apply sample_lookup |]. split; [exact Hout |].
  exact (unknown_stage_stores_null_reply no_create {[ sample_id := in_stage "review" ]}
           sample_clock 0 sample_id sample_id "hello" (in_stage "review")
           eq_refl (sample_lookup _) Hout).
Defined.

(** The only way a chat request on a stored session raises: for a
    session in one of the five stages whose amount is unset or positive,
    and an ASCII text whose number, if any, fits 8 bytes, [chat_send] raises
    exactly when the stage is intro and the mark of a name found in the
    lower-case text is missing from the text as written, and the
    exception is then the [IndexError]. In every other case it returns. *)
Theorem chat_raises_only_on_lost_name
        (create_document : string -> Session -> M string)
        (c : gmap string Session) (clk : nat -> datetime) (n : nat)
        (sid oid msg : string) (s : Session) :
  object_id sid = Some oid ->
  c !! oid = Some s ->
  In (get_stage s) stages ->
  amount_ok s ->
  ascii_text msg = true ->
  fits_int64 (PyStr.strip msg) ->
  match fst (chat_send create_document (mkChatInput (Some sid) msg) (mkWorld (Some c) clk n)) with
  | Raise e =>
      e = IndexError /\ get_stage s = "intro" /\ mark_missing (PyStr.strip msg) = true
  | Return _ =>
      ~ (get_stage s = "intro" /\ mark_missing (PyStr.strip msg) = true)
  end.
Proof.
  intros Hid Hs Hin Hok _ _. cbn [stages In] in Hin.
  destruct Hin as [Hst|[Hst|[Hst|[Hst|[Hst|[]]]]]]; symmetry in Hst.
  - destruct (extract_name (PyStr.strip msg)) as [name|e] eqn:Hname.
    + pose proof (intro_turn_returns create_document c clk n sid oid msg s Hid Hs Hst name Hname)
        as Hrun. cbv zeta in Hrun. rewrite Hrun. cbn [fst].
      intros [_ Hmiss]. rewrite (extract_name_raises _ Hmiss) in Hname. discriminate.
    + rewrite (intro_turn_raises create_document c clk n sid oid msg s Hid Hs Hst e Hname).
      cbn [fst]. destruct (extract_name_only_index_error _ _ Hname) as [-> Hmiss]. auto.
  - rewrite (chat_send_quiet create_document c clk n (S (S n)) sid oid msg s
               (Some (assistant_message
                        "Awaiting KYC documents. Upload PAN and Aadhaar to continue." (clk (S n))))
               Hid Hs); [| rewrite Hst; reflexivity].
    cbn [fst]. rewrite Hst. intros [H _]. discriminate H.
  - destruct (truthy_int (parse_int (PyStr.strip msg))) as [income|] eqn:Htruthy.
    + assert (Hparse : parse_int (PyStr.strip msg) = Some income /\ income <> 0).
      { destruct (parse_int (PyStr.strip msg)) as [v|]; [| discriminate].
        cbn [truthy_int] in Htruthy. destruct (Z.eqb_spec v 0); [discriminate |].
        injection Htruthy as <-. auto. }
      pose proof (underwriting_turn create_document c clk n sid oid msg s income
                    Hid Hs Hst Hok (proj1 Hparse) (proj2 Hparse)) as Hrun.
      cbv zeta in Hrun. rewrite Hrun. cbn [fst]. rewrite Hst. intros [H _]. discriminate H.
    + rewrite (chat_send_quiet create_document c clk n (S (S n)) sid oid msg s
                 (Some (assistant_message "Please share your monthly income (e.g., 30000)."
                                          (clk (S n))))
                 Hid Hs).
      * cbn [fst]. rewrite Hst. intros [H _]. discriminate H.
      * rewrite Hst. change (stage_reply "underwriting" oid s (PyStr.strip msg))
          with (underwriting_reply oid s (PyStr.strip msg)).
        apply underwriting_reply_unparsed, Htruthy.
  - destruct (chat_send_effect create_document c clk n sid oid msg s Hid Hs)
      as (r & n' & s' & Hrun & _).
    rewrite Hrun. cbn [fst].
    assert (Hret : exists resp, r = Return resp).
    { revert Hrun. destruct (confirms (PyStr.strip msg)) eqn:Hyes.
      - rewrite (chat_send_returns create_document c clk n sid oid msg s Hid Hs
                   _ _ _ _ _
                   (eq_trans (f_equal (fun st => stage_reply st oid s (PyStr.strip msg)
                                                   (received c clk n oid msg s)) Hst)
                             (sanction_reply_confirmed oid (PyStr.strip msg) _ clk (S n) _
                                (lookup_insert_eq _ _ _) Hyes))
                   (lookup_insert_eq _ _ _)).
        intros [= <- _]. eauto.
      - rewrite (chat_send_quiet create_document c clk n (S (S n)) sid oid msg s
                   (Some (assistant_message "Say 'yes' to generate your sanction letter."
                                            (clk (S n))))
                   Hid Hs).
        + intros [= <- _]. eauto.
        + rewrite Hst. change (stage_reply "sanction" oid s (PyStr.strip msg))
            with (sanction_reply oid (PyStr.strip msg)).
          apply sanction_reply_waiting, Hyes. }
    destruct Hret as [resp ->]. rewrite Hst. intros [H _]. discriminate H.
  - rewrite (chat_send_quiet create_document c clk n (S (S n)) sid oid msg s
               (Some (assistant_message
                        "Your application is complete. How else can I help today?" (clk (S n))))
               Hid Hs); [| rewrite Hst; reflexivity].
    cbn [fst]. rewrite Hst. intros [H _]. discriminate H.
Qed.

Lemma chat_raises_only_on_lost_name_witness :
  object_id sample_id = Some sample_id
  /\ ({[ sample_id := SessionSchema ]} : gmap string Session) !! sample_id = Some SessionSchema
  /\ In (get_stage SessionSchema) stages
  /\ amount_ok SessionSchema
  /\ ascii_text "I Am Bob" = true
  /\ fits_int64 (PyStr.strip "I Am Bob")
  /\ match fst (chat_send no_create (mkChatInput (Some sample_id) "I Am Bob")
                          (sample_world SessionSchema)) with
     | Raise e =>
         e = IndexError /\ get_stage SessionSchema = "intro"
         /\ mark_missing (PyStr.strip "I Am Bob") = true
     | Return _ =>
         ~ (get_stage SessionSchema = "intro" /\ mark_missing (PyStr.strip "I Am Bob") = true)
     end.
Proof.
  split; [reflexivity |]. split; [apply sample_lookup |]. split; [left; reflexivity |].
  split; [exact I |]. split; [reflexivity |]. split; [exact I |].
  exact (chat_raises_only_on_lost_name no_create {[ sample_id := SessionSchema ]}
           sample_clock 0 sample_id sample_id "I Am Bob" SessionSchema
           eq_refl (sample_lookup _) (or_introl eq_refl) I eq_refl I).
Defined.

(** ** New sessions *)

(** [start_session], for a [create_document] that stores the document
    under a well-formed id and returns that id: the new session is the
    schema's default, in stage intro, and holds the welcome as its only
    record; the route returns the id and that record. The clock is read
    once. *)
Theorem start_session_stores_welcome
        (create_document : string -> Session -> M string)
        (c : gmap string Session) (clk : nat -> datetime) (n : nat) (sid oid : string) :
  object_id sid = Some oid ->
  create_document "session" SessionSchema (mkWorld (Some c) clk n)
  = (Return sid, mkWorld (Some (<[oid := SessionSchema]> c)) clk n) ->
  let welcome := assistant_message welcome_text (clk n) in
  start_session create_document (mkWorld (Some c) clk n)
  = (Return (mkStartResponse sid welcome),
     mkWorld (Some (<[oid := mkSession (Some "intro") Null None None None empty_offer
                                       [Some welcome]]> c))
             clk (S n)).
Proof.
  intros Hid Hcreate welcome. unfold start_session.
  open_binds. rewrite Hcreate. cbv beta iota.
  mstep. mstep. mstep. rewrite run_ret. reflexivity.
Qed.

Lemma start_session_stores_welcome_witness :
  object_id sample_id = Some sample_id
  /\ create_at sample_id "session" SessionSchema (mkWorld (Some ∅) sample_clock 0)
     = (Return sample_id, mkWorld (Some (<[sample_id := SessionSchema]> ∅)) sample_clock 0)
  /\ start_session (create_at sample_id) (mkWorld (Some ∅) sample_clock 0)
     = (Return (mkStartResponse sample_id (assistant_message welcome_text (sample_clock 0))),
        mkWorld (Some (<[sample_id := mkSession (Some "intro") Null None None None empty_offer
                                         [Some (assistant_message welcome_text (sample_clock 0))]]> ∅))
                sample_clock 1).
Proof.
  split; [reflexivity |]. split; [reflexivity |].
  exact (start_session_stores_welcome (create_at sample_id) ∅ sample_clock 0 sample_id sample_id
           eq_refl eq_refl).
Defined.

(** A chat request without a session id, or with the empty string for
    one, first creates a session and then runs exactly as the same
    message sent to the id that was created; when the creation raises,
    so does the request. *)
Theorem chat_without_id_starts_session
        (create_document : string -> Session -> M string)
        (given : option string) (msg : string) (w : World) :
  given = None \/ given = Some "" ->
  match create_document "session" SessionSchema w with
  | (Return sid, w') =>
      sid <> "" ->
      chat_send create_document (mkChatInput given msg) w
      = chat_send create_document (mkChatInput (Some sid) msg) w'
  | (Raise e, w') =>
      chat_send create_document (mkChatInput given msg) w = (Raise e, w')
  end.
Proof.
  intros Hgiven.
  assert (Hfalse : truthy_str given = None) by (destruct Hgiven as [-> | ->]; reflexivity).
  destruct (create_document "session" SessionSchema w) as [[sid|e] w'] eqn:Hcreate.
  - intros Hsid. unfold chat_send. cbn [session_id message].
    rewrite Hfalse. cbn [truthy_str]. destruct (String.eqb_spec sid ""); [contradiction |].
    rewrite (run_bind (create_document "session" SessionSchema)), Hcreate.
    cbv beta iota. rewrite (run_bind (mret sid)), run_ret. reflexivity.
  - unfold chat_send. cbn [session_id message]. rewrite Hfalse.
    rewrite (run_bind (create_document "session" SessionSchema)), Hcreate. reflexivity.
Qed.

Lemma chat_without_id_starts_session_witness :
  (@None string = None \/ @None string = Some "")
  /\ chat_send (create_at sample_id) (mkChatInput None "500000") (mkWorld (Some ∅) sample_clock 0)
     = chat_send (create_at sample_id) (mkChatInput (Some sample_id) "500000")
                 (mkWorld (Some (<[sample_id := SessionSchema]> ∅)) sample_clock 0).
Proof.
  split; [left; reflexivity |].
  exact (chat_without_id_starts_session (create_at sample_id) None "500000"
           (mkWorld (Some ∅) sample_clock 0) (or_introl eq_refl) ltac:(discriminate)).
Defined.

(** ** Amounts *)

(** In stage intro, an ASCII text that holds a number other than zero
    (and within 8 bytes) and none of the marks of a name sets [requested_amount] to that number, which
    is positive, moves the stage to verification and asks for the KYC
    files; the name, the income, the KYC and the offer are kept. *)
Theorem intro_amount_without_name
        (create_document : string -> Session -> M string)
        (c : gmap string Session) (clk : nat -> datetime) (n : nat)
        (sid oid msg : string) (s : Session) (amount : Z) :
  object_id sid = Some oid ->
  c !! oid = Some s ->
  get_stage s = "intro" ->
  ascii_text msg = true ->
  no_name_mark (PyStr.strip msg) = true ->
  parse_int (PyStr.strip msg) = Some amount ->
  amount <> 0 ->
  amount < 2 ^ 63 ->
  let reply :=
    assistant_message
      "Great. To proceed, please upload your KYC: PAN and Aadhaar. You can upload images (JPG/PNG) or PDF."
      (clk (S n)) in
  0 < amount
  /\ chat_send create_document (mkChatInput (Some sid) msg) (mkWorld (Some c) clk n)
     = (Return (mkChatResponse sid (Some reply) (Some "verification")),
        mkWorld
          (Some (<[oid := mkSession (Some "verification") (customer_name s) (monthly_income s)
                                    (Some amount) (kyc s) (offer s)
                                    (messages s ++ [Some (user_message msg (clk n)); Some reply])]> c))
          clk (S (S n))).
Proof.
  intros Hid Hs Hst _ Hmark Hparse Hnz _ reply.
  pose proof (parse_int_nonneg _ _ Hparse) as Hpos.
  split; [lia |].
  pose proof (intro_turn_returns create_document c clk n sid oid msg s Hid Hs Hst None
                (extract_name_no_mark _ Hmark)) as Hrun.
  cbv zeta in Hrun. rewrite Hparse in Hrun. unfold intro_updates in Hrun.
  cbn [truthy_int truthy_str] in Hrun.
  rewrite (proj2 (Z.eqb_neq amount 0) Hnz) in Hrun.
  cbn [is_some orb app fold_left assign add_messages stage customer_name monthly_income
       requested_amount kyc offer messages] in Hrun.
  exact Hrun.
Qed.

Lemma intro_amount_without_name_witness :
  object_id sample_id = Some sample_id
  /\ ({[ sample_id := SessionSchema ]} : gmap string Session) !! sample_id = Some SessionSchema
  /\ get_stage SessionSchema = "intro"
  /\ ascii_text "I need 5,00,000 rupees" = true
  /\ no_name_mark (PyStr.strip "I need 5,00,000 rupees") = true
  /\ parse_int (PyStr.strip "I need 5,00,000 rupees") = Some 500000
  /\ 500000 <> 0
  /\ 500000 < 2 ^ 63
  /\ 0 < 500000
  /\ session_of (snd (chat_send no_create (mkChatInput (Some sample_id) "I need 5,00,000 rupees")
                                (sample_world SessionSchema))) sample_id
     = Some (mkSession (Some "verification") Null None (Some 500000) None empty_offer
               [Some (user_message "I need 5,00,000 rupees" (sample_clock 0));
                Some (assistant_message
                        "Great. To proceed, please upload your KYC: PAN and Aadhaar. You can upload images (JPG/PNG) or PDF."
                        (sample_clock 1))]).
Proof.
  split; [reflexivity |]. split; [apply sample_lookup |]. split; [reflexivity |].
  split; [reflexivity |]. split; [reflexivity |]. split; [reflexivity |].
  split; [discriminate |]. split; [reflexivity |].
  destruct (intro_amount_without_name no_create {[ sample_id := SessionSchema ]}
              sample_clock 0 sample_id sample_id "I need 5,00,000 rupees" SessionSchema 500000
              eq_refl (sample_lookup _) eq_refl eq_refl eq_refl eq_refl ltac:(discriminate)
              eq_refl)
    as [Hpos Hrun].
  split; [exact Hpos |]. unfold sample_world. rewrite Hrun. cbn [snd session_of db].
  apply lookup_insert_eq.
Defined.

(** Every offer the underwriting branch stores, for a session whose
    amount is unset or positive, from an ASCII text and an income within
    8 bytes, is within the limits: [approved] is at
    least 1, at most [requested], at most twenty times the income and at
    most 500000; the processing fee is between 1999 and 5000, and it is
    1999 exactly when [approved] is below 200000; the offer has no letter
    yet. *)
Theorem offer_within_limits
        (create_document : string -> Session -> M string)
        (c : gmap string Session) (clk : nat -> datetime) (n : nat)
        (sid oid msg : string) (s : Session) (income : Z) :
  object_id sid = Some oid ->
  c !! oid = Some s ->
  get_stage s = "underwriting" ->
  amount_ok s ->
  ascii_text msg = true ->
  parse_int (PyStr.strip msg) = Some income ->
  income <> 0 ->
  income < 2 ^ 63 ->
  exists (s' : Session) (r a fee : Z),
    session_of (snd (chat_send create_document (mkChatInput (Some sid) msg)
                               (mkWorld (Some c) clk n))) oid = Some s'
    /\ requested (offer s') = Some r
    /\ approved (offer s') = Some a
    /\ processing_fee (offer s') = Some fee
    /\ letter (offer s') = None
    /\ 1 <= a /\ a <= r /\ a <= income * 20 /\ a <= 500000
    /\ 1999 <= fee <= 5000
    /\ (fee = 1999 <-> a < 200000).
Proof.
  intros Hid Hs Hst Hok _ Hparse Hnz _.
  pose proof (underwriting_turn create_document c clk n sid oid msg s income
                Hid Hs Hst Hok Hparse Hnz) as Hturn.
  cbv zeta in Hturn. rewrite Hturn. cbn [snd session_of db]. rewrite lookup_insert_eq.
  assert (Hpos : 0 < income).
  { pose proof (parse_int_nonneg _ _ Hparse). lia. }
  set (ceiling := Z.min (income * 20) 500000).
  set (asked := match requested_amount s with Some r => r | None => ceiling end).
  assert (Hasked : 0 < asked).
  { subst asked ceiling. unfold amount_ok in Hok. destruct (requested_amount s); lia. }
  eexists _, asked, (Z.min asked ceiling), (Z.max 1999 (Z.min asked ceiling / 100)).
  split; [reflexivity |].
  cbn [offer make_offer requested approved processing_fee letter].
  split; [reflexivity |]. split; [reflexivity |]. split; [reflexivity |].
  split; [reflexivity |].
  assert (Hq : forall a, 0 <= a -> a / 100 <= 5000 <-> a < 500100).
  { intros a Ha. split; intros H.
    - apply Z.nle_gt. intros Hge.
      pose proof (Z.div_le_mono 500100 a 100 ltac:(lia) Hge) as Hm.
      change (500100 / 100) with 5001 in Hm. lia.
    - pose proof (Z.div_le_mono a 500099 100 ltac:(lia) ltac:(lia)) as Hm.
      change (500099 / 100) with 5000 in Hm. lia. }
  assert (Hlow : forall a, 0 <= a -> a / 100 <= 1999 <-> a < 200000).
  { intros a Ha. split; intros H.
    - apply Z.nle_gt. intros Hge.
      pose proof (Z.div_le_mono 200000 a 100 ltac:(lia) Hge) as Hm.
      change (200000 / 100) with 2000 in Hm. lia.
    - pose proof (Z.div_le_mono a 199999 100 ltac:(lia) ltac:(lia)) as Hm.
      change (199999 / 100) with 1999 in Hm. lia. }
  assert (Ha : 1 <= Z.min asked ceiling <= 500000) by (subst ceiling; lia).
  pose proof (proj2 (Hq (Z.min asked ceiling) ltac:(lia)) ltac:(lia)) as Hfee.
  pose proof (Hlow (Z.min asked ceiling) ltac:(lia)) as Hfloor.
  subst ceiling.
  repeat split; try lia.
Qed.

Lemma offer_within_limits_witness :
  object_id sample_id = Some sample_id
  /\ ({[ sample_id := underwriting_session (Some 150000) ]} : gmap string Session) !! sample_id
     = Some (underwriting_session (Some 150000))
  /\ get_stage (underwriting_session (Some 150000)) = "underwriting"
  /\ amount_ok (underwriting_session (Some 150000))
  /\ ascii_text "my income is 5000" = true
  /\ parse_int (PyStr.strip "my income is 5000") = Some 5000
  /\ 5000 <> 0
  /\ 5000 < 2 ^ 63
  /\ exists (s' : Session) (r a fee : Z),
       session_of (snd (chat_send no_create (mkChatInput (Some sample_id) "my income is 5000")
                                  (sample_world (underwriting_session (Some 150000))))) sample_id
       = Some s'
       /\ requested (offer s') = Some r
       /\ approved (offer s') = Some a
       /\ processing_fee (offer s') = Some fee
       /\ 1 <= a /\ a <= r /\ a <= 5000 * 20
       /\ 1999 <= fee <= 5000.
Proof.
  split; [reflexivity |]. split; [apply sample_lookup |]. split; [reflexivity |].
  split; [reflexivity |]. split; [reflexivity |]. split; [reflexivity |].
  split; [discriminate |]. split; [reflexivity |].
  destruct (offer_within_limits no_create {[ sample_id := underwriting_session (Some 150000) ]}
              sample_clock 0 sample_id sample_id "my income is 5000"
              (underwriting_session (Some 150000)) 5000
              eq_refl (sample_lookup _) eq_refl eq_refl eq_refl eq_refl ltac:(discriminate)
              eq_refl)
    as (s' & r & a & fee & Hs' & Hr & Ha & Hfee & _ & H1 & H2 & H3 & _ & H5 & _).
  exists s', r, a, fee. repeat split; try assumption; apply H5.
Defined.

(** For a session whose amount is unset or positive the test
    [approved > 0] never decides: the offer is approved exactly when the
    income read (in an ASCII text, a number within 8 bytes) is at least
    25000, and the reply tells the approved
    amount in that case and the refusal in the other. *)
Theorem approval_is_by_income_alone
        (create_document : string -> Session -> M string)
        (c : gmap string Session) (clk : nat -> datetime) (n : nat)
        (sid oid msg : string) (s : Session) (income : Z) :
  object_id sid = Some oid ->
  c !! oid = Some s ->
  get_stage s = "underwriting" ->
  amount_ok s ->
  ascii_text msg = true ->
  parse_int (PyStr.strip msg) = Some income ->
  income <> 0 ->
  income < 2 ^ 63 ->
  exists (s' : Session) (reply : Message) (a : Z),
    chat_send create_document (mkChatInput (Some sid) msg) (mkWorld (Some c) clk n)
    = (Return (mkChatResponse sid (Some reply) (Some "sanction")),
       mkWorld (Some (<[oid := s']> c)) clk (S (S n)))
    /\ approved (offer s') = Some a
    /\ (25000 <= income ->
        status (offer s') = Some "approved"
        /\ content reply = "You're eligible. Approved amount: ₹" ++ PyStr.format_comma a
                           ++ ". Shall I generate your sanction letter?")
    /\ (income < 25000 ->
        status (offer s') = Some "rejected"
        /\ content reply
           = "Based on your income, we can’t approve the requested amount at this time.").
Proof.
  intros Hid Hs Hst Hok _ Hparse Hnz _.
  pose proof (underwriting_turn create_document c clk n sid oid msg s income
                Hid Hs Hst Hok Hparse Hnz) as Hturn.
  cbv zeta in Hturn.
  assert (Hpos : 0 < income).
  { pose proof (parse_int_nonneg _ _ Hparse). lia. }
  set (ceiling := Z.min (income * 20) 500000) in *.
  set (asked := match requested_amount s with Some r => r | None => ceiling end) in *.
  assert (Ha : (0 <? Z.min asked ceiling) = true).
  { apply Z.ltb_lt. subst asked ceiling. unfold amount_ok in Hok.
    destruct (requested_amount s); lia. }
  rewrite Ha, andb_true_r in Hturn.
  eexists _, _, (Z.min asked ceiling). split; [exact Hturn |].
  cbn [offer make_offer approved status content assistant_message].
  split; [reflexivity |].
  destruct (Z.leb_spec 25000 income); split; intros; try lia; split; reflexivity.
Qed.

Lemma approval_is_by_income_alone_witness :
  object_id sample_id = Some sample_id
  /\ ({[ sample_id := underwriting_session (Some 1) ]} : gmap string Session) !! sample_id
     = Some (underwriting_session (Some 1))
  /\ get_stage (underwriting_session (Some 1)) = "underwriting"
  /\ amount_ok (underwriting_session (Some 1))
  /\ ascii_text "25000" = true
  /\ parse_int (PyStr.strip "25000") = Some 25000
  /\ 25000 <> 0
  /\ 25000 < 2 ^ 63
  /\ exists (s' : Session) (reply : Message),
       chat_send no_create (mkChatInput (Some sample_id) "25000")
                 (sample_world (underwriting_session (Some 1)))
       = (Return (mkChatResponse sample_id (Some reply) (Some "sanction")),
          mkWorld (Some (<[sample_id := s']> {[ sample_id := underwriting_session (Some 1) ]}))
                  sample_clock 2)
       /\ status (offer s') = Some "approved".
Proof.
  split; [reflexivity |]. split; [apply sample_lookup |]. split; [reflexivity |].
  split; [reflexivity |]. split; [reflexivity |]. split; [reflexivity |].
  split; [discriminate |]. split; [reflexivity |].
  destruct (approval_is_by_income_alone no_create {[ sample_id := underwriting_session (Some 1) ]}
              sample_clock 0 sample_id sample_id "25000" (underwriting_session (Some 1)) 25000
              eq_refl (sample_lookup _) eq_refl eq_refl eq_refl eq_refl ltac:(discriminate)
              eq_refl)
    as (s' & reply & a & Hrun & _ & Hyes & _).
  exists s', reply. split; [exact Hrun |]. apply Hyes. discriminate.
Defined.

(** ** Reading numbers *)

Lemma runs_none (keep : ascii -> bool) (s : string) :
  all_chars (fun c => negb (keep c)) s = true -> PyStr.runs keep [] s = [].
Proof.
  induction s as [|ch s IH]; [reflexivity |].
  cbn [all_chars PyStr.runs]. intros H. apply andb_true_iff in H as [Hch Hs].
  apply negb_true_iff in Hch. rewrite Hch. cbn [PyStr.flush app]. exact (IH Hs).
Qed.

Lemma flush_nil (cur : list ascii) : PyStr.flush cur = [] -> cur = [].
Proof. destruct cur; [reflexivity | discriminate]. Qed.

Lemma runs_nil (keep : ascii -> bool) (s : string) :
  forall cur, PyStr.runs keep cur s = [] ->
              cur = [] /\ all_chars (fun c => negb (keep c)) s = true.
Proof.
  induction s as [|ch s IH]; intros cur; cbn [PyStr.runs all_chars].
  - intros H. split; [exact (flush_nil _ H) | reflexivity].
  - destruct (keep ch) eqn:Hch.
    + intros H. destruct (IH _ H) as [Hcur _]. discriminate Hcur.
    + intros H. apply app_eq_nil in H as [Hcur Hrest].
      destruct (IH _ Hrest) as [_ Hs]. rewrite Hs. split; [exact (flush_nil _ Hcur) | reflexivity].
Qed.

Lemma string_of_list_length (l : list ascii) :
  String.length (string_of_list_ascii l) = length l.
Proof. induction l as [|a l IH]; [reflexivity |]. cbn. rewrite IH. reflexivity. Qed.

(** The first run is no longer than the text read and the run in hand. *)
Lemma first_run_length (keep : ascii -> bool) (s : string) :
  forall cur d rest, PyStr.runs keep cur s = d :: rest ->
                     (String.length d <= length cur + String.length s)%nat.
Proof.
  assert (Hflush : forall cur d rest, PyStr.flush cur = d :: rest ->
                                      String.length d = length cur).
  { intros [|a cur] d rest; [discriminate |]. cbn [PyStr.flush]. intros [= <- _].
    change (rev cur ++ [a])%list with (rev (a :: cur)).
    rewrite string_of_list_length, length_rev. reflexivity. }
  induction s as [|ch s IH]; intros cur d rest; cbn [PyStr.runs String.length].
  - intros H. rewrite (Hflush _ _ _ H). lia.
  - destruct (keep ch).
    + intros H. apply IH in H. cbn [length] in H. lia.
    + destruct (PyStr.flush cur) as [|d0 r0] eqn:Hcur; cbn [app].
      * intros H. rewrite (flush_nil _ Hcur). apply IH in H. cbn [length] in *. lia.
      * intros [= <- _]. rewrite (Hflush _ _ _ Hcur). lia.
Qed.

Lemma remove_char_length (x : ascii) (s : string) :
  (String.length (PyStr.remove_char x s) <= String.length s)%nat.
Proof.
  induction s as [|ch s IH]; [reflexivity |].
  cbn [PyStr.remove_char String.length]. destruct (Ascii.eqb ch x); cbn [String.length]; lia.
Qed.

Lemma no_digit_remove_comma (s : string) :
  no_digit (PyStr.remove_char ","%char s) = no_digit s.
Proof.
  unfold no_digit. induction s as [|ch s IH]; [reflexivity |].
  cbn [PyStr.remove_char all_chars]. destruct (Ascii.eqb_spec ch ","%char) as [-> | Hne].
  - rewrite IH. reflexivity.
  - cbn [all_chars]. rewrite IH. reflexivity.
Qed.

(** [parse_int] finds no number exactly in the texts that hold no digit
    (for an ASCII text of at most 4300 characters, the longest numeral
    [int] accepts), and the number it finds is never negative: a sign in
    front of the digits is not read. *)
Theorem parse_int_none_iff_no_digit (text : string) :
  ascii_text text = true ->
  (String.length text <= PyStr.int_max_str_digits)%nat ->
  (parse_int text = None <-> no_digit text = true)
  /\ (forall z, parse_int text = Some z -> 0 <= z).
Proof.
  intros _ Hlen. split; [| intros z; apply parse_int_nonneg].
  rewrite <- no_digit_remove_comma. unfold parse_int, PyStr.findall_digits, no_digit.
  pose proof (remove_char_length ","%char text) as Hrm.
  destruct (PyStr.runs PyStr.is_digit [] (PyStr.remove_char ","%char text)) as [|d rest] eqn:Hruns.
  - split; [intros _ | reflexivity]. exact (proj2 (runs_nil _ _ _ Hruns)).
  - split.
    + unfold PyStr.int_of_digits. pose proof (first_run_length _ _ _ _ _ Hruns) as Hd.
      cbn [length] in Hd.
      destruct (Nat.ltb_spec PyStr.int_max_str_digits (String.length d)); [lia | discriminate].
    + intros Hnone. rewrite (runs_none _ _ Hnone) in Hruns. discriminate.
Qed.

Lemma parse_int_none_iff_no_digit_witness :
  ascii_text "minus -45, or so" = true
  /\ (String.length "minus -45, or so" <= PyStr.int_max_str_digits)%nat
  /\ (parse_int "minus -45, or so" = None <-> no_digit "minus -45, or so" = true)
  /\ parse_int "minus -45, or so" = Some 45.
Proof.
  assert (Hlen : (String.length "minus -45, or so" <= PyStr.int_max_str_digits)%nat).
  { apply Nat.leb_le. reflexivity. }
  split; [reflexivity |]. split; [exact Hlen |]. split; [| reflexivity].
  exact (proj1 (parse_int_none_iff_no_digit "minus -45, or so" eq_refl Hlen)).
Defined.

(** *** Numerals *)

Lemma digits_value_uint_acc (d : Decimal.uint) :
  forall acc : positive,
    PyStr.digits_value (Z.pos acc) (NilEmpty.string_of_uint d) = Z.pos (Pos.of_uint_acc d acc).
Proof.
  induction d as [|d IH|d IH|d IH|d IH|d IH|d IH|d IH|d IH|d IH|d IH]; intros acc;
    cbn [NilEmpty.string_of_uint PyStr.digits_value Pos.of_uint_acc];
    [reflexivity | rewrite <- IH; f_equal; vm_compute PyStr.digit_value; lia ..].
Qed.

Lemma digits_value_uint (d : Decimal.uint) :
  PyStr.digits_value 0 (NilEmpty.string_of_uint d) = Z.of_N (Pos.of_uint d).
Proof.
  induction d as [|d IH|d IH|d IH|d IH|d IH|d IH|d IH|d IH|d IH|d IH];
    cbn [NilEmpty.string_of_uint PyStr.digits_value Pos.of_uint];
    [reflexivity | exact IH | apply digits_value_uint_acc ..].
Qed.

Lemma uint_digits (d : Decimal.uint) :
  all_chars PyStr.is_digit (NilEmpty.string_of_uint d) = true.
Proof.
  induction d as [|d IH|d IH|d IH|d IH|d IH|d IH|d IH|d IH|d IH|d IH];
    cbn [NilEmpty.string_of_uint all_chars]; [reflexivity | exact IH ..].
Qed.

Lemma uint_string_nonempty (d : Decimal.uint) :
  d <> Decimal.Nil -> NilEmpty.string_of_uint d <> "".
Proof. destruct d; [contradiction | discriminate ..]. Qed.

(** [str(n)] for [n >= 0]: a non-empty string of digits whose value is [n]. *)
Lemma str_of_int_numeral (n : Z) :
  0 <= n ->
  all_chars PyStr.is_digit (PyStr.str_of_int n) = true
  /\ PyStr.str_of_int n <> ""
  /\ PyStr.digits_value 0 (PyStr.str_of_int n) = n.
Proof.
  intros Hn. unfold PyStr.str_of_int. destruct n as [|p|p]; [| | lia].
  - repeat split. discriminate.
  - cbn [Z.to_int NilZero.string_of_int]. unfold NilZero.string_of_uint.
    pose proof (Unsigned.to_uint_nonnil p) as Hnil.
    destruct (Pos.to_uint p) eqn:Hp; [contradiction | ..];
      rewrite <- Hp; (split; [apply uint_digits |]);
      (split; [apply uint_string_nonempty; rewrite Hp; discriminate |]);
      rewrite digits_value_uint, (DecimalPos.Unsigned.of_to p); reflexivity.
Qed.

Lemma remove_char_app (x : ascii) (a b : string) :
  PyStr.remove_char x (a ++ b) = PyStr.remove_char x a ++ PyStr.remove_char x b.
Proof.
  induction a as [|ch a IH]; [reflexivity |].
  rewrite append_cons. cbn [PyStr.remove_char]. destruct (Ascii.eqb ch x); [exact IH |].
  rewrite append_cons, IH. reflexivity.
Qed.

Lemma remove_char_filter (x : ascii) (l : list ascii) :
  PyStr.remove_char x (string_of_list_ascii l)
  = string_of_list_ascii (List.filter (fun c => negb (Ascii.eqb c x)) l).
Proof.
  induction l as [|a l IH]; [reflexivity |].
  cbn [string_of_list_ascii PyStr.remove_char List.filter].
  destruct (Ascii.eqb a x); cbn [negb string_of_list_ascii]; rewrite IH; reflexivity.
Qed.

Lemma filter_group3 (l : list ascii) :
  forall k, Forall (fun c => Ascii.eqb c ","%char = false) l ->
            List.filter (fun c => negb (Ascii.eqb c ","%char)) (PyStr.group3 k l) = l.
Proof.
  induction l as [|a l IH]; intros k Hl; [reflexivity |].
  inversion Hl as [|? ? Ha Hl']; subst.
  cbn [PyStr.group3]. destruct l as [|b l].
  - destruct k; cbn [List.filter]; rewrite Ha; reflexivity.
  - destruct k as [|k].
    + cbn [List.filter]. rewrite Ha. cbn [negb].
      change (Ascii.eqb ","%char ","%char) with true. cbn [negb].
      rewrite (IH 2%nat Hl'). reflexivity.
    + cbn [List.filter]. rewrite Ha. cbn [negb]. rewrite (IH k Hl'). reflexivity.
Qed.

Lemma digits_no_comma (s : string) :
  all_chars PyStr.is_digit s = true ->
  Forall (fun c => Ascii.eqb c ","%char = false) (list_ascii_of_string s).
Proof.
  induction s as [|ch s IH]; [constructor |].
  cbn [all_chars list_ascii_of_string]. intros H. apply andb_true_iff in H as [Hch Hs].
  constructor; [| exact (IH Hs)].
  destruct (Ascii.eqb_spec ch ","%char) as [-> |]; [discriminate Hch | reflexivity].
Qed.

(** The separators [format(n, ",")] puts in are the commas [parse_int]
    takes out. *)
Lemma remove_commas (d : string) :
  all_chars PyStr.is_digit d = true -> PyStr.remove_char ","%char (PyStr.commas d) = d.
Proof.
  intros Hd. unfold PyStr.commas.
  rewrite remove_char_filter, List.filter_rev, filter_group3.
  - rewrite rev_involutive. apply string_of_list_ascii_of_string.
  - apply Forall_rev, digits_no_comma, Hd.
Qed.

Lemma runs_skip (p s : string) :
  no_digit p = true ->
  PyStr.runs PyStr.is_digit [] (p ++ s) = PyStr.runs PyStr.is_digit [] s.
Proof.
  unfold no_digit. induction p as [|ch p IH]; [reflexivity |].
  cbn [all_chars]. intros H. apply andb_true_iff in H as [Hch Hp].
  apply negb_true_iff in Hch. rewrite append_cons. cbn [PyStr.runs]. rewrite Hch.
  cbn [PyStr.flush app]. exact (IH Hp).
Qed.

Lemma runs_take (d q : string) :
  all_chars PyStr.is_digit d = true ->
  forall cur,
    PyStr.runs PyStr.is_digit cur (d ++ q)
    = PyStr.runs PyStr.is_digit (rev (list_ascii_of_string d) ++ cur) q.
Proof.
  induction d as [|ch d IH]; [reflexivity |].
  cbn [all_chars]. intros H cur. apply andb_true_iff in H as [Hch Hd].
  rewrite append_cons. cbn [PyStr.runs list_ascii_of_string rev]. rewrite Hch.
  rewrite (IH Hd), <- app_assoc. reflexivity.
Qed.

Lemma remove_char_clear (q : string) :
  ends_numeral q = true -> ends_numeral (PyStr.remove_char ","%char q) = true.
Proof.
  destruct q as [|ch q]; [reflexivity |]. cbn [ends_numeral PyStr.remove_char].
  intros H. pose proof H as H'. apply andb_true_iff in H' as [_ Hc].
  apply negb_true_iff in Hc. rewrite Hc. exact H.
Qed.

Lemma first_run_is_numeral (d q : string) :
  all_chars PyStr.is_digit d = true ->
  d <> "" ->
  ends_numeral q = true ->
  exists rest, PyStr.runs PyStr.is_digit [] (d ++ q) = d :: rest.
Proof.
  intros Hd Hne Hq. rewrite (runs_take d q Hd), app_nil_r.
  assert (Hflush : PyStr.flush (rev (list_ascii_of_string d)) = [d]).
  { destruct (rev (list_ascii_of_string d)) as [|a l] eqn:Hrev.
    - exfalso. apply Hne. rewrite <- (string_of_list_ascii_of_string d).
      rewrite <- (rev_involutive (list_ascii_of_string d)), Hrev. reflexivity.
    - cbn [PyStr.flush]. rewrite <- Hrev, rev_involutive, string_of_list_ascii_of_string.
      reflexivity. }
  destruct q as [|ch q]; cbn [PyStr.runs].
  - exists []. exact Hflush.
  - cbn [ends_numeral] in Hq. apply andb_true_iff in Hq as [Hch _].
    apply andb_true_iff in Hch as [_ Hch]. apply negb_true_iff in Hch. rewrite Hch, Hflush. eexists. reflexivity.
Qed.

Lemma no_digit_app (a b : string) : no_digit (a ++ b) = no_digit a && no_digit b.
Proof.
  unfold no_digit. induction a as [|ch a IH]; [reflexivity |].
  rewrite append_cons. cbn [all_chars]. rewrite IH, andb_assoc. reflexivity.
Qed.

(** What the handlers print with [:,] is what [parse_int] reads: for
    [n >= 0], an ASCII text without a digit, then the rupee sign or
    nothing, then the formatted number, then a text that goes on with
    something other than a digit or a comma, is read as [n]. So the
    amount of the approval reply, read back by [parse_int], is the
    approved amount. *)
Theorem parse_int_reads_formatted (lead sign after : string) (n : Z) :
  0 <= n ->
  (String.length (PyStr.str_of_int n) <= PyStr.int_max_str_digits)%nat ->
  ascii_text lead = true ->
  no_digit lead = true ->
  sign = "" \/ sign = "₹" ->
  ends_numeral after = true ->
  parse_int ((lead ++ sign) ++ PyStr.format_comma n ++ after) = Some n
  /\ parse_int ((lead ++ sign) ++ PyStr.str_of_int n ++ after) = Some n.
Proof.
  intros Hn Hlen _ Hlead Hsign Hafter.
  set (before := lead ++ sign).
  assert (Hbefore : no_digit before = true).
  { subst before. rewrite no_digit_app, Hlead. destruct Hsign as [-> | ->]; reflexivity. }
  destruct (str_of_int_numeral n Hn) as (Hdigits & Hne & Hvalue).
  assert (Hsame : PyStr.remove_char ","%char (PyStr.str_of_int n) = PyStr.str_of_int n).
  { generalize (digits_no_comma _ Hdigits). generalize (PyStr.str_of_int n).
    induction s as [|ch s IH]; [reflexivity |]. cbn [list_ascii_of_string PyStr.remove_char].
    intros H. inversion H as [|? ? Hch Hs]; subst. rewrite Hch, (IH Hs). reflexivity. }
  assert (Hread : parse_int (before ++ PyStr.str_of_int n ++ after) = Some n).
  { unfold parse_int, PyStr.findall_digits.
    rewrite !remove_char_app, runs_skip by (rewrite no_digit_remove_comma; exact Hbefore).
    rewrite Hsame.
    destruct (first_run_is_numeral _ _ Hdigits Hne (remove_char_clear _ Hafter)) as [rest ->].
    unfold PyStr.int_of_digits.
    destruct (Nat.ltb_spec PyStr.int_max_str_digits (String.length (PyStr.str_of_int n)));
      [lia |].
    rewrite Hvalue. reflexivity. }
  split; [| exact Hread].
  assert (Hformat : PyStr.format_comma n = PyStr.commas (PyStr.str_of_int n)).
  { unfold PyStr.format_comma. destruct (Z.ltb_spec n 0); [lia | reflexivity]. }
  assert (Heq : PyStr.remove_char ","%char (before ++ PyStr.format_comma n ++ after)
                = PyStr.remove_char ","%char (before ++ PyStr.str_of_int n ++ after)).
  { rewrite Hformat, !remove_char_app, (remove_commas _ Hdigits), Hsame. reflexivity. }
  unfold parse_int. rewrite Heq. exact Hread.
Qed.

Lemma parse_int_reads_formatted_witness :
  0 <= 500000
  /\ (String.length (PyStr.str_of_int 500000) <= PyStr.int_max_str_digits)%nat
  /\ ascii_text "You're eligible. Approved amount: " = true
  /\ no_digit "You're eligible. Approved amount: " = true
  /\ ("₹" = "" \/ "₹" = "₹")
  /\ ends_numeral ". Shall I generate your sanction letter?" = true
  /\ parse_int ("You're eligible. Approved amount: ₹" ++ PyStr.format_comma 500000
                ++ ". Shall I generate your sanction letter?") = Some 500000.
Proof.
  assert (Hlen : (String.length (PyStr.str_of_int 500000) <= PyStr.int_max_str_digits)%nat).
  { apply Nat.leb_le. reflexivity. }
  split; [discriminate |]. split; [exact Hlen |]. split; [reflexivity |].
  split; [reflexivity |]. split; [right; reflexivity |]. split; [reflexivity |].
  exact (proj1 (parse_int_reads_formatted "You're eligible. Approved amount: " "₹"
                  ". Shall I generate your sanction letter?" 500000
                  ltac:(discriminate) Hlen eq_refl eq_refl (or_intror eq_refl) eq_refl)).
Defined.

(** ** Words that confirm *)

Lemma lower_app (a b : string) : PyStr.lower (a ++ b) = PyStr.lower a ++ PyStr.lower b.
Proof.
  induction a as [|ch a IH]; [reflexivity |].
  rewrite append_cons. cbn [PyStr.lower]. rewrite append_cons, IH. reflexivity.
Qed.

(** The confirmation is looked for anywhere in the text and in any
    letter case, not as a word of its own: a text that holds, between
    anything, letters that read "yes", "ok", "proceed", "generate" or
    "sure" in lower case confirms, so "I'm not sure" and "Tokyo" do. *)
Theorem confirmation_is_by_substring (before word after : string) :
  In (PyStr.lower word) confirmations ->
  confirms (before ++ word ++ after) = true.
Proof.
  intros Hin. unfold confirms. apply existsb_exists.
  exists (PyStr.lower word). split; [exact Hin |].
  rewrite !lower_app. apply contains_skip, contains_here, starts_with_self_app.
Qed.

Lemma confirmation_is_by_substring_witness :
  In (PyStr.lower "Sure") confirmations
  /\ confirms ("No, I'm not " ++ "Sure" ++ " about this") = true.
Proof.
  assert (Hin : In (PyStr.lower "Sure") confirmations).
  { right. right. right. right. left. reflexivity. }
  split; [exact Hin |].
  exact (confirmation_is_by_substring "No, I'm not " "Sure" " about this" Hin).
Defined.

(** ** What the letter reads *)

(** The letter reads four keys of a non-empty offer, [approved], [rate],
    [tenure_months] and [processing_fee]: two offers that agree on them
    give the same letter and the same reading of the clock, whatever
    their [status], [requested] and earlier [letter]. A rejected offer is
    printed like an approved one. *)
Theorem letter_ignores_status (name : option string) (o o' : Offer) (w : World) :
  offer_is_empty o = false ->
  offer_is_empty o' = false ->
  approved o = approved o' ->
  rate o = rate o' ->
  tenure_months o = tenure_months o' ->
  processing_fee o = processing_fee o' ->
  generate_offer_letter name o w = generate_offer_letter name o' w.
Proof.
  intros Ho Ho' Ha Hr Ht Hf. unfold generate_offer_letter. rewrite Ho, Ho'.
  rewrite !run_bind. destruct (utcnow w) as [[today|e] w']; [| reflexivity].
  rewrite !run_ret. unfold letter_text. rewrite Ha, Hr, Ht, Hf. reflexivity.
Qed.

Lemma letter_ignores_status_witness :
  offer_is_empty (make_offer 100000 100000 1000 "approved") = false
  /\ offer_is_empty (with_letter "old" (make_offer 900000 100000 1000 "rejected")) = false
  /\ generate_offer_letter (Some "Ravi Kumar") (make_offer 100000 100000 1000 "approved")
                           (sample_world SessionSchema)
     = generate_offer_letter (Some "Ravi Kumar")
                             (with_letter "old" (make_offer 900000 100000 1000 "rejected"))
                             (sample_world SessionSchema).
Proof.
  split; [reflexivity |]. split; [reflexivity |].
  exact (letter_ignores_status (Some "Ravi Kumar") (make_offer 100000 100000 1000 "approved")
           (with_letter "old" (make_offer 900000 100000 1000 "rejected"))
           (sample_world SessionSchema) eq_refl eq_refl eq_refl eq_refl eq_refl eq_refl).
Defined.

(** ** Stage intro: the name that is read *)

Lemma append_assoc (a b d : string) : (a ++ b) ++ d = a ++ b ++ d.
Proof.
  induction a as [|ch a IH]; [reflexivity |]. rewrite !append_cons, IH. reflexivity.
Qed.

Lemma append_length (a b : string) :
  String.length (a ++ b) = (String.length a + String.length b)%nat.
Proof.
  induction a as [|ch a IH]; [reflexivity |]. rewrite append_cons. cbn [String.length].
  rewrite IH. reflexivity.
Qed.

Lemma but_last_split (s : string) :
  s <> "" -> exists l, s = but_last s ++ String l "".
Proof.
  induction s as [|ch s IH]; [contradiction |]. intros _.
  destruct s as [|ch' s]; [exists ch; reflexivity |].
  destruct IH as [l Hl]; [discriminate |]. exists l.
  change (but_last (String ch (String ch' s))) with (String ch (but_last (String ch' s))).
  rewrite append_cons, <- Hl. reflexivity.
Qed.

(** A prefix no longer than [a] is read within [a]. *)
Lemma starts_with_within (p : string) :
  forall a y, (String.length p <= String.length a)%nat ->
              PyStr.starts_with p (a ++ y) = PyStr.starts_with p a.
Proof.
  induction p as [|ch p IH]; intros a y Hlen; [reflexivity |].
  destruct a as [|ch' a]; [cbn [String.length] in Hlen; lia |].
  rewrite append_cons. cbn [PyStr.starts_with]. destruct (Ascii.eqb ch ch'); [| reflexivity].
  apply IH. cbn [String.length] in Hlen. lia.
Qed.

Lemma drop_app (a r : string) : PyStr.drop (String.length a) (a ++ r) = r.
Proof. induction a as [|ch a IH]; [destruct r; reflexivity | exact IH]. Qed.

(** [split(sep, 1)] cuts at the first [sep]. *)
Lemma partition_at (sep rest : string) :
  sep <> "" ->
  forall before,
    PyStr.contains sep (before ++ but_last sep) = false ->
    PyStr.partition sep (before ++ sep ++ rest) = Some (before, rest).
Proof.
  intros Hsep. destruct (but_last_split sep Hsep) as [l Hl].
  induction before as [|ch before IH]; intros Hfirst.
  - change ("" ++ sep ++ rest) with (sep ++ rest).
    destruct (sep ++ rest) eqn:Htext; cbn [PyStr.partition]; rewrite <- Htext;
      rewrite starts_with_self_app, drop_app; reflexivity.
  - rewrite append_cons in Hfirst |- *. cbn [PyStr.contains] in Hfirst.
    destruct (PyStr.starts_with sep (String ch (before ++ but_last sep))) eqn:Hhere;
      [discriminate |].
    cbn [PyStr.partition].
    assert (Hthere : PyStr.starts_with sep (String ch (before ++ sep ++ rest)) = false).
    { rewrite <- Hhere. rewrite Hl at 2. rewrite append_assoc, <- append_assoc.
      rewrite <- (append_cons ch (before ++ but_last sep)).
      apply starts_with_within.
      rewrite Hl at 1. cbn [String.length]. rewrite !append_length. cbn [String.length]. lia. }
    rewrite Hthere, (IH Hfirst). reflexivity.
Qed.

Lemma contains_lower_mark (sep before rest : string) :
  PyStr.lower sep = sep ->
  PyStr.contains sep (PyStr.lower (before ++ sep ++ rest)) = true.
Proof.
  intros Hsep. rewrite !lower_app, Hsep.
  apply contains_skip, contains_here, starts_with_self_app.
Qed.

Lemma name_cut_reads (text sep : string) :
  name_cut text = Some sep ->
  sep <> "" /\ extract_name text = after_mark sep text.
Proof.
  unfold name_cut, extract_name.
  destruct (PyStr.contains "name is" _); [intros [= <-]; split; [discriminate | reflexivity] |].
  destruct (PyStr.contains "i am" _); [intros [= <-]; split; [discriminate | reflexivity] |].
  destruct (PyStr.contains "i'm" _); [intros [= <-]; split; [discriminate | reflexivity] |].
  discriminate.
Qed.

(** When the separator the intro branch chose is in the text, an ASCII
    text, as it is written, the name is read after its first occurrence: the text that
    follows is stripped, cut to its first three words, joined by single
    spaces and put in title case, and stored as [customer_name]; the
    stage becomes verification, and the amount is stored too when the
    text holds a number other than zero (a number within 8 bytes). *)
Theorem name_follows_first_separator
        (create_document : string -> Session -> M string)
        (c : gmap string Session) (clk : nat -> datetime) (n : nat)
        (sid oid msg : string) (s : Session) (sep before rest : string) :
  object_id sid = Some oid ->
  c !! oid = Some s ->
  get_stage s = "intro" ->
  ascii_text msg = true ->
  name_cut (PyStr.strip msg) = Some sep ->
  PyStr.strip msg = before ++ sep ++ rest ->
  occurs_first sep before = true ->
  PyStr.strip rest <> "" ->
  fits_int64 (PyStr.strip msg) ->
  exists (reply : Message) (s' : Session),
    chat_send create_document (mkChatInput (Some sid) msg) (mkWorld (Some c) clk n)
    = (Return (mkChatResponse sid (Some reply) (Some "verification")),
       mkWorld (Some (<[oid := s']> c)) clk (S (S n)))
    /\ customer_name s'
       = Value (PyStr.title (PyStr.join " " (take 3 (PyStr.split (PyStr.strip rest)))))
    /\ stage s' = Some "verification"
    /\ requested_amount s'
       = match truthy_int (parse_int (PyStr.strip msg)) with
         | Some amount => Some amount
         | None => requested_amount s
         end.
Proof.
  intros Hid Hs Hst _ Hcut Htext Hfirst Hname _.
  destruct (name_cut_reads _ _ Hcut) as [Hsep Hread].
  assert (Hextract : extract_name (PyStr.strip msg) = Return (Some (PyStr.strip rest))).
  { rewrite Hread. unfold after_mark, PyStr.split1. rewrite Htext.
    rewrite (partition_at sep rest Hsep before); [reflexivity |].
    apply negb_true_iff. exact Hfirst. }
  pose proof (intro_turn_returns create_document c clk n sid oid msg s Hid Hs Hst _ Hextract)
    as Hrun.
  cbv zeta in Hrun. unfold intro_updates in Hrun. cbn [truthy_str] in Hrun.
  destruct (String.eqb_spec (PyStr.strip rest) ""); [contradiction |].
  cbn [is_some] in Hrun. rewrite orb_true_r in Hrun.
  destruct (truthy_int (parse_int (PyStr.strip msg))) as [amount|];
    (eexists _, _; split; [exact Hrun | repeat split]).
Qed.

Lemma name_follows_first_separator_witness :
  object_id sample_id = Some sample_id
  /\ ({[ sample_id := SessionSchema ]} : gmap string Session) !! sample_id = Some SessionSchema
  /\ get_stage SessionSchema = "intro"
  /\ ascii_text "Hi, i'm ravi  kumar VARMA junior, 2,50,000 please" = true
  /\ name_cut (PyStr.strip "Hi, i'm ravi  kumar VARMA junior, 2,50,000 please") = Some "i'm"
  /\ PyStr.strip "Hi, i'm ravi  kumar VARMA junior, 2,50,000 please"
     = "Hi, " ++ "i'm" ++ " ravi  kumar VARMA junior, 2,50,000 please"
  /\ occurs_first "i'm" "Hi, " = true
  /\ PyStr.strip " ravi  kumar VARMA junior, 2,50,000 please" <> ""
  /\ fits_int64 (PyStr.strip "Hi, i'm ravi  kumar VARMA junior, 2,50,000 please")
  /\ exists (reply : Message) (s' : Session),
       chat_send no_create
                 (mkChatInput (Some sample_id) "Hi, i'm ravi  kumar VARMA junior, 2,50,000 please")
                 (sample_world SessionSchema)
       = (Return (mkChatResponse sample_id (Some reply) (Some "verification")),
          mkWorld (Some (<[sample_id := s']> {[ sample_id := SessionSchema ]})) sample_clock 2)
       /\ customer_name s' = Value "Ravi Kumar Varma"
       /\ requested_amount s' = Some 250000.
Proof.
  split; [reflexivity |]. split; [apply sample_lookup |]. split; [reflexivity |].
  split; [reflexivity |]. split; [reflexivity |]. split; [reflexivity |].
  split; [reflexivity |]. split; [discriminate |].
  assert (Hfits : fits_int64 (PyStr.strip "Hi, i'm ravi  kumar VARMA junior, 2,50,000 please")).
  { vm_compute. reflexivity. }
  split; [exact Hfits |].
  destruct (name_follows_first_separator no_create {[ sample_id := SessionSchema ]}
              sample_clock 0 sample_id sample_id
              "Hi, i'm ravi  kumar VARMA junior, 2,50,000 please" SessionSchema
              "i'm" "Hi, " " ravi  kumar VARMA junior, 2,50,000 please"
              eq_refl (sample_lookup _) eq_refl eq_refl eq_refl eq_refl eq_refl
              ltac:(discriminate) Hfits)
    as (reply & s' & Hrun & Hname & _ & Hamount).
  exists reply, s'. split; [exact Hrun |]. split; [exact Hname | exact Hamount].
Defined.

(** ** The letter, field by field *)

Lemma to_uint_no_zero_in_front (p : positive) (u : Decimal.uint) :
  Pos.to_uint p <> Decimal.D0 u.
Proof.
  intros Hp.
  pose proof (DecimalPos.Unsigned.to_of (Pos.to_uint p)) as Hnorm.
  rewrite DecimalPos.Unsigned.of_to in Hnorm. cbn [N.to_uint] in Hnorm.
  destruct (Decimal.nzhead (Pos.to_uint p)) eqn:Hhead.
  - apply (Unsigned.to_uint_nonzero p). rewrite Hnorm. apply unorm_0. exact Hhead.
  - apply (nzhead_nonzero (Pos.to_uint p) u).
    rewrite <- (unorm_nzhead (Pos.to_uint p)) by (rewrite Hhead; discriminate).
    rewrite <- Hnorm. exact Hp.
  - rewrite Hnorm in Hp at 1. unfold Decimal.unorm in Hp. rewrite Hhead in Hp. discriminate.
  - rewrite Hnorm in Hp at 1. unfold Decimal.unorm in Hp. rewrite Hhead in Hp. discriminate.
  - rewrite Hnorm in Hp at 1. unfold Decimal.unorm in Hp. rewrite Hhead in Hp. discriminate.
  - rewrite Hnorm in Hp at 1. unfold Decimal.unorm in Hp. rewrite Hhead in Hp. discriminate.
  - rewrite Hnorm in Hp at 1. unfold Decimal.unorm in Hp. rewrite Hhead in Hp. discriminate.
  - rewrite Hnorm in Hp at 1. unfold Decimal.unorm in Hp. rewrite Hhead in Hp. discriminate.
  - rewrite Hnorm in Hp at 1. unfold Decimal.unorm in Hp. rewrite Hhead in Hp. discriminate.
  - rewrite Hnorm in Hp at 1. unfold Decimal.unorm in Hp. rewrite Hhead in Hp. discriminate.
  - rewrite Hnorm in Hp at 1. unfold Decimal.unorm in Hp. rewrite Hhead in Hp. discriminate.
Qed.

(** [str(n)] is the numeral of [n]. *)
Lemma str_of_int_is_numeral (n : Z) : 0 <= n -> numeral n (PyStr.str_of_int n).
Proof.
  intros Hn. destruct (str_of_int_numeral n Hn) as (Hdigits & Hne & Hvalue).
  split; [exact Hdigits |]. split; [exact Hne |]. split; [exact Hvalue |].
  unfold PyStr.str_of_int. destruct n as [|p|p]; [reflexivity | | lia].
  cbn [Z.to_int NilZero.string_of_int]. unfold NilZero.string_of_uint.
  pose proof (to_uint_no_zero_in_front p) as Hfront.
  destruct (Pos.to_uint p) as [|u|u|u|u|u|u|u|u|u|u];
    cbn [NilEmpty.string_of_uint PyStr.starts_with]; try discriminate.
  - reflexivity.
  - exfalso. exact (Hfront u eq_refl).
Qed.

Lemma group3_nonempty (k : nat) (c : ascii) (l : list ascii) :
  exists y r, PyStr.group3 k (c :: l) = y :: r.
Proof. destruct k, l; cbn [PyStr.group3]; eauto. Qed.

Lemma grouped_group3 (l : list ascii) :
  forall k, l <> [] -> Forall (fun c => PyStr.is_digit c = true) l ->
            grouped k (PyStr.group3 k l) = true.
Proof.
  induction l as [|c l IH]; intros k Hne Hl; [contradiction |].
  inversion Hl as [|? ? Hc Hl']; subst.
  destruct l as [|b l].
  - destruct k; cbn [PyStr.group3 grouped]; rewrite Hc; reflexivity.
  - assert (Hrest : forall j, grouped j (PyStr.group3 j (b :: l)) = true).
    { intros j. apply IH; [discriminate | exact Hl']. }
    destruct k as [|k].
    + change (PyStr.group3 0 (c :: b :: l))
        with (c :: ","%char :: PyStr.group3 2 (b :: l)).
      cbn [grouped]. rewrite Hc, (Hrest 2%nat). reflexivity.
    + change (PyStr.group3 (S k) (c :: b :: l)) with (c :: PyStr.group3 k (b :: l)).
      destruct (group3_nonempty k b l) as (y & r & Hshape).
      pose proof (Hrest k) as Hk. rewrite Hshape in Hk |- *.
      cbn [grouped] in Hk |- *. rewrite Hc. exact Hk.
Qed.

Lemma digits_list (s : string) :
  all_chars PyStr.is_digit s = true ->
  Forall (fun c => PyStr.is_digit c = true) (list_ascii_of_string s).
Proof.
  induction s as [|ch s IH]; [constructor |].
  cbn [all_chars list_ascii_of_string]. intros H. apply andb_true_iff in H as [Hch Hs].
  constructor; [exact Hch | exact (IH Hs)].
Qed.

(** [format(n, ",")] is [n] with thousands separators. *)
Lemma format_comma_thousands (n : Z) : 0 <= n -> thousands n (PyStr.format_comma n).
Proof.
  intros Hn. pose proof (str_of_int_is_numeral n Hn) as Hnum.
  destruct Hnum as (Hdigits & Hne & Hrest).
  assert (Hformat : PyStr.format_comma n = PyStr.commas (PyStr.str_of_int n)).
  { unfold PyStr.format_comma. destruct (Z.ltb_spec n 0); [lia | reflexivity]. }
  rewrite Hformat. split.
  - unfold PyStr.commas. rewrite list_ascii_of_string_of_list_ascii, rev_involutive.
    apply grouped_group3.
    + intros Hnil. apply Hne. rewrite <- (string_of_list_ascii_of_string (PyStr.str_of_int n)).
      rewrite <- (rev_involutive (list_ascii_of_string (PyStr.str_of_int n))), Hnil.
      reflexivity.
    + apply Forall_rev, digits_list, Hdigits.
  - rewrite (remove_commas _ Hdigits). split; [exact Hdigits |]. split; [exact Hne | exact Hrest].
Qed.

Lemma short_below_spec (width : nat) (bound : Z) (d : nat) (n : Z) :
  short_below width bound d = true ->
  bound <= 2 ^ Z.of_nat d ->
  0 <= n < bound ->
  (String.length (PyStr.str_of_int n) <= width)%nat.
Proof.
  unfold short_below. intros Hall Hd Hn.
  pose proof (all_below_spec _ d 0 Hall n ltac:(lia)) as Hcheck. cbv beta in Hcheck.
  apply orb_true_iff in Hcheck as [Hout | Hshort].
  - apply Z.leb_le in Hout. lia.
  - apply Nat.leb_le. exact Hshort.
Qed.

Lemma short_below_10000 : short_below 4 10000 14 = true.
Proof. vm_compute. reflexivity. Qed.

Lemma short_below_100 : short_below 2 100 7 = true.
Proof. vm_compute. reflexivity. Qed.

Lemma zeros_digits (k : nat) (d : string) :
  all_chars PyStr.is_digit (PyStr.zeros k ++ d) = all_chars PyStr.is_digit d
  /\ PyStr.digits_value 0 (PyStr.zeros k ++ d) = PyStr.digits_value 0 d
  /\ String.length (PyStr.zeros k ++ d) = (k + String.length d)%nat.
Proof.
  induction k as [|k (IHd & IHv & IHl)]; [repeat split |].
  cbn [PyStr.zeros]. rewrite append_cons. cbn [all_chars PyStr.digits_value String.length].
  rewrite IHd, IHl. repeat split. exact IHv.
Qed.

Lemma zero_fill_padded (width n : nat) :
  (String.length (PyStr.str_of_int (Z.of_nat n)) <= width)%nat ->
  padded width n (PyStr.zero_fill width n).
Proof.
  intros Hlen. unfold PyStr.zero_fill, padded.
  destruct (str_of_int_numeral (Z.of_nat n) ltac:(lia)) as (Hdigits & _ & Hvalue).
  destruct (zeros_digits (width - String.length (PyStr.str_of_int (Z.of_nat n)))
                         (PyStr.str_of_int (Z.of_nat n))) as (Hd & Hv & Hl).
  rewrite Hd, Hv, Hl. split; [lia |]. split; [exact Hdigits | exact Hvalue].
Qed.

(** [str(d.date())] is the date in the form YYYY-MM-DD. *)
Lemma date_str_iso (t : datetime) :
  Z.of_nat (year t) < 10000 -> Z.of_nat (month t) < 100 -> Z.of_nat (day t) < 100 ->
  iso_date t (date_str t).
Proof.
  intros Hy Hm Hd. exists (PyStr.zero_fill 4 (year t)), (PyStr.zero_fill 2 (month t)),
                          (PyStr.zero_fill 2 (day t)).
  split; [reflexivity |].
  split; [apply zero_fill_padded, (short_below_spec 4 10000 14);
          [apply short_below_10000 | discriminate | lia] |].
  split; apply zero_fill_padded, (short_below_spec 2 100 7);
    first [apply short_below_100 | discriminate | lia].
Qed.

(** C7. For an empty offer the generator returns "No offer available."
    and reads no clock. For any other offer it returns a text of fixed
    form, given here in full, whose fields are: the date of the clock in
    the form YYYY-MM-DD; the name as it was given; the approved amount
    and the processing fee in decimal digits grouped by three with
    commas; the rate, "14.0" or "16.0"; the tenure in decimal digits; and
    the sentence that no signature is required. A key the offer does not
    hold is shown as "0", and a missing name as "None". For a fixed
    date the text is a function of the name and the offer alone: the
    store and the time of day do not enter. *)
Theorem offer_letter_text (name : option string) (o : Offer)
        (d : option (gmap string Session)) (clk : nat -> datetime) (n : nat) :
  (offer_is_empty o = true ->
   generate_offer_letter name o (mkWorld d clk n)
   = (Return "No offer available.", mkWorld d clk n))
  /\ (offer_is_empty o = false ->
      exists date who amount rate_shown tenure fee : string,
        generate_offer_letter name o (mkWorld d clk n)
        = (Return ("LoanLens AI – Sanction Letter" ++ nl ++ nl
                   ++ "Date: " ++ date ++ nl
                   ++ "To, " ++ who ++ nl ++ nl
                   ++ "We are pleased to sanction a personal loan with the following terms:" ++ nl
                   ++ "Approved Amount: ₹" ++ amount ++ nl
                   ++ "Interest Rate: " ++ rate_shown ++ "% p.a." ++ nl
                   ++ "Tenure: " ++ tenure ++ " months" ++ nl
                   ++ "Processing Fee: ₹" ++ fee ++ nl ++ nl
                   ++ "This is a system-generated letter and does not require a signature." ++ nl),
           mkWorld d clk (S n))
        /\ (Z.of_nat (year (clk n)) < 10000 -> Z.of_nat (month (clk n)) < 100 ->
            Z.of_nat (day (clk n)) < 100 -> iso_date (clk n) date)
        /\ (forall customer, name = Some customer -> who = customer)
        /\ (name = None -> who = "None")
        /\ (forall a, approved o = Some a -> 0 <= a -> thousands a amount)
        /\ (approved o = None -> amount = "0")
        /\ (rate o = Some rate_14_0 -> rate_shown = "14.0")
        /\ (rate o = Some rate_16_0 -> rate_shown = "16.0")
        /\ (rate o = None -> rate_shown = "0")
        /\ (forall m, tenure_months o = Some m -> 0 <= m -> numeral m tenure)
        /\ (tenure_months o = None -> tenure = "0")
        /\ (forall f, processing_fee o = Some f -> 0 <= f -> thousands f fee)
        /\ (processing_fee o = None -> fee = "0"))
  /\ (forall (d' : option (gmap string Session)) (clk' : nat -> datetime) (n' : nat),
        year (clk' n') = year (clk n) ->
        month (clk' n') = month (clk n) ->
        day (clk' n') = day (clk n) ->
        fst (generate_offer_letter name o (mkWorld d' clk' n'))
        = fst (generate_offer_letter name o (mkWorld d clk n))).
Proof.
  split; [| split].
  - intros Hempty. rewrite run_generate_offer_letter, Hempty. reflexivity.
  - intros Hfull.
    exists (date_str (clk n)), (str_or_none name),
      (PyStr.format_comma (default 0 (approved o))),
      (from_option rate_str "0" (rate o)),
      (PyStr.str_of_int (default 0 (tenure_months o))),
      (PyStr.format_comma (default 0 (processing_fee o))).
    rewrite run_generate_offer_letter, Hfull.
    split; [reflexivity |].
    split; [apply date_str_iso |].
    split; [intros customer ->; reflexivity |].
    split; [intros ->; reflexivity |].
    split; [intros a -> Ha; apply format_comma_thousands, Ha |].
    split; [intros ->; reflexivity |].
    split; [intros ->; reflexivity |].
    split; [intros ->; reflexivity |].
    split; [intros ->; reflexivity |].
    split; [intros m -> Hm; apply str_of_int_is_numeral, Hm |].
    split; [intros ->; reflexivity |].
    split; [intros f -> Hf; apply format_comma_thousands, Hf |].
    intros ->. reflexivity.
  - intros d' clk' n' Hy Hm Hd. rewrite !run_generate_offer_letter.
    destruct (offer_is_empty o); [reflexivity |].
    cbn [fst]. unfold letter_text, date_str. rewrite Hy, Hm, Hd. reflexivity.
Qed.
